(** * mapthens: the scrape / geocode / cache pipeline

    A shallow embedding of the Go code of the repository:

    - the interactive server ([server/main.go]: [geocodeAddress],
      [scrapeEvents], [saveEventsToFile], [loadEventsFromFile],
      [getEvents]) in [Module Server];
    - the batch scraper ([mapthens-endpoints/scraper/scraper.go]:
      [geocodeAddress], [scrapeEvents]) in [Module Scraper];
    - the request handlers that call [getEvents] at the same time, under
      its mutex, in [Module Callers];
    - the check of the launcher, [run.sh].

    Go values are modelled as the code has them: a Go [string] is a byte
    string ([String.string]), a [float64] is a primitive float, a slice
    [[]Event] is a list (the nil slice and the empty slice are both [[]]),
    an [error] result is an [option] of an error value.  Everything outside
    the process (environment variables, the clock, the two remote HTTP
    services, the success of a file write) is collected in a [World]; every
    effect the code performs on the outside is recorded in a trace, log
    output apart. *)

From Stdlib Require Import String Ascii List Bool Arith NArith ZArith Lia.
From Stdlib Require Import Floats.PrimFloat.
From Stdlib Require Import Permutation.
Import ListNotations.
Open Scope string_scope.
Open Scope list_scope.

Set Implicit Arguments.

(** ** Go strings *)

Module GoStrings.

(** [strings.HasPrefix(s, prefix)]. *)
Definition HasPrefix (s prefix : string) : bool := String.prefix prefix s.

Definition code (c : ascii) : N := N_of_ascii c.

(** The one-byte white space of [strings.TrimSpace] (its [asciiSpace]
    table): tab, line feed, vertical tab, form feed, carriage return,
    space. *)
Definition asciiSpace (c : ascii) : bool :=
  let n := code c in
  ((9 <=? n) && (n <=? 13) || (n =? 32))%N.

(** The white space runes of [unicode.IsSpace] that take two bytes in
    UTF-8: U+0085 and U+00A0. *)
Definition space2 (a b : ascii) : bool :=
  ((code a =? 194) && ((code b =? 133) || (code b =? 160)))%N.

(** Those that take three bytes: U+1680, U+2000 to U+200A, U+2028,
    U+2029, U+202F, U+205F and U+3000. *)
Definition space3 (a b c : ascii) : bool :=
  let x := code a in let y := code b in let z := code c in
  ((x =? 225) && (y =? 154) && (z =? 128)
   || (x =? 226) && (y =? 128)
      && ((128 <=? z) && (z <=? 138) || (z =? 168) || (z =? 169) || (z =? 175))
   || (x =? 226) && (y =? 129) && (z =? 159)
   || (x =? 227) && (y =? 128) && (z =? 128))%N.

(** Removes the white space runes at the front of [s]; with [back] the
    bytes of [s] are those of a reversed string, so that the bytes of a
    rune come last byte first. *)
Fixpoint trimFront (back : bool) (s : string) : string :=
  match s with
  | EmptyString => EmptyString
  | String a r =>
      if asciiSpace a then trimFront back r
      else
        match r with
        | String b r2 =>
            if (if back then space2 b a else space2 a b)
            then trimFront back r2
            else
              match r2 with
              | String c r3 =>
                  if (if back then space3 c b a else space3 a b c)
                  then trimFront back r3
                  else s
              | EmptyString => s
              end
        | EmptyString => s
        end
  end.

Definition reverse (s : string) : string :=
  string_of_list_ascii (rev (list_ascii_of_string s)).

(** [strings.TrimSpace(s)]: [s] without its leading and trailing white
    space, as defined by Unicode. *)
Definition TrimSpace (s : string) : string :=
  reverse (trimFront true (reverse (trimFront false s))).

End GoStrings.

Import GoStrings.

(** ** Data structures *)

(** [type Event struct], the same in both programs. *)
Record Event : Type := mkEvent {
  Date : string;
  Datetime : string;
  Category : string;
  Title : string;
  EventLink : string;
  Venue : string;
  Address : string;
  Description : string;
  Latitude : float;
  Longitude : float
}.

(** One feature of the geocoding response: [Geometry.Coordinates], a
    [[2]float64] holding longitude then latitude. *)
Record Feature : Type := mkFeature {
  Coordinates0 : float;
  Coordinates1 : float
}.

(** [MapboxResponse] (server) and [Response] (scraper). *)
Record MapboxResponse : Type := mkMapboxResponse {
  Features : list Feature
}.

(** What the callback of [scrapeEvents] reads from one selected event row
    (a [*goquery.Selection]): [Attr] gives [None] when the attribute (or the
    element) is missing, [Text] gives the empty string when nothing
    matches. *)
Record Row : Type := mkRow {
  (** [Find("time.tribe-events-calendar-list__event-datetime").Attr("datetime")] *)
  time_datetime_attr : option string;
  (** [Find(".tribe-events-calendar-list__event-datetime").Text()] *)
  datetime_text : string;
  (** [Find(".tribe-events-event-categories a").Text()] *)
  categories_text : string;
  (** [Find(".tribe-events-calendar-list__event-title").Text()] *)
  title_text : string;
  (** [Find(".tribe-events-calendar-list__event-title-link").Attr("href")] *)
  title_link_href : option string;
  (** [Find(".tribe-events-calendar-list__event-venue-title").Text()] *)
  venue_title_text : string;
  (** [Find(".tribe-events-calendar-list__event-venue-address").Text()] *)
  venue_address_text : string;
  (** [Find(".tribe-events-calendar-list__event-description p").Text()] *)
  description_text : string
}.

(** A parsed listing document: the rows selected by
    [".tribe-common-g-row.tribe-events-calendar-list__event-row"], in
    document order. *)
Definition Document : Type := list Row.

(** The value of an [Attr] call whose existence flag is dropped
    ([eventLink, _ := ...]): the empty string when missing. *)
Definition attr_or_empty (a : option string) : string :=
  match a with
  | Some v => v
  | None => ""
  end.

(** ** Errors *)

(** The errors of the two programs, one constructor per [fmt.Errorf] (or
    library error) of the source, named after the taxonomy of the
    specification. *)
Inductive error : Type :=
  | ConfigurationError            (* "MAPBOX_ACCESS_TOKEN not set" *)
  | TransportError                (* "error making request: ..." *)
  | UpstreamError (status : Z)    (* "non-200 status code: ..." *)
  | DecodeError                   (* "error decoding json response: ..." *)
  | NotFoundError                 (* "number of features returned was zero" *)
  | FetchError                    (* "failed to fetch events page: ..." *)
  | FetchStatusError (status : Z) (* "received non-200 status code: ..." *)
  | ParseError                    (* "failed to parse HTML: ..." *)
  | FileNotFound                  (* os.ReadFile: no such file *)
  | FileDecodeError               (* json.Unmarshal failed *)
  | MarshalError                  (* json.MarshalIndent failed *)
  | WriteError.                   (* os.WriteFile failed *)

(** ** The outside world *)

(** The outcome of [http.Get]: a transport error, or a response with its
    status code and its body as the decoder of the caller reads it. *)
Inductive http_result (A : Type) : Type :=
  | NetworkFailure
  | HttpResponse (StatusCode : Z) (Body : A).
Arguments NetworkFailure {A}.

Definition StatusOK : Z := 200.

Record World : Type := mkWorld {
  (** [os.Getenv("MAPBOX_ACCESS_TOKEN")], empty when unset. *)
  MAPBOX_ACCESS_TOKEN : string;
  (** [time.Now().Format("2006-01-02")]. *)
  today : string;
  (** [http.Get("https://flagpole.com/events/")]; the body is [None] when
      [goquery.NewDocumentFromReader] fails on it. *)
  flagpole : http_result (option Document);
  (** [http.Get] on the geocoding endpoint with the query parameters [q]
      and [access_token]; the body is [None] when the JSON decoder fails
      on it. *)
  mapbox : string -> string -> http_result (option MapboxResponse);
  (** Whether [os.WriteFile] on the data file succeeds. *)
  disk_writable : bool
}.

(** ** Effects *)

(** What a run does to the outside, newest first. *)
Inductive io_event : Type :=
  | GetListing
  | GetGeocode (q access_token : string)
  | Sleep100ms
  | StatFile
  | ReadFile
  | WriteFile.

Definition trace : Type := list io_event.

(** A computation over a state [S], returning an [A]. *)
Definition M (S A : Type) : Type := S -> A * S.

Definition ret {S A} (a : A) : M S A := fun s => (a, s).

Definition bind {S A B} (m : M S A) (k : A -> M S B) : M S B :=
  fun s => let (a, s') := m s in k a s'.

Notation "x <- m ;; k" := (bind m (fun x => k))
  (at level 61, m at next level, right associativity).
Notation "m ;;; k" := (bind m (fun _ => k))
  (at level 61, right associativity).

(** A computation that reads nothing but the world and extends the
    trace. *)
Definition io (A : Type) : Type := M trace A.

Definition emit (e : io_event) : io unit := fun t => (tt, e :: t).

Definition is_scrape (e : io_event) : bool :=
  match e with
  | GetListing => true
  | _ => false
  end.

Definition is_load (e : io_event) : bool :=
  match e with
  | ReadFile => true
  | _ => false
  end.

Definition count (p : io_event -> bool) (t : trace) : nat :=
  List.length (filter p t).


(** [Selection.Each]: the callback is run on every selected row, in
    document order, threading the variables it captures. *)
Fixpoint Each {A S : Type} (f : S -> A -> io S) (l : list A) (s : S) : io S :=
  match l with
  | [] => ret s
  | x :: l' => s' <- f s x ;; Each f l' s'
  end.

(** The row test of both [scrapeEvents]:
    [exists && strings.HasPrefix(dateAttr, today)]. *)
Definition same_day (today : string) (event : Row) : bool :=
  match time_datetime_attr event with
  | Some dateAttr => HasPrefix dateAttr today
  | None => false
  end.

(** ** encoding/json, as far as the event file needs it *)

Module GoJSON.

#[local] Set Warnings "-register-all".

(** A JSON text, read as the value it denotes.  A number carries the
    [float64] that [strconv.ParseFloat] gives for its literal (an infinity
    for a literal out of range). *)
Inductive json : Type :=
  | JNull
  | JBool (b : bool)
  | JNumber (f : float)
  | JString (s : string)
  | JArray (items : list json)
  | JObject (members : list (string * json)).

(** The bytes of a file or of an object: a JSON text (white space around
    it apart), a JSON text followed by other bytes, or bytes that do not
    begin with a JSON text. *)
Inductive bytes : Type :=
  | NotJSON
  | Text (v : json)
  | TextThenMore (v : json).

Definition byte (n : N) : ascii := ascii_of_N n.

Definition cont (c : ascii) : bool := ((128 <=? code c) && (code c <=? 191))%N.

(** The well-formed UTF-8 sequences of two, three and four bytes
    ([utf8.DecodeRuneInString]: no overlong form, no surrogate, nothing
    above U+10FFFF). *)
Definition utf8_2 (a b : ascii) : bool :=
  ((194 <=? code a) && (code a <=? 223))%N && cont b.

Definition utf8_3 (a b c : ascii) : bool :=
  let x := code a in let y := code b in
  ((x =? 224) && (160 <=? y) && (y <=? 191)
   || ((225 <=? x) && (x <=? 236) || (x =? 238) || (x =? 239)) && cont b
   || (x =? 237) && (128 <=? y) && (y <=? 159))%N
  && cont c.

Definition utf8_4 (a b c d : ascii) : bool :=
  let x := code a in let y := code b in
  ((x =? 240) && (144 <=? y) && (y <=? 191)
   || (241 <=? x) && (x <=? 243) && cont b
   || (x =? 244) && (128 <=? y) && (y <=? 143))%N
  && cont c && cont d.

(** U+FFFD in UTF-8. *)
Definition replacement (r : string) : string :=
  String (byte 239) (String (byte 191) (String (byte 189) r)).

(** A string as [json.Marshal] writes it and [json.Unmarshal] reads it
    back: "coerced to valid UTF-8, replacing invalid bytes with the Unicode
    replacement rune".  Escapes (quotes, control characters, [<], [>],
    [&], U+2028, U+2029) are undone by the reader and leave no mark. *)
Fixpoint coerce (s : string) : string :=
  match s with
  | EmptyString => EmptyString
  | String a r =>
      if (code a <? 128)%N then String a (coerce r)
      else
        match r with
        | String b r2 =>
            if utf8_2 a b then String a (String b (coerce r2))
            else
              match r2 with
              | String c r3 =>
                  if utf8_3 a b c
                  then String a (String b (String c (coerce r3)))
                  else
                    match r3 with
                    | String d r4 =>
                        if utf8_4 a b c d
                        then String a (String b (String c (String d (coerce r4))))
                        else replacement (coerce r)
                    | EmptyString => replacement (coerce r)
                    end
              | EmptyString => replacement (coerce r)
              end
        | EmptyString => replacement (coerce r)
        end
  end.

(** [utf8.ValidString]. *)
Definition ValidString (s : string) : bool := (coerce s =? s)%string.

(** The fields of [Event], in declaration order, and their [json:"..."]
    tags. *)
Inductive field : Type :=
  | FDate | FDatetime | FCategory | FTitle | FEventLink
  | FVenue | FAddress | FDescription | FLatitude | FLongitude.

Definition fields : list field :=
  [FDate; FDatetime; FCategory; FTitle; FEventLink;
   FVenue; FAddress; FDescription; FLatitude; FLongitude].

Definition tag (f : field) : string :=
  match f with
  | FDate => "date"
  | FDatetime => "datetime"
  | FCategory => "category"
  | FTitle => "title"
  | FEventLink => "event_link"
  | FVenue => "venue"
  | FAddress => "address"
  | FDescription => "description"
  | FLatitude => "latitude"
  | FLongitude => "longitude"
  end.

(** The value of a field, as [Marshal] writes it. *)
Definition encode_field (e : Event) (f : field) : json :=
  match f with
  | FDate => JString (coerce (Date e))
  | FDatetime => JString (coerce (Datetime e))
  | FCategory => JString (coerce (Category e))
  | FTitle => JString (coerce (Title e))
  | FEventLink => JString (coerce (EventLink e))
  | FVenue => JString (coerce (Venue e))
  | FAddress => JString (coerce (Address e))
  | FDescription => JString (coerce (Description e))
  | FLatitude => JNumber (Latitude e)
  | FLongitude => JNumber (Longitude e)
  end.

(** [Marshal] refuses a NaN or an infinity ([UnsupportedValueError]). *)
Definition encodable (e : Event) : bool :=
  is_finite (Latitude e) && is_finite (Longitude e).

Definition MarshalEvent (e : Event) : json :=
  JObject (map (fun f => (tag f, encode_field e f)) fields).

(** [json.MarshalIndent(events, "", "  ")] on a [[]Event]: [None] stands
    for the error.  The empty collection is written as [null]: the only
    empty slice the program ever saves is the nil slice that [scrapeEvents]
    returns when it has appended nothing. *)
Definition MarshalIndent (events : list Event) : option bytes :=
  if forallb encodable events
  then Some (Text match events with
                  | [] => JNull
                  | _ => JArray (map MarshalEvent events)
                  end)
  else None.

Definition lower (c : ascii) : ascii :=
  if ((65 <=? code c) && (code c <=? 90))%N then byte (code c + 32) else c.

(** The key with its letters folded: an ASCII capital becomes the small
    letter, and so do the two other runes that fold to an ASCII letter,
    U+017F (C5 BF, long s) and U+212A (E2 84 AA, the Kelvin sign). *)
Fixpoint fold (s : string) : string :=
  match s with
  | EmptyString => EmptyString
  | String a r =>
      match r with
      | String b r2 =>
          if ((code a =? 197) && (code b =? 191))%N then String "s" (fold r2)
          else
            match r2 with
            | String c r3 =>
                if ((code a =? 226) && (code b =? 132) && (code c =? 170))%N
                then String "k" (fold r3)
                else String (lower a) (fold r)
            | EmptyString => String (lower a) (fold r)
            end
      | EmptyString => String (lower a) (fold r)
      end
  end.

(** The struct field an object key is stored in: the one whose tag is the
    key, letter case apart. *)
Definition field_of_key (key : string) : option field :=
  find (fun f => (fold key =? tag f)%string) fields.

(** Stores one member of an object; [None] is an [UnmarshalTypeError].  A
    [null] leaves the field as it is, an unknown key is skipped. *)
Definition assign (e : Event) (member : string * json) : option Event :=
  let (key, v) := member in
  match field_of_key key with
  | None => Some e
  | Some f =>
      match v with
      | JNull => Some e
      | JString s =>
          let s := coerce s in
          match f with
          | FDate => Some (mkEvent s (Datetime e) (Category e) (Title e) (EventLink e) (Venue e) (Address e) (Description e) (Latitude e) (Longitude e))
          | FDatetime => Some (mkEvent (Date e) s (Category e) (Title e) (EventLink e) (Venue e) (Address e) (Description e) (Latitude e) (Longitude e))
          | FCategory => Some (mkEvent (Date e) (Datetime e) s (Title e) (EventLink e) (Venue e) (Address e) (Description e) (Latitude e) (Longitude e))
          | FTitle => Some (mkEvent (Date e) (Datetime e) (Category e) s (EventLink e) (Venue e) (Address e) (Description e) (Latitude e) (Longitude e))
          | FEventLink => Some (mkEvent (Date e) (Datetime e) (Category e) (Title e) s (Venue e) (Address e) (Description e) (Latitude e) (Longitude e))
          | FVenue => Some (mkEvent (Date e) (Datetime e) (Category e) (Title e) (EventLink e) s (Address e) (Description e) (Latitude e) (Longitude e))
          | FAddress => Some (mkEvent (Date e) (Datetime e) (Category e) (Title e) (EventLink e) (Venue e) s (Description e) (Latitude e) (Longitude e))
          | FDescription => Some (mkEvent (Date e) (Datetime e) (Category e) (Title e) (EventLink e) (Venue e) (Address e) s (Latitude e) (Longitude e))
          | FLatitude | FLongitude => None
          end
      | JNumber x =>
          if is_finite x then
            match f with
            | FLatitude => Some (mkEvent (Date e) (Datetime e) (Category e) (Title e) (EventLink e) (Venue e) (Address e) (Description e) x (Longitude e))
            | FLongitude => Some (mkEvent (Date e) (Datetime e) (Category e) (Title e) (EventLink e) (Venue e) (Address e) (Description e) (Latitude e) x)
            | _ => None
            end
          else None
      | _ => None
      end
  end.

Fixpoint assign_all (e : Event) (members : list (string * json)) : option Event :=
  match members with
  | [] => Some e
  | m :: members' =>
      match assign e m with
      | Some e' => assign_all e' members'
      | None => None
      end
  end.

(** The zero value of [Event]. *)
Definition zero : Event := mkEvent "" "" "" "" "" "" "" "" 0%float 0%float.

Definition UnmarshalEvent (v : json) : option Event :=
  match v with
  | JNull => Some zero
  | JObject members => assign_all zero members
  | _ => None
  end.

Fixpoint UnmarshalEvents (items : list json) : option (list Event) :=
  match items with
  | [] => Some []
  | v :: items' =>
      match UnmarshalEvent v, UnmarshalEvents items' with
      | Some e, Some l => Some (e :: l)
      | _, _ => None
      end
  end.

(** [json.Unmarshal(data, &events)] into a [[]Event]; [None] stands for
    the error (a syntax error, bytes after the JSON text, or a value of
    the wrong type). *)
Definition Unmarshal (data : bytes) : option (list Event) :=
  match data with
  | NotJSON => None
  | Text JNull => Some []
  | Text (JArray items) => UnmarshalEvents items
  | Text _ => None
  | TextThenMore _ => None
  end.

(** [json.NewDecoder(r).Decode(&events)] into a [[]Event]: the decoder
    reads the first JSON value of the stream and leaves what follows it
    unread. *)
Definition Decode (data : bytes) : option (list Event) :=
  match data with
  | NotJSON => None
  | Text v | TextThenMore v => Unmarshal (Text v)
  end.

End GoJSON.

Import GoJSON.

(** ** The interactive server *)

Module Server.

(** [func geocodeAddress(address string) (float64, float64, error)]:
    longitude, latitude, error. *)
Definition geocodeAddress (w : World) (address : string)
  : io (float * float * option error) :=
  let accessToken := MAPBOX_ACCESS_TOKEN w in
  if (accessToken =? "")%string then ret (0%float, 0%float, Some ConfigurationError)
  else
    emit (GetGeocode address accessToken) ;;;
    match mapbox w address accessToken with
    | NetworkFailure => ret (0%float, 0%float, Some TransportError)
    | HttpResponse status body =>
        if negb (status =? StatusOK)%Z
        then ret (0%float, 0%float, Some (UpstreamError status))
        else
          match body with
          | None => ret (0%float, 0%float, Some DecodeError)
          | Some result =>
              match Features result with
              | [] => ret (0%float, 0%float, Some NotFoundError)
              | f :: _ => ret (Coordinates0 f, Coordinates1 f, None)
              end
          end
    end.

(** The callback of [Each] in [scrapeEvents]; [eventList] is the captured
    slice. *)
Definition scrapeRow (w : World) (today : string)
  (eventList : list Event) (event : Row) : io (list Event) :=
  match time_datetime_attr event with
  | None => ret eventList
  | Some dateAttr =>
      if negb (HasPrefix dateAttr today) then ret eventList
      else
        let datetime := TrimSpace (datetime_text event) in
        let category := TrimSpace (categories_text event) in
        let title := TrimSpace (title_text event) in
        let eventLink := attr_or_empty (title_link_href event) in
        let venue := TrimSpace (venue_title_text event) in
        let address := TrimSpace (venue_address_text event) in
        let description := TrimSpace (description_text event) in
        r <- geocodeAddress w address ;;
        let '(longitude, latitude, err) := r in
        c <- match err with
             | Some _ => ret (0%float, 0%float)
             | None => emit Sleep100ms ;;; ret (longitude, latitude)
             end ;;
        let '(longitude, latitude) := c in
        ret (eventList ++
             [ {| Date := dateAttr; Datetime := datetime; Category := category;
                  Title := title; EventLink := eventLink; Venue := venue;
                  Address := address; Description := description;
                  Latitude := latitude; Longitude := longitude |} ])%list
  end.

(** [func scrapeEvents() ([]Event, error)]. *)
Definition scrapeEvents (w : World) : io (list Event * option error) :=
  emit GetListing ;;;
  match flagpole w with
  | NetworkFailure => ret ([], Some FetchError)
  | HttpResponse status body =>
      if negb (status =? StatusOK)%Z then ret ([], Some (FetchStatusError status))
      else
        match body with
        | None => ret ([], Some ParseError)
        | Some doc =>
            let today := today w in
            eventList <- Each (scrapeRow w today) doc [] ;;
            ret (eventList, None)
        end
  end.

(** The global variables ([eventsCache]; [cacheTime] is never used and
    [mutex] is modelled with the callers, below), the file named by
    [dataFile] ([None] when it does not exist) and the effects so far. *)
Record State : Type := mkState {
  eventsCache : list Event;
  events_json : option bytes;
  log : trace
}.

Definition prog (A : Type) : Type := M State A.

(** Runs a computation that only extends the trace. *)
Definition liftIO {A} (m : io A) : prog A :=
  fun s =>
    let (a, t) := m (log s) in
    (a, mkState (eventsCache s) (events_json s) t).

Definition get_eventsCache : prog (list Event) :=
  fun s => (eventsCache s, s).

Definition set_eventsCache (events : list Event) : prog unit :=
  fun s => (tt, mkState events (events_json s) (log s)).

(** [os.Stat(dataFile)]: whether [err == nil]. *)
Definition Stat : prog bool :=
  fun s =>
    (match events_json s with Some _ => true | None => false end,
     mkState (eventsCache s) (events_json s) (StatFile :: log s)).

(** [os.ReadFile(dataFile)]. *)
Definition ReadFile_dataFile : prog (option bytes) :=
  fun s =>
    (events_json s, mkState (eventsCache s) (events_json s) (ReadFile :: log s)).

(** [os.WriteFile(dataFile, data, 0644)]: the file is replaced, or the
    call fails when it opens the file (no permission, no directory, a
    read-only disk) and leaves the file as it was.  A failure after the
    file has been opened and truncated is not modelled. *)
Definition WriteFile_dataFile (w : World) (data : bytes) : prog (option error) :=
  fun s =>
    if disk_writable w
    then (None, mkState (eventsCache s) (Some data) (WriteFile :: log s))
    else (Some WriteError, mkState (eventsCache s) (events_json s) (WriteFile :: log s)).

(** [func saveEventsToFile(events []Event) error]. *)
Definition saveEventsToFile (w : World) (events : list Event) : prog (option error) :=
  match MarshalIndent events with
  | None => ret (Some MarshalError)
  | Some data => WriteFile_dataFile w data
  end.

(** [func loadEventsFromFile() ([]Event, error)]. *)
Definition loadEventsFromFile : prog (list Event * option error) :=
  r <- ReadFile_dataFile ;;
  match r with
  | None => ret ([], Some FileNotFound)
  | Some data =>
      match Unmarshal data with
      | None => ret ([], Some FileDecodeError)
      | Some events => ret (events, None)
      end
  end.

(** The first [if] of [getEvents]: with an empty in-memory cache, try the
    file. *)
Definition tryLoad : prog unit :=
  cache <- get_eventsCache ;;
  if (List.length cache =? 0)%nat then
    found <- Stat ;;
    if found then
      r <- loadEventsFromFile ;;
      match r with
      | (events, None) => set_eventsCache events
      | (_, Some _) => ret tt
      end
    else ret tt
  else ret tt.

(** The second [if] of [getEvents] and its [return]: if the cache is still
    empty, scrape, adopt and save. *)
Definition scrapeIfEmpty (w : World) : prog (list Event * option error) :=
  cache <- get_eventsCache ;;
  if (List.length cache =? 0)%nat then
    r <- liftIO (scrapeEvents w) ;;
    match r with
    | (_, Some err) => ret ([], Some err)
    | (events, None) =>
        set_eventsCache events ;;;
        saveEventsToFile w events ;;;
        cache <- get_eventsCache ;;
        ret (cache, None)
    end
  else ret (cache, None).

(** [func getEvents() ([]Event, error)], the body between [mutex.Lock()]
    and the deferred [mutex.Unlock()]. *)
Definition getEvents (w : World) : prog (list Event * option error) :=
  tryLoad ;;; scrapeIfEmpty w.

(** The process as it starts: nothing in memory, nothing done yet. *)
Definition start (file : option bytes) : State := mkState [] file [].

End Server.

(** ** The batch scraper *)

Module Scraper.

(** [func geocodeAddress(address string) (float64, float64, error)]: the
    credential is read and sent as it is. *)
Definition geocodeAddress (w : World) (address : string)
  : io (float * float * option error) :=
  let accessToken := MAPBOX_ACCESS_TOKEN w in
  emit (GetGeocode address accessToken) ;;;
  match mapbox w address accessToken with
  | NetworkFailure => ret (0%float, 0%float, Some TransportError)
  | HttpResponse status body =>
      if negb (status =? StatusOK)%Z
      then ret (0%float, 0%float, Some (UpstreamError status))
      else
        match body with
        | None => ret (0%float, 0%float, Some DecodeError)
        | Some result =>
            match Features result with
            | [] => ret (0%float, 0%float, Some NotFoundError)
            | f :: _ => ret (Coordinates0 f, Coordinates1 f, None)
            end
        end
  end.

Definition scrapeRow (w : World) (today : string)
  (eventList : list Event) (event : Row) : io (list Event) :=
  match time_datetime_attr event with
  | None => ret eventList
  | Some dateAttr =>
      if negb (HasPrefix dateAttr today) then ret eventList
      else
        let datetime := TrimSpace (datetime_text event) in
        let category := TrimSpace (categories_text event) in
        let title := TrimSpace (title_text event) in
        let eventLink := attr_or_empty (title_link_href event) in
        let venue := TrimSpace (venue_title_text event) in
        let address := TrimSpace (venue_address_text event) in
        let description := TrimSpace (description_text event) in
        r <- geocodeAddress w address ;;
        let '(longitude, latitude, err) := r in
        let '(longitude, latitude) :=
          match err with
          | Some _ => ((-1)%float, (-1)%float)
          | None => (longitude, latitude)
          end in
        ret (eventList ++
             [ {| Date := dateAttr; Datetime := datetime; Category := category;
                  Title := title; EventLink := eventLink; Venue := venue;
                  Address := address; Description := description;
                  Latitude := latitude; Longitude := longitude |} ])%list
  end.

(** [func scrapeEvents() ([]Event, error)]. *)
Definition scrapeEvents (w : World) : io (list Event * option error) :=
  emit GetListing ;;;
  match flagpole w with
  | NetworkFailure => ret ([], Some FetchError)
  | HttpResponse status body =>
      if negb (status =? StatusOK)%Z then ret ([], Some (FetchStatusError status))
      else
        match body with
        | None => ret ([], Some ParseError)
        | Some doc =>
            let today := today w in
            eventList <- Each (scrapeRow w today) doc [] ;;
            ret (eventList, None)
        end
  end.

End Scraper.


(** ** Concurrent callers of [getEvents]

    Each request handler calls [getEvents], whose whole body runs between
    [mutex.Lock()] and the deferred [mutex.Unlock()].  A caller is at one
    of four points; a step of caller [i] fires only when the mutex lets
    it. *)

Module Callers.

Import Server.

Inductive pc : Type :=
  | AtLock                                    (* before [mutex.Lock()] *)
  | AtLoad                                    (* locked, before the first [if] *)
  | AtScrape                                  (* locked, before the second [if] *)
  | Returned (r : list Event * option error). (* returned and unlocked *)

Record Config : Type := mkConfig {
  shared : State;
  locked : bool;
  callers : list pc
}.

Fixpoint update {A} (i : nat) (x : A) (l : list A) : list A :=
  match l, i with
  | [], _ => []
  | _ :: l', O => x :: l'
  | y :: l', S i' => y :: update i' x l'
  end.

(** One step of caller [i]; [None] when it is blocked on the mutex, has
    returned, or does not exist. *)
Definition step (w : World) (i : nat) (c : Config) : option Config :=
  match nth_error (callers c) i with
  | Some AtLock =>
      if locked c then None
      else Some (mkConfig (shared c) true (update i AtLoad (callers c)))
  | Some AtLoad =>
      let (_, s') := tryLoad (shared c) in
      Some (mkConfig s' (locked c) (update i AtScrape (callers c)))
  | Some AtScrape =>
      let (r, s') := scrapeIfEmpty w (shared c) in
      Some (mkConfig s' false (update i (Returned r) (callers c)))
  | _ => None
  end.

(** Runs a schedule: the callers that step, in order. *)
Fixpoint run (w : World) (schedule : list nat) (c : Config) : option Config :=
  match schedule with
  | [] => Some c
  | i :: schedule' =>
      match step w i c with
      | Some c' => run w schedule' c'
      | None => None
      end
  end.

(** [n] simultaneous first calls in a process that has just started. *)
Definition init (n : nat) (file : option bytes) : Config :=
  mkConfig (start file) false (repeat AtLock n).

Definition inside (p : pc) : bool :=
  match p with
  | AtLoad | AtScrape => true
  | _ => false
  end.

Definition returned (p : pc) : bool :=
  match p with
  | Returned _ => true
  | _ => false
  end.

(** The schedule in which the callers run one after the other. *)
Definition in_turn (n : nat) : list nat :=
  flat_map (fun i => [i; i; i]) (seq 0 n).

End Callers.

(** ** The launcher *)

(** [run.sh]: without the credential the script prints an error and exits
    with status 1; otherwise it starts the server. *)
Inductive launch : Type :=
  | Exit (status : Z)
  | GoRun.

Definition run_sh (w : World) : launch :=
  if (MAPBOX_ACCESS_TOKEN w =? "")%string then Exit 1 else GoRun.

(** ** What a run returns, whatever the trace it starts from *)

Definition eval {A} (m : io A) : A := fst (m []).

(** The event that a same-day row is recorded as: every display field is
    the trimmed text read from the row, the date is the row's [datetime]
    attribute, and the coordinates are those of the geocoder or, when it
    failed, the [sentinel]. *)
Definition recorded (sentinel : float) (outcome : float * float * option error)
  (today : string) (event : Row) (e : Event) : Prop :=
  time_datetime_attr event = Some (Date e) /\
  HasPrefix (Date e) today = true /\
  Datetime e = TrimSpace (datetime_text event) /\
  Category e = TrimSpace (categories_text event) /\
  Title e = TrimSpace (title_text event) /\
  EventLink e = attr_or_empty (title_link_href event) /\
  Venue e = TrimSpace (venue_title_text event) /\
  Address e = TrimSpace (venue_address_text event) /\
  Description e = TrimSpace (description_text event) /\
  Latitude e = match outcome with
               | (_, latitude, None) => latitude
               | (_, _, Some _) => sentinel
               end /\
  Longitude e = match outcome with
                | (longitude, _, None) => longitude
                | (_, _, Some _) => sentinel
                end.

(** Every string field of the event is valid UTF-8. *)
Definition valid_utf8 (e : Event) : bool :=
  ValidString (Date e) && ValidString (Datetime e) && ValidString (Category e)
  && ValidString (Title e) && ValidString (EventLink e) && ValidString (Venue e)
  && ValidString (Address e) && ValidString (Description e).

(** [m] returns the same value from every trace, and only adds effects
    that satisfy [P]. *)
Definition adds {A} (P : io_event -> Prop) (m : io A) : Prop :=
  forall t, exists added, m t = (eval m, (added ++ t)%list) /\ Forall P added.

Definition is_stat (e : io_event) : bool :=
  match e with
  | StatFile => true
  | _ => false
  end.

Definition is_write (e : io_event) : bool :=
  match e with
  | WriteFile => true
  | _ => false
  end.

(** What the first [if] of [getEvents] leaves in an empty in-memory cache:
    the collection decoded from the file, nothing when the file is missing
    or does not decode; and the effects of that attempt. *)
Definition on_disk (file : option bytes) : list Event :=
  match file with
  | Some data =>
      match Unmarshal data with
      | Some events => events
      | None => []
      end
  | None => []
  end.

Definition load_trace (file : option bytes) : trace :=
  match file with
  | Some _ => [ReadFile; StatFile]
  | None => [StatFile]
  end.

(** A request to the geocoder carries a credential; apart from such
    requests a row only sleeps. *)
Definition keyed (e : io_event) : Prop :=
  match e with
  | GetGeocode _ access_token => access_token <> ""
  | Sleep100ms => True
  | _ => False
  end.

(** The state after [saveEventsToFile]: only the file and the trace can
    change. *)
Definition saved (w : World) (events : list Event) (s : Server.State) : Server.State :=
  match MarshalIndent events with
  | None => s
  | Some data =>
      Server.mkState (Server.eventsCache s)
        (if disk_writable w then Some data else Server.events_json s)
        (WriteFile :: Server.log s)
  end.

(** What holds of the callers at every moment, when the scrape of the
    world gives the collection [evs]: as many callers are between
    [Lock] and [Unlock] as the mutex says, at most one; and either nothing
    has been scraped, the in-memory collection is empty and nobody has
    returned, or the listing has been fetched once, the in-memory
    collection is [evs] and whoever has returned has returned [evs]. *)
Definition callers_inv (evs : list Event) (c : Callers.Config) : Prop :=
  List.length (filter Callers.inside (Callers.callers c))
  = (if Callers.locked c then 1 else 0) /\
  ((Server.eventsCache (Callers.shared c) = [] /\
    Server.events_json (Callers.shared c) = None /\
    count is_scrape (Server.log (Callers.shared c)) = 0 /\
    Forall (fun p => Callers.returned p = false) (Callers.callers c))
   \/
   (Server.eventsCache (Callers.shared c) = evs /\
    count is_scrape (Server.log (Callers.shared c)) = 1 /\
    Forall (fun p => forall r, p = Callers.Returned r -> r = (evs, None))
           (Callers.callers c))).

(** ** Sample worlds *)

Module Sample.

Definition day : string := "2024-05-01".

Definition jazz : Row :=
  mkRow (Some "2024-05-01") " May 1 @ 8:00 pm " "Music" "  Jazz Night "
        (Some "https://flagpole.com/events/jazz-night/")
        "The Foundry" "123 Main St" "Live jazz.".

(** A row of the day with no venue address. *)
Definition open_mic : Row :=
  mkRow (Some "2024-05-01") "May 1 @ 9:00 pm" "" "Open Mic" None "" "" "".

(** A row of the day before. *)
Definition yesterday : Row :=
  mkRow (Some "2024-04-30") "April 30 @ 8:00 pm" "" "Trivia" None
        "Pub" "5 Oak Ave" "".

(** A row of the day whose title element is missing. *)
Definition untitled : Row :=
  mkRow (Some "2024-05-01") "May 1 @ 6:00 pm" "" "" None "Pub" "123 Main St" "".

(** A row whose [datetime] attribute carries a time after the day. *)
Definition timed : Row :=
  mkRow (Some "2024-05-01T20:00:00") "May 1 @ 8:00 pm" "" "Late Show" None
        "Pub" "123 Main St" "".

(** A row of the day whose title holds the byte 0xFF, which is not
    UTF-8. *)
Definition mangled : Row :=
  mkRow (Some "2024-05-01") "May 1 @ 7:00 pm" "" (String (byte 255) "ete")
        None "Pub" "123 Main St" "".

(** A geocoding service that rejects an empty credential, knows one
    address and finds nothing for any other. *)
Definition geocoder (q access_token : string) : http_result (option MapboxResponse) :=
  if (access_token =? "")%string then HttpResponse 401 None
  else if (q =? "123 Main St")%string
       then HttpResponse 200
              (Some (mkMapboxResponse [mkFeature (-83.375)%float 33.75%float]))
       else HttpResponse 200 (Some (mkMapboxResponse [])).

Definition world (token : string) (doc : Document) : World :=
  mkWorld token day (HttpResponse 200 (Some doc)) geocoder true.

(** What the extractor makes of [jazz] and [open_mic]. *)
Definition collection : list Event :=
  [ mkEvent "2024-05-01" "May 1 @ 8:00 pm" "Music" "Jazz Night"
            "https://flagpole.com/events/jazz-night/" "The Foundry"
            "123 Main St" "Live jazz." 33.75%float (-83.375)%float;
    mkEvent "2024-05-01" "May 1 @ 9:00 pm" "" "Open Mic" "" "" "" ""
            0%float 0%float ].

(** What the extractor makes of [mangled]. *)
Definition mangled_event : Event :=
  mkEvent "2024-05-01" "May 1 @ 7:00 pm" "" (String (byte 255) "ete") ""
          "Pub" "123 Main St" "" 33.75%float (-83.375)%float.

(** The listing site is down. *)
Definition offline : World :=
  mkWorld "pk.test" day NetworkFailure geocoder true.

End Sample.

(** ** The HTTP endpoint of the server *)

Module Api.

Import Server.

(** What [apiHandler] reads of the [*http.Request]. *)
Record Request : Type := mkRequest {
  Method : string
}.

(** What is written to the [http.ResponseWriter]. *)
Inductive body : Type :=
  | Line (text : string)     (* [http.Error]: the text and a newline *)
  | ErrorLine (err : error)  (* "Error fetching events: " and the error *)
  | Payload (data : bytes)   (* [Encode]: the JSON text and a newline *)
  | Nothing.                 (* [Encode] failed: nothing is written *)

Record Response : Type := mkResponse {
  StatusCode : Z;
  Header : list (string * string);
  Body : body
}.

Definition StatusMethodNotAllowed : Z := 405.
Definition StatusInternalServerError : Z := 500.

(** [http.Error(w, error, code)]. *)
Definition http_Error (text : body) (code : Z) : Response :=
  mkResponse code
    [("Content-Type", "text/plain; charset=utf-8");
     ("X-Content-Type-Options", "nosniff")]
    text.

(** [type APIResponse struct]. *)
Record APIResponse : Type := mkAPIResponse {
  Events : list Event;
  MapboxToken : string
}.

(** [json.NewEncoder(w).Encode(response)]: the events as [MarshalIndent]
    gives them (indentation leaves no mark on the value) under ["events"],
    the token under ["mapbox_token"]; [None] stands for the error. *)
Definition Encode (response : APIResponse) : option bytes :=
  match MarshalIndent (Events response) with
  | Some (Text v) =>
      Some (Text (JObject [("events", v);
                           ("mapbox_token", JString (coerce (MapboxToken response)))]))
  | _ => None
  end.

(** [func apiHandler(w http.ResponseWriter, r *http.Request)]; a handler
    that returns without [WriteHeader] answers 200. *)
Definition apiHandler (w : World) (r : Request) : prog Response :=
  if negb (Method r =? "GET")%string
  then ret (http_Error (Line "Method not allowed") StatusMethodNotAllowed)
  else
    res <- getEvents w ;;
    match res with
    | (_, Some err) => ret (http_Error (ErrorLine err) StatusInternalServerError)
    | (events, None) =>
        let response := mkAPIResponse events (MAPBOX_ACCESS_TOKEN w) in
        ret (mkResponse StatusOK
               [("Content-Type", "application/json");
                ("Access-Control-Allow-Origin", "*")]
               match Encode response with
               | Some data => Payload data
               | None => Nothing
               end)
    end.

End Api.

(** ** The two Lambda functions and the bucket between them *)

Module Lambda.

(** The errors that the two handlers add to those of the scrape. *)
Inductive failure : Type :=
  | ScrapeFailed (err : error)  (* the error of [scrapeEvents] *)
  | MarshalFailed               (* the error of [json.MarshalIndent] *)
  | MissingVariables            (* "missing S3_BUCKET or S3_OBJECT_KEY environment variables" *)
  | ConfigFailed                (* "unable to load AWS SDK config: ..." *)
  | UploadFailed                (* "failed to upload JSON to S3: ..." *)
  | TokenNotFound               (* "mapbox access token not found" *)
  | TimeZoneFailed              (* "error loading time zone: ..." *)
  | SessionFailed               (* "failed to create session: ..." *)
  | GetObjectFailed             (* "failed to get object: ..." *)
  | DecodeFailed.               (* "failed to decode JSON: ..." *)

(** The objects of S3, by bucket and key. *)
Definition objects : Type := string -> string -> option bytes.

Definition no_objects : objects := fun _ _ => None.

Definition put (bucket key : string) (data : bytes) (o : objects) : objects :=
  fun b k => if ((b =? bucket) && (k =? key))%string then Some data else o b k.

(** The calls made to S3, newest first. *)
Inductive s3_call : Type :=
  | PutObject (bucket key : string)
  | GetObject (bucket key : string).

Record State : Type := mkState {
  s3 : objects;
  calls : list s3_call;
  net : trace
}.

Definition prog (A : Type) : Type := M State A.

Definition liftIO {A} (m : io A) : prog A :=
  fun s => let (a, t) := m (net s) in (a, mkState (s3 s) (calls s) t).

(** What the batch scraper finds around it, besides the [World] of its
    scrape. *)
Record Cloud : Type := mkCloud {
  (** [os.Getenv("S3_BUCKET")] and [os.Getenv("S3_OBJECT_KEY")]. *)
  S3_BUCKET : string;
  S3_OBJECT_KEY : string;
  (** [time.Now().Format("2006-01-02")] when [uploadToS3] runs. *)
  upload_day : string;
  (** Whether [config.LoadDefaultConfig] succeeds. *)
  aws_config : bool;
  (** Whether [PutObject] on this bucket and key succeeds. *)
  put_object : string -> string -> bool
}.

(** [func uploadToS3(ctx context.Context, data []byte) error]. *)
Definition uploadToS3 (c : Cloud) (data : bytes) : prog (option failure) :=
  let bucketName := S3_BUCKET c in
  let objectKey := (upload_day c ++ "_" ++ S3_OBJECT_KEY c)%string in
  if ((bucketName =? "") || (objectKey =? ""))%string
  then ret (Some MissingVariables)
  else if negb (aws_config c) then ret (Some ConfigFailed)
  else
    fun s =>
      if put_object c bucketName objectKey
      then (None, mkState (put bucketName objectKey data (s3 s))
                    (PutObject bucketName objectKey :: calls s) (net s))
      else (Some UploadFailed,
            mkState (s3 s) (PutObject bucketName objectKey :: calls s) (net s)).

(** [func handler(ctx context.Context) error] of the batch scraper. *)
Definition scraper_handler (w : World) (c : Cloud) : prog (option failure) :=
  r <- liftIO (Scraper.scrapeEvents w) ;;
  match r with
  | (_, Some err) => ret (Some (ScrapeFailed err))
  | (events, None) =>
      match MarshalIndent events with
      | None => ret (Some MarshalFailed)
      | Some jsonData =>
          err <- uploadToS3 c jsonData ;;
          match err with
          | Some e => ret (Some e)
          | None => ret None
          end
      end
  end.

(** What the endpoint function finds around it. *)
Record Env : Type := mkEnv {
  (** [os.Getenv] of [MAPBOX_ACCESS_TOKEN], [OBJECT_KEY], [BUCKET_NAME]. *)
  TOKEN : string;
  OBJECT_KEY : string;
  BUCKET_NAME : string;
  (** [time.Now().In(location).Format("2006-01-02")] for
      [America/New_York]; [None] when [time.LoadLocation] fails. *)
  new_york_day : option string;
  (** Whether [session.NewSession] succeeds. *)
  session : bool;
  (** Whether S3 answers [GetObject]. *)
  reachable : bool
}.

(** [type Response struct] of the endpoint function. *)
Record Response : Type := mkResponse {
  Events : list Event;
  MapboxToken : string
}.

(** [func handler(ctx context.Context) (interface{}, error)] of the
    endpoint function. *)
Definition endpoint_handler (e : Env) : prog (option Response * option failure) :=
  let mapboxToken := TOKEN e in
  if (mapboxToken =? "")%string then ret (None, Some TokenNotFound)
  else
    match new_york_day e with
    | None => ret (None, Some TimeZoneFailed)
    | Some day =>
        let key := (day ++ "_" ++ OBJECT_KEY e)%string in
        let bucket := BUCKET_NAME e in
        if negb (session e) then ret (None, Some SessionFailed)
        else
          fun s =>
            let s' := mkState (s3 s) (GetObject bucket key :: calls s) (net s) in
            match (if reachable e then s3 s bucket key else None) with
            | None => ((None, Some GetObjectFailed), s')
            | Some data =>
                match Decode data with
                | None => ((None, Some DecodeFailed), s')
                | Some events => ((Some (mkResponse events mapboxToken), None), s')
                end
            end
    end.

Definition start : State := mkState no_objects [] [].

End Lambda.

(** ** More to state the properties with *)

(** The world [w] with the listing [doc], fetched and parsed. *)
Definition with_listing (w : World) (doc : Document) : World :=
  mkWorld (MAPBOX_ACCESS_TOKEN w) (today w) (HttpResponse StatusOK (Some doc))
          (mapbox w) (disk_writable w).


(** The event as it comes back from the file. *)
Definition coerce_event (e : Event) : Event :=
  mkEvent (coerce (Date e)) (coerce (Datetime e)) (coerce (Category e))
          (coerce (Title e)) (coerce (EventLink e)) (coerce (Venue e))
          (coerce (Address e)) (coerce (Description e))
          (Latitude e) (Longitude e).

(** The string begins, or ends, with one of the six white space bytes. *)
Definition starts_with_space (s : string) : bool :=
  match s with
  | String a _ => asciiSpace a
  | EmptyString => false
  end.

Definition ends_with_space (s : string) : bool :=
  starts_with_space (reverse s).

Definition trimmed (s : string) : Prop :=
  starts_with_space s = false /\ ends_with_space s = false.

(** The trace in the order of time. *)
Definition chronicle (t : trace) : list io_event := rev t.

(** What a same-day row adds to the chronicle in the server: nothing
    without a credential, otherwise one request and, after a successful
    one, the pause. *)
Definition server_row_effects (w : World) (row : Row) : list io_event :=
  let address := TrimSpace (venue_address_text row) in
  if (MAPBOX_ACCESS_TOKEN w =? "")%string then []
  else
    GetGeocode address (MAPBOX_ACCESS_TOKEN w)
    :: match snd (eval (Server.geocodeAddress w address)) with
       | None => [Sleep100ms]
       | Some _ => []
       end.

(** And in the batch scraper: one request, with the credential as it
    is. *)
Definition scraper_row_effects (w : World) (row : Row) : list io_event :=
  [GetGeocode (TrimSpace (venue_address_text row)) (MAPBOX_ACCESS_TOKEN w)].

(** Requests handled one after the other, each in the world of its
    moment. *)
Fixpoint serve (requests : list (World * Api.Request))
  : Server.prog (list Api.Response) :=
  match requests with
  | [] => ret []
  | (w, r) :: rest =>
      response <- Api.apiHandler w r ;;
      responses <- serve rest ;;
      ret (response :: responses)
  end.

Definition is_get (request : World * Api.Request) : bool :=
  (Api.Method (snd request) =? "GET")%string.

Definition not_405 (response : Api.Response) : bool :=
  negb (Api.StatusCode response =? Api.StatusMethodNotAllowed)%Z.

(** The key under which the batch scraper uploads, and the one that the
    endpoint function reads. *)
Definition upload_key (c : Lambda.Cloud) : string :=
  (Lambda.upload_day c ++ "_" ++ Lambda.S3_OBJECT_KEY c)%string.

Definition endpoint_key (day : string) (e : Lambda.Env) : string :=
  (day ++ "_" ++ Lambda.OBJECT_KEY e)%string.

(** [n] calls of [getEvents] one after the other, with their results in
    the order of the calls. *)
Fixpoint sequential (w : World) (n : nat)
  : Server.prog (list (list Event * option error)) :=
  match n with
  | O => ret []
  | S n' =>
      r <- Server.getEvents w ;;
      rs <- sequential w n' ;;
      ret (r :: rs)
  end.

(** What the callers that have returned have got, in the order of the
    callers. *)
Fixpoint results (callers : list Callers.pc) : list (list Event * option error) :=
  match callers with
  | [] => []
  | Callers.Returned r :: rest => r :: results rest
  | _ :: rest => results rest
  end.

Definition at_load (p : Callers.pc) : bool :=
  match p with
  | Callers.AtLoad => true
  | _ => false
  end.

Definition at_scrape (p : Callers.pc) : bool :=
  match p with
  | Callers.AtScrape => true
  | _ => false
  end.

(** What holds of the callers at every moment, in any world and with any
    file: the mutex is held exactly when one caller is inside, and the
    shared state is the state after as many calls in a row as callers have
    returned, the caller before the second [if] having done its first
    [if] on top of that. *)
Definition serial_inv (w : World) (file : option bytes) (n : nat)
  (c : Callers.Config) : Prop :=
  List.length (Callers.callers c) = n /\
  List.length (filter at_load (Callers.callers c))
  + List.length (filter at_scrape (Callers.callers c))
  = (if Callers.locked c then 1 else 0) /\
  exists rs sk,
    sequential w (List.length (filter Callers.returned (Callers.callers c)))
      (Server.start file) = (rs, sk) /\
    Permutation.Permutation rs (results (Callers.callers c)) /\
    Callers.shared c
    = (if (List.length (filter at_scrape (Callers.callers c)) =? 0)%nat
       then sk else snd (Server.tryLoad sk)).

Module SampleCloud.

Definition cloud : Lambda.Cloud :=
  Lambda.mkCloud "mapthens-events" "events.json" "2024-05-01" true (fun _ _ => true).

Definition env : Lambda.Env :=
  Lambda.mkEnv "pk.test" "events.json" "mapthens-events" (Some "2024-05-01") true true.

End SampleCloud.

(** * Proofs *)

Unset Implicit Arguments.

(** ** Strings *)

Example TrimSpace_spaces : TrimSpace "  Jazz  Night " = "Jazz  Night".
Proof. reflexivity. Qed.

Example TrimSpace_blank : TrimSpace "   " = "" /\ TrimSpace "" = "".
Proof. split; reflexivity. Qed.

(** Tab and line feed in front, a no-break space (U+00A0) and an em space
    (U+2003) behind. *)
Example TrimSpace_unicode :
  TrimSpace (String (byte 9) (String (byte 10)
               ("8 pm" ++ String (byte 194) (String (byte 160)
                  (String (byte 226) (String (byte 128) (String (byte 131) "")))))))
  = "8 pm".
Proof. reflexivity. Qed.

(** A byte that is not UTF-8 is no white space. *)
Example TrimSpace_invalid :
  TrimSpace (String (byte 255) " x ") = String (byte 255) " x".
Proof. reflexivity. Qed.

Example HasPrefix_day :
  HasPrefix "2024-05-01T20:00:00" "2024-05-01" = true
  /\ HasPrefix "2024-04-30" "2024-05-01" = false
  /\ HasPrefix "" "2024-05-01" = false.
Proof. repeat split. Qed.

(** "Fete" with e circumflex (C3 AA) is valid UTF-8; the same word in
    Latin-1 (EA) is not, and is coerced. *)
Example coerce_valid :
  coerce (String "F" (String (byte 195) (String (byte 170) "te")))
  = String "F" (String (byte 195) (String (byte 170) "te")).
Proof. reflexivity. Qed.

Example coerce_invalid :
  coerce (String "F" (String (byte 234) "te")) = String "F" (replacement "te").
Proof. reflexivity. Qed.

(** ** The extractor *)

Lemma Each_rows (f : list Event -> Row -> io (list Event))
  (keep : Row -> bool) (R : Row -> Event -> Prop) :
  (forall acc row t, keep row = false -> f acc row t = (acc, t)) ->
  (forall acc row t, keep row = true ->
     exists e t', f acc row t = ((acc ++ [e])%list, t') /\ R row e) ->
  forall doc acc t,
    exists new t', Each f doc acc t = ((acc ++ new)%list, t')
                   /\ Forall2 R (filter keep doc) new.
Proof.
  intros Hskip Hkeep doc.
  induction doc as [|row doc IH]; intros acc t; simpl.
  - exists [], t. rewrite app_nil_r. split; [reflexivity | constructor].
  - unfold bind. destruct (keep row) eqn:K.
    + destruct (Hkeep acc row t K) as (e & t1 & Hf & HR). rewrite Hf.
      destruct (IH (acc ++ [e])%list t1) as (new & t' & HE & HF).
      exists (e :: new), t'. split.
      * rewrite HE, <- app_assoc. reflexivity.
      * constructor; assumption.
    + rewrite (Hskip acc row t K). apply IH.
Qed.

Lemma server_geocodeAddress_eval (w : World) (address : string) (t : trace) :
  fst (Server.geocodeAddress w address t) = eval (Server.geocodeAddress w address).
Proof.
  unfold eval, Server.geocodeAddress, bind, emit, ret.
  destruct (MAPBOX_ACCESS_TOKEN w =? "")%string; [reflexivity|].
  destruct (mapbox w address (MAPBOX_ACCESS_TOKEN w)) as [|status [result|]];
    [reflexivity| |].
  - destruct (negb (status =? StatusOK)%Z); [reflexivity|].
    destruct (Features result); reflexivity.
  - destruct (negb (status =? StatusOK)%Z); reflexivity.
Qed.

Lemma scraper_geocodeAddress_eval (w : World) (address : string) (t : trace) :
  fst (Scraper.geocodeAddress w address t) = eval (Scraper.geocodeAddress w address).
Proof.
  unfold eval, Scraper.geocodeAddress, bind, emit, ret.
  destruct (mapbox w address (MAPBOX_ACCESS_TOKEN w)) as [|status [result|]];
    [reflexivity| |].
  - destruct (negb (status =? StatusOK)%Z); [reflexivity|].
    destruct (Features result); reflexivity.
  - destruct (negb (status =? StatusOK)%Z); reflexivity.
Qed.

Lemma same_day_false_inv (today : string) (row : Row) :
  same_day today row = false ->
  time_datetime_attr row = None \/
  exists dateAttr, time_datetime_attr row = Some dateAttr
                   /\ HasPrefix dateAttr today = false.
Proof.
  unfold same_day. destruct (time_datetime_attr row) as [d|]; [|now left].
  intros H. right. now exists d.
Qed.

Lemma same_day_true_inv (today : string) (row : Row) :
  same_day today row = true ->
  exists dateAttr, time_datetime_attr row = Some dateAttr
                   /\ HasPrefix dateAttr today = true.
Proof.
  unfold same_day. destruct (time_datetime_attr row) as [d|]; [|discriminate].
  intros H. now exists d.
Qed.

Lemma server_scrapeRow_skip (w : World) (today : string) acc row t :
  same_day today row = false -> Server.scrapeRow w today acc row t = (acc, t).
Proof.
  intros H. unfold Server.scrapeRow.
  destruct (same_day_false_inv _ _ H) as [-> | (d & -> & ->)]; reflexivity.
Qed.

Lemma server_scrapeRow_keep (w : World) (today : string) acc row t :
  same_day today row = true ->
  exists e t', Server.scrapeRow w today acc row t = ((acc ++ [e])%list, t')
    /\ recorded 0%float
         (eval (Server.geocodeAddress w (TrimSpace (venue_address_text row))))
         today row e.
Proof.
  intros H. destruct (same_day_true_inv _ _ H) as (d & Hd & Hp).
  unfold Server.scrapeRow. rewrite Hd, Hp. cbn [negb]. unfold bind at 1.
  pose proof (server_geocodeAddress_eval w (TrimSpace (venue_address_text row)) t) as G.
  destruct (Server.geocodeAddress w (TrimSpace (venue_address_text row)) t)
    as [[[lon lat] err] t1].
  cbn [fst] in G. rewrite <- G.
  destruct err as [err|]; cbn; eexists; eexists; (split; [reflexivity|]);
    unfold recorded; cbn; repeat split; assumption.
Qed.

Lemma scraper_scrapeRow_skip (w : World) (today : string) acc row t :
  same_day today row = false -> Scraper.scrapeRow w today acc row t = (acc, t).
Proof.
  intros H. unfold Scraper.scrapeRow.
  destruct (same_day_false_inv _ _ H) as [-> | (d & -> & ->)]; reflexivity.
Qed.

Lemma scraper_scrapeRow_keep (w : World) (today : string) acc row t :
  same_day today row = true ->
  exists e t', Scraper.scrapeRow w today acc row t = ((acc ++ [e])%list, t')
    /\ recorded (-1)%float
         (eval (Scraper.geocodeAddress w (TrimSpace (venue_address_text row))))
         today row e.
Proof.
  intros H. destruct (same_day_true_inv _ _ H) as (d & Hd & Hp).
  unfold Scraper.scrapeRow. rewrite Hd, Hp. cbn [negb]. unfold bind at 1.
  pose proof (scraper_geocodeAddress_eval w (TrimSpace (venue_address_text row)) t) as G.
  destruct (Scraper.geocodeAddress w (TrimSpace (venue_address_text row)) t)
    as [[[lon lat] err] t1].
  cbn [fst] in G. rewrite <- G.
  destruct err as [err|]; cbn; eexists; eexists; (split; [reflexivity|]);
    unfold recorded; cbn; repeat split; assumption.
Qed.

(** On a listing that was fetched and parsed, the server's extraction
    returns, without error, one recorded event per same-day row, in
    document order. *)
Lemma server_scrapeEvents_rows (w : World) (doc : Document) (t : trace) :
  flagpole w = HttpResponse StatusOK (Some doc) ->
  exists evs t',
    Server.scrapeEvents w t = ((evs, None), t') /\
    Forall2 (fun row e =>
               recorded 0%float
                 (eval (Server.geocodeAddress w (TrimSpace (venue_address_text row))))
                 (today w) row e)
            (filter (same_day (today w)) doc) evs.
Proof.
  intros H. unfold Server.scrapeEvents, bind at 1, emit. rewrite H. cbn.
  unfold bind.
  destruct (Each_rows (Server.scrapeRow w (today w)) (same_day (today w)) _
              (server_scrapeRow_skip w (today w))
              (server_scrapeRow_keep w (today w)) doc [] (GetListing :: t))
    as (new & t' & HE & HF).
  rewrite HE. exists new, t'. split; [reflexivity | exact HF].
Qed.

Lemma scraper_scrapeEvents_rows (w : World) (doc : Document) (t : trace) :
  flagpole w = HttpResponse StatusOK (Some doc) ->
  exists evs t',
    Scraper.scrapeEvents w t = ((evs, None), t') /\
    Forall2 (fun row e =>
               recorded (-1)%float
                 (eval (Scraper.geocodeAddress w (TrimSpace (venue_address_text row))))
                 (today w) row e)
            (filter (same_day (today w)) doc) evs.
Proof.
  intros H. unfold Scraper.scrapeEvents, bind at 1, emit. rewrite H. cbn.
  unfold bind.
  destruct (Each_rows (Scraper.scrapeRow w (today w)) (same_day (today w)) _
              (scraper_scrapeRow_skip w (today w))
              (scraper_scrapeRow_keep w (today w)) doc [] (GetListing :: t))
    as (new & t' & HE & HF).
  rewrite HE. exists new, t'. split; [reflexivity | exact HF].
Qed.

Lemma Forall2_In_r {A B} (R : A -> B -> Prop) (l1 : list A) (l2 : list B) :
  Forall2 R l1 l2 -> forall y, In y l2 -> exists x, In x l1 /\ R x y.
Proof.
  induction 1 as [|x y l1 l2 HR _ IH]; intros z Hz; [destruct Hz|].
  destruct Hz as [<- | Hz].
  - exists x. split; [now left | assumption].
  - destruct (IH z Hz) as (x' & Hin & HR'). exists x'. split; [now right | assumption].
Qed.

Lemma filter_same_day_nil (today : string) (doc : Document) :
  (forall row dateAttr, In row doc -> time_datetime_attr row = Some dateAttr ->
     HasPrefix dateAttr today = false) ->
  filter (same_day today) doc = [].
Proof.
  intros H. induction doc as [|row doc IH]; [reflexivity|]. simpl.
  assert (same_day today row = false) as ->.
  { unfold same_day. destruct (time_datetime_attr row) as [d|] eqn:E; [|reflexivity].
    apply (H row d); [now left | assumption]. }
  apply IH. intros r d Hr. apply H. now right.
Qed.

(** C1. For every listing document, both extractors return without error
    one event per same-day row, in document order; an event whose
    geocoding call failed, whatever the error, is among them with the
    sentinel in both coordinates: (0,0) in the server, (-1,-1) in the batch
    scraper. *)
Theorem extraction_survives_geocoding_failure (w : World) (doc : Document) (t : trace) :
  flagpole w = HttpResponse StatusOK (Some doc) ->
  (exists evs t',
     Server.scrapeEvents w t = ((evs, None), t') /\
     Forall2 (fun row e =>
                Address e = TrimSpace (venue_address_text row) /\
                Title e = TrimSpace (title_text row) /\
                (forall err,
                   snd (eval (Server.geocodeAddress w (Address e))) = Some err ->
                   Latitude e = 0%float /\ Longitude e = 0%float))
             (filter (same_day (today w)) doc) evs) /\
  (exists evs t',
     Scraper.scrapeEvents w t = ((evs, None), t') /\
     Forall2 (fun row e =>
                Address e = TrimSpace (venue_address_text row) /\
                Title e = TrimSpace (title_text row) /\
                (forall err,
                   snd (eval (Scraper.geocodeAddress w (Address e))) = Some err ->
                   Latitude e = (-1)%float /\ Longitude e = (-1)%float))
             (filter (same_day (today w)) doc) evs).
Proof.
  intros H. split.
  - destruct (server_scrapeEvents_rows w doc t H) as (evs & t' & HS & HF).
    exists evs, t'. split; [exact HS|].
    revert HF. apply Forall2_impl. intros row e R.
    destruct R as (_ & _ & _ & _ & HT & _ & _ & HA & _ & Hlat & Hlon).
    repeat split; try assumption; rewrite HA in H0;
      destruct (eval (Server.geocodeAddress w (TrimSpace (venue_address_text row))))
        as [[lon lat] [e0|]]; cbn in *; congruence.
  - destruct (scraper_scrapeEvents_rows w doc t H) as (evs & t' & HS & HF).
    exists evs, t'. split; [exact HS|].
    revert HF. apply Forall2_impl. intros row e R.
    destruct R as (_ & _ & _ & _ & HT & _ & _ & HA & _ & Hlat & Hlon).
    repeat split; try assumption; rewrite HA in H0;
      destruct (eval (Scraper.geocodeAddress w (TrimSpace (venue_address_text row))))
        as [[lon lat] [e0|]]; cbn in *; congruence.
Qed.

Lemma extraction_survives_geocoding_failure_witness :
  (exists evs t',
     Server.scrapeEvents (Sample.world "pk.test" [Sample.open_mic; Sample.jazz]) []
     = ((evs, None), t') /\
     Forall2 (fun row e =>
                Address e = TrimSpace (venue_address_text row) /\
                Title e = TrimSpace (title_text row) /\
                (forall err,
                   snd (eval (Server.geocodeAddress
                                (Sample.world "pk.test" [Sample.open_mic; Sample.jazz])
                                (Address e))) = Some err ->
                   Latitude e = 0%float /\ Longitude e = 0%float))
             [Sample.open_mic; Sample.jazz] evs) /\
  (exists evs t',
     Scraper.scrapeEvents (Sample.world "pk.test" [Sample.open_mic; Sample.jazz]) []
     = ((evs, None), t') /\
     Forall2 (fun row e =>
                Address e = TrimSpace (venue_address_text row) /\
                Title e = TrimSpace (title_text row) /\
                (forall err,
                   snd (eval (Scraper.geocodeAddress
                                (Sample.world "pk.test" [Sample.open_mic; Sample.jazz])
                                (Address e))) = Some err ->
                   Latitude e = (-1)%float /\ Longitude e = (-1)%float))
             [Sample.open_mic; Sample.jazz] evs).
Proof.
  exact (extraction_survives_geocoding_failure
           (Sample.world "pk.test" [Sample.open_mic; Sample.jazz])
           [Sample.open_mic; Sample.jazz] [] eq_refl).
Defined.

(** The error cases of the geocoder, one by one. *)
Example geocoder_error_cases :
  let w (token : string) (api : http_result (option MapboxResponse)) :=
    mkWorld token Sample.day NetworkFailure (fun _ _ => api) true in
  snd (eval (Server.geocodeAddress (w "" NetworkFailure) "1 Elm St"))
  = Some ConfigurationError /\
  snd (eval (Server.geocodeAddress (w "pk.test" NetworkFailure) "1 Elm St"))
  = Some TransportError /\
  snd (eval (Server.geocodeAddress (w "pk.test" (HttpResponse 429 None)) "1 Elm St"))
  = Some (UpstreamError 429) /\
  snd (eval (Server.geocodeAddress (w "pk.test" (HttpResponse 200 None)) "1 Elm St"))
  = Some DecodeError /\
  snd (eval (Server.geocodeAddress
               (w "pk.test" (HttpResponse 200 (Some (mkMapboxResponse []))))
               "1 Elm St"))
  = Some NotFoundError /\
  eval (Server.geocodeAddress
          (w "pk.test" (HttpResponse 200
                          (Some (mkMapboxResponse
                                   [mkFeature (-83.375)%float 33.75%float;
                                    mkFeature 1%float 2%float]))))
          "1 Elm St")
  = ((-83.375)%float, 33.75%float, None).
Proof. repeat split. Qed.

(** The spec's scenario: two rows of the day, the first geocoded, the
    second with an empty address that the service does not find. *)
Example two_rows_server :
  eval (Server.scrapeEvents (Sample.world "pk.test" [Sample.jazz; Sample.open_mic]))
  = ([ mkEvent "2024-05-01" "May 1 @ 8:00 pm" "Music" "Jazz Night"
               "https://flagpole.com/events/jazz-night/" "The Foundry"
               "123 Main St" "Live jazz." 33.75%float (-83.375)%float;
       mkEvent "2024-05-01" "May 1 @ 9:00 pm" "" "Open Mic" "" "" "" ""
               0%float 0%float ], None).
Proof. reflexivity. Qed.

Example two_rows_scraper :
  eval (Scraper.scrapeEvents (Sample.world "pk.test" [Sample.jazz; Sample.open_mic]))
  = ([ mkEvent "2024-05-01" "May 1 @ 8:00 pm" "Music" "Jazz Night"
               "https://flagpole.com/events/jazz-night/" "The Foundry"
               "123 Main St" "Live jazz." 33.75%float (-83.375)%float;
       mkEvent "2024-05-01" "May 1 @ 9:00 pm" "" "Open Mic" "" "" "" ""
               (-1)%float (-1)%float ], None).
Proof. reflexivity. Qed.

(** C3. In both extractors an event is in the output only for a row whose
    [datetime] attribute exists and starts with the current day, one event
    per such row; the other rows leave nothing, so that a document without
    a row of the day gives the empty sequence. *)
Theorem only_rows_of_the_day (w : World) (doc : Document) (t : trace) :
  flagpole w = HttpResponse StatusOK (Some doc) ->
  (exists evs t',
     Server.scrapeEvents w t = ((evs, None), t') /\
     List.length evs = List.length (filter (same_day (today w)) doc) /\
     (forall e, In e evs ->
        exists row, In row doc /\ time_datetime_attr row = Some (Date e)
                    /\ HasPrefix (Date e) (today w) = true
                    /\ Title e = TrimSpace (title_text row)) /\
     ((forall row dateAttr, In row doc -> time_datetime_attr row = Some dateAttr ->
         HasPrefix dateAttr (today w) = false) -> evs = [])) /\
  (exists evs t',
     Scraper.scrapeEvents w t = ((evs, None), t') /\
     List.length evs = List.length (filter (same_day (today w)) doc) /\
     (forall e, In e evs ->
        exists row, In row doc /\ time_datetime_attr row = Some (Date e)
                    /\ HasPrefix (Date e) (today w) = true
                    /\ Title e = TrimSpace (title_text row)) /\
     ((forall row dateAttr, In row doc -> time_datetime_attr row = Some dateAttr ->
         HasPrefix dateAttr (today w) = false) -> evs = [])).
Proof.
  intros H. split.
  - destruct (server_scrapeEvents_rows w doc t H) as (evs & t' & HS & HF).
    exists evs, t'. split; [exact HS|]. split; [|split].
    + symmetry. exact (Forall2_length HF).
    + intros e He. destruct (Forall2_In_r _ _ _ HF e He) as (row & Hrow & R).
      apply filter_In in Hrow. destruct Hrow as [Hrow _].
      destruct R as (Hd & Hp & _ & _ & HT & _).
      exists row. repeat split; assumption.
    + intros Hnone. rewrite (filter_same_day_nil _ _ Hnone) in HF.
      inversion HF. reflexivity.
  - destruct (scraper_scrapeEvents_rows w doc t H) as (evs & t' & HS & HF).
    exists evs, t'. split; [exact HS|]. split; [|split].
    + symmetry. exact (Forall2_length HF).
    + intros e He. destruct (Forall2_In_r _ _ _ HF e He) as (row & Hrow & R).
      apply filter_In in Hrow. destruct Hrow as [Hrow _].
      destruct R as (Hd & Hp & _ & _ & HT & _).
      exists row. repeat split; assumption.
    + intros Hnone. rewrite (filter_same_day_nil _ _ Hnone) in HF.
      inversion HF. reflexivity.
Qed.

Lemma only_rows_of_the_day_witness :
  exists evs t',
    Server.scrapeEvents (Sample.world "pk.test" [Sample.yesterday; Sample.jazz]) []
    = ((evs, None), t') /\
    List.length evs = 1.
Proof.
  destruct (only_rows_of_the_day
              (Sample.world "pk.test" [Sample.yesterday; Sample.jazz])
              [Sample.yesterday; Sample.jazz] [] eq_refl)
    as [(evs & t' & HS & HL & _) _].
  exists evs, t'. split; [exact HS | exact HL].
Defined.

Example yesterday_only_is_empty :
  eval (Server.scrapeEvents (Sample.world "pk.test" [Sample.yesterday])) = ([], None)
  /\ eval (Scraper.scrapeEvents (Sample.world "pk.test" [Sample.yesterday])) = ([], None).
Proof. split; reflexivity. Qed.

(** C7, as the code has it. The title of every extracted event is the
    trimmed text of the title element of its row, in both extractors; it is
    empty when that element is missing or blank. *)
Theorem title_is_trimmed_text (w : World) (doc : Document) (t : trace) :
  flagpole w = HttpResponse StatusOK (Some doc) ->
  (exists evs t',
     Server.scrapeEvents w t = ((evs, None), t') /\
     Forall2 (fun row e => Title e = TrimSpace (title_text row))
             (filter (same_day (today w)) doc) evs) /\
  (exists evs t',
     Scraper.scrapeEvents w t = ((evs, None), t') /\
     Forall2 (fun row e => Title e = TrimSpace (title_text row))
             (filter (same_day (today w)) doc) evs).
Proof.
  intros H. split.
  - destruct (server_scrapeEvents_rows w doc t H) as (evs & t' & HS & HF).
    exists evs, t'. split; [exact HS|].
    revert HF. apply Forall2_impl. intros row e R.
    destruct R as (_ & _ & _ & _ & HT & _). exact HT.
  - destruct (scraper_scrapeEvents_rows w doc t H) as (evs & t' & HS & HF).
    exists evs, t'. split; [exact HS|].
    revert HF. apply Forall2_impl. intros row e R.
    destruct R as (_ & _ & _ & _ & HT & _). exact HT.
Qed.

Lemma title_is_trimmed_text_witness :
  exists evs t',
    Server.scrapeEvents (Sample.world "pk.test" [Sample.jazz]) [] = ((evs, None), t') /\
    Forall2 (fun row e => Title e = TrimSpace (title_text row)) [Sample.jazz] evs.
Proof.
  exact (proj1 (title_is_trimmed_text (Sample.world "pk.test" [Sample.jazz])
                  [Sample.jazz] [] eq_refl)).
Defined.

(** C7 as stated fails: a row of the day without a title element is
    extracted as an event with the empty title. *)
Lemma empty_title_extracted :
  exists e,
    In e (fst (eval (Server.scrapeEvents (Sample.world "pk.test" [Sample.untitled]))))
    /\ Title e = "".
Proof.
  exists (mkEvent "2024-05-01" "May 1 @ 6:00 pm" "" "" "" "Pub" "123 Main St" ""
                  33.75%float (-83.375)%float).
  split; [left; reflexivity | reflexivity].
Qed.

(** C8, as the code has it. The date of every extracted event is the
    [datetime] attribute of its row, which starts with the day on which the
    scrape ran, in both extractors. *)
Theorem date_starts_with_scrape_day (w : World) (doc : Document) (t : trace) :
  flagpole w = HttpResponse StatusOK (Some doc) ->
  (exists evs t',
     Server.scrapeEvents w t = ((evs, None), t') /\
     Forall2 (fun row e => time_datetime_attr row = Some (Date e)
                           /\ HasPrefix (Date e) (today w) = true)
             (filter (same_day (today w)) doc) evs) /\
  (exists evs t',
     Scraper.scrapeEvents w t = ((evs, None), t') /\
     Forall2 (fun row e => time_datetime_attr row = Some (Date e)
                           /\ HasPrefix (Date e) (today w) = true)
             (filter (same_day (today w)) doc) evs).
Proof.
  intros H. split.
  - destruct (server_scrapeEvents_rows w doc t H) as (evs & t' & HS & HF).
    exists evs, t'. split; [exact HS|].
    revert HF. apply Forall2_impl. intros row e R.
    destruct R as (Hd & Hp & _). split; assumption.
  - destruct (scraper_scrapeEvents_rows w doc t H) as (evs & t' & HS & HF).
    exists evs, t'. split; [exact HS|].
    revert HF. apply Forall2_impl. intros row e R.
    destruct R as (Hd & Hp & _). split; assumption.
Qed.

Lemma date_starts_with_scrape_day_witness :
  exists evs t',
    Scraper.scrapeEvents (Sample.world "pk.test" [Sample.timed]) [] = ((evs, None), t') /\
    Forall2 (fun row e => time_datetime_attr row = Some (Date e)
                          /\ HasPrefix (Date e) Sample.day = true)
            [Sample.timed] evs.
Proof.
  exact (proj2 (date_starts_with_scrape_day (Sample.world "pk.test" [Sample.timed])
                  [Sample.timed] [] eq_refl)).
Defined.

(** C8 as stated fails: a row whose attribute carries a time after the
    day passes the prefix test and its event keeps the whole attribute. *)
Lemma date_longer_than_day :
  exists e,
    In e (fst (eval (Server.scrapeEvents (Sample.world "pk.test" [Sample.timed]))))
    /\ Date e <> today (Sample.world "pk.test" [Sample.timed]).
Proof.
  exists (mkEvent "2024-05-01T20:00:00" "May 1 @ 8:00 pm" "" "Late Show" ""
                  "Pub" "123 Main St" "" 33.75%float (-83.375)%float).
  split; [left; reflexivity | discriminate].
Qed.

(** ** The cache store *)

Lemma ValidString_coerce (s : string) : ValidString s = true -> coerce s = s.
Proof. unfold ValidString. apply String.eqb_eq. Qed.

Lemma UnmarshalEvent_MarshalEvent (e : Event) :
  encodable e = true -> valid_utf8 e = true ->
  UnmarshalEvent (MarshalEvent e) = Some e.
Proof.
  destruct e as [d dt c ti l v a ds lat lon].
  unfold encodable, valid_utf8. cbn [Date Datetime Category Title EventLink Venue
    Address Description Latitude Longitude].
  intros Hf Hv.
  apply andb_prop in Hf. destruct Hf as [Hlat Hlon].
  repeat (apply andb_prop in Hv; let H := fresh "V" in destruct Hv as [Hv H]).
  cbn. rewrite Hlat. cbn. rewrite Hlon.
  repeat match goal with
         | H : ValidString ?x = true |- _ =>
             rewrite !(ValidString_coerce x H); clear H
         end.
  reflexivity.
Qed.

Lemma UnmarshalEvents_MarshalEvent (events : list Event) :
  forallb encodable events = true -> forallb valid_utf8 events = true ->
  UnmarshalEvents (map MarshalEvent events) = Some events.
Proof.
  induction events as [|e events IH]; [reflexivity|].
  cbn [forallb]. intros He Hv.
  apply andb_prop in He. destruct He as [He He'].
  apply andb_prop in Hv. destruct Hv as [Hv Hv'].
  cbn [map UnmarshalEvents].
  rewrite (UnmarshalEvent_MarshalEvent e He Hv), (IH He' Hv'). reflexivity.
Qed.

Lemma Unmarshal_MarshalIndent (events : list Event) :
  forallb encodable events = true -> forallb valid_utf8 events = true ->
  exists data, MarshalIndent events = Some data /\ Unmarshal data = Some events.
Proof.
  intros He Hv. unfold MarshalIndent. rewrite He. eexists. split; [reflexivity|].
  destruct events as [|e events]; [reflexivity|].
  apply (UnmarshalEvents_MarshalEvent (e :: events) He Hv).
Qed.

(** C4, as the code has it. For every collection whose coordinates are
    finite and whose strings are valid UTF-8, when the file can be
    written, [saveEventsToFile] succeeds and [loadEventsFromFile] then
    returns the same collection, field for field and in the same order. *)
Theorem save_then_load (w : World) (events : list Event) (s : Server.State) :
  disk_writable w = true ->
  forallb encodable events = true ->
  forallb valid_utf8 events = true ->
  exists s1 s2,
    Server.saveEventsToFile w events s = (None, s1) /\
    Server.loadEventsFromFile s1 = ((events, None), s2).
Proof.
  intros Hw He Hv.
  destruct (Unmarshal_MarshalIndent events He Hv) as (data & HM & HU).
  unfold Server.saveEventsToFile, Server.WriteFile_dataFile. rewrite HM, Hw.
  eexists. eexists. split; [reflexivity|].
  unfold Server.loadEventsFromFile, Server.ReadFile_dataFile, bind. cbn.
  rewrite HU. reflexivity.
Qed.

Lemma save_then_load_witness :
  exists s1 s2,
    Server.saveEventsToFile (Sample.world "pk.test" []) Sample.collection
      (Server.start None) = (None, s1) /\
    Server.loadEventsFromFile s1 = ((Sample.collection, None), s2).
Proof.
  apply (save_then_load (Sample.world "pk.test" []) Sample.collection
           (Server.start None)); reflexivity.
Defined.

(** C4 as stated fails: a title that is not valid UTF-8 is saved without
    error and comes back with U+FFFD in place of the offending byte. *)
Lemma invalid_utf8_not_restored :
  exists s1 s2 loaded,
    Server.saveEventsToFile (Sample.world "pk.test" []) [Sample.mangled_event]
      (Server.start None) = (None, s1) /\
    Server.loadEventsFromFile s1 = ((loaded, None), s2) /\
    loaded <> [Sample.mangled_event].
Proof.
  eexists. eexists.
  exists [mkEvent "2024-05-01" "May 1 @ 7:00 pm" "" (replacement "ete") ""
                  "Pub" "123 Main St" "" 33.75%float (-83.375)%float].
  split; [vm_compute; reflexivity|]. split; [vm_compute; reflexivity|].
  unfold Sample.mangled_event. intros H. discriminate H.
Qed.

(** A collection with a NaN coordinate is not saved at all. *)
Example nan_not_saved :
  Server.saveEventsToFile (Sample.world "pk.test" [])
    [mkEvent "2024-05-01" "" "" "x" "" "" "" "" nan 0%float] (Server.start None)
  = (Some MarshalError, Server.start None).
Proof. reflexivity. Qed.

(** ** Effects of a scrape *)

Lemma adds_ret {A} (P : io_event -> Prop) (a : A) : adds P (ret a).
Proof. intros t. exists []. split; [reflexivity | constructor]. Qed.

Lemma adds_emit (P : io_event -> Prop) (e : io_event) : P e -> adds P (emit e).
Proof. intros H t. exists [e]. split; [reflexivity | now constructor]. Qed.

Lemma adds_bind {A B} (P : io_event -> Prop) (m : io A) (k : A -> io B) :
  adds P m -> (forall a, adds P (k a)) -> adds P (bind m k).
Proof.
  intros Hm Hk t.
  destruct (Hm t) as (a1 & E1 & F1). destruct (Hm []) as (a0 & E0 & _).
  destruct (Hk (eval m) (a1 ++ t)%list) as (a2 & E2 & F2).
  destruct (Hk (eval m) (a0 ++ [])%list) as (a3 & E3 & _).
  exists (a2 ++ a1)%list. split.
  - unfold eval at 1. unfold bind. rewrite E1, E0, E2, E3, <- app_assoc. reflexivity.
  - apply Forall_app. split; assumption.
Qed.

Lemma adds_Each {A S} (P : io_event -> Prop) (f : S -> A -> io S) :
  (forall s x, adds P (f s x)) -> forall l s, adds P (Each f l s).
Proof.
  intros Hf l. induction l as [|x l IH]; intros s; cbn [Each].
  - apply adds_ret.
  - apply adds_bind; [apply Hf | exact IH].
Qed.

Lemma server_geocodeAddress_adds (w : World) (address : string) :
  adds keyed (Server.geocodeAddress w address).
Proof.
  unfold Server.geocodeAddress.
  destruct (MAPBOX_ACCESS_TOKEN w =? "")%string eqn:K; [apply adds_ret|].
  apply String.eqb_neq in K.
  apply adds_bind; [apply adds_emit; exact K|]. intros _.
  destruct (mapbox w address (MAPBOX_ACCESS_TOKEN w)) as [|status [result|]];
    [apply adds_ret| |].
  - destruct (negb (status =? StatusOK)%Z); [apply adds_ret|].
    destruct (Features result); apply adds_ret.
  - destruct (negb (status =? StatusOK)%Z); apply adds_ret.
Qed.

Lemma server_scrapeRow_adds (w : World) (today : string) acc row :
  adds keyed (Server.scrapeRow w today acc row).
Proof.
  unfold Server.scrapeRow.
  destruct (time_datetime_attr row) as [d|]; [|apply adds_ret].
  destruct (negb (HasPrefix d today)); [apply adds_ret|].
  apply adds_bind; [apply server_geocodeAddress_adds|].
  intros [[lon lat] err]. apply adds_bind.
  - destruct err as [err|]; [apply adds_ret|].
    apply adds_bind; [apply adds_emit; exact I | intros; apply adds_ret].
  - intros [lon' lat']. apply adds_ret.
Qed.

(** A scrape fetches the listing once, and after that only talks to the
    geocoder; what it returns does not depend on the trace. *)
Lemma server_scrapeEvents_trace (w : World) (t : trace) :
  exists added,
    Server.scrapeEvents w t
    = (eval (Server.scrapeEvents w), (added ++ GetListing :: t)%list)
    /\ Forall keyed added.
Proof.
  unfold eval, Server.scrapeEvents. unfold bind at 1 3. unfold emit.
  destruct (flagpole w) as [|status [doc|]].
  - exists []. split; [reflexivity | constructor].
  - destruct (negb (status =? StatusOK)%Z);
      [exists []; split; [reflexivity | constructor]|].
    pose proof (@adds_Each _ _ keyed _ (server_scrapeRow_adds w (today w)) doc [])
      as HE.
    destruct (HE (GetListing :: t)) as (a1 & E1 & F1).
    destruct (HE [GetListing]) as (a0 & E0 & _).
    exists a1. split; [|exact F1].
    unfold bind. rewrite E1, E0. reflexivity.
  - destruct (negb (status =? StatusOK)%Z);
      exists []; (split; [reflexivity | constructor]).
Qed.

Lemma keyed_count (p : io_event -> bool) (added : list io_event) (t : trace) :
  (forall e, keyed e -> p e = false) ->
  Forall keyed added -> count p (added ++ t) = count p t.
Proof.
  intros Hp H. unfold count. induction H as [|e added He _ IH]; [reflexivity|].
  cbn. rewrite (Hp e He). exact IH.
Qed.

Lemma keyed_not_scrape (e : io_event) : keyed e -> is_scrape e = false.
Proof. destruct e; cbn; intros H; try reflexivity; destruct H. Qed.

Lemma keyed_not_load (e : io_event) : keyed e -> is_load e = false.
Proof. destruct e; cbn; intros H; try reflexivity; destruct H. Qed.

Lemma keyed_not_stat (e : io_event) : keyed e -> is_stat e = false.
Proof. destruct e; cbn; intros H; try reflexivity; destruct H. Qed.

Lemma keyed_not_write (e : io_event) : keyed e -> is_write e = false.
Proof. destruct e; cbn; intros H; try reflexivity; destruct H. Qed.

(** ** The event provider, step by step *)

Lemma tryLoad_loaded (s : Server.State) :
  Server.eventsCache s <> [] -> Server.tryLoad s = (tt, s).
Proof.
  intros H. unfold Server.tryLoad, bind, Server.get_eventsCache.
  destruct (Server.eventsCache s); [contradiction | reflexivity].
Qed.

Lemma tryLoad_empty (s : Server.State) :
  Server.eventsCache s = [] ->
  Server.tryLoad s
  = (tt, Server.mkState (on_disk (Server.events_json s)) (Server.events_json s)
           (load_trace (Server.events_json s) ++ Server.log s)%list).
Proof.
  intros H.
  unfold Server.tryLoad, bind, Server.get_eventsCache, Server.Stat,
    Server.loadEventsFromFile, Server.ReadFile_dataFile, bind,
    Server.set_eventsCache, ret.
  rewrite H. cbn.
  destruct (Server.events_json s) as [data|]; cbn.
  - destruct (Unmarshal data) as [events|]; cbn; [reflexivity|].
    rewrite H. reflexivity.
  - rewrite H. reflexivity.
Qed.

Lemma scrapeIfEmpty_loaded (w : World) (s : Server.State) :
  Server.eventsCache s <> [] ->
  Server.scrapeIfEmpty w s = ((Server.eventsCache s, None), s).
Proof.
  intros H. unfold Server.scrapeIfEmpty, bind, Server.get_eventsCache.
  destruct (Server.eventsCache s); [contradiction | reflexivity].
Qed.

Lemma saveEventsToFile_state (w : World) (events : list Event) (s : Server.State) :
  snd (Server.saveEventsToFile w events s) = saved w events s.
Proof.
  unfold Server.saveEventsToFile, saved, Server.WriteFile_dataFile.
  destruct (MarshalIndent events); [|reflexivity].
  destruct (disk_writable w); reflexivity.
Qed.

Lemma saved_eventsCache (w : World) (events : list Event) (s : Server.State) :
  Server.eventsCache (saved w events s) = Server.eventsCache s.
Proof. unfold saved. destruct (MarshalIndent events); reflexivity. Qed.

Lemma scrapeIfEmpty_empty (w : World) (s : Server.State) :
  Server.eventsCache s = [] ->
  exists added,
    Forall keyed added /\
    let t := (added ++ GetListing :: Server.log s)%list in
    Server.scrapeIfEmpty w s
    = match eval (Server.scrapeEvents w) with
      | (_, Some err) =>
          (([], Some err), Server.mkState [] (Server.events_json s) t)
      | (events, None) =>
          ((events, None),
           saved w events (Server.mkState events (Server.events_json s) t))
      end.
Proof.
  intros H.
  destruct (server_scrapeEvents_trace w (Server.log s)) as (added & E & F).
  exists added. split; [exact F|]. cbn zeta.
  unfold Server.scrapeIfEmpty, bind, Server.get_eventsCache, Server.liftIO.
  rewrite H. cbn [List.length Nat.eqb]. rewrite E.
  destruct (eval (Server.scrapeEvents w)) as [events [err|]].
  - rewrite H. reflexivity.
  - unfold Server.set_eventsCache, Server.saveEventsToFile, saved,
      Server.WriteFile_dataFile, ret.
    cbn. destruct (MarshalIndent events); [destruct (disk_writable w)|]; reflexivity.
Qed.

Lemma getEvents_loaded (w : World) (s : Server.State) :
  Server.eventsCache s <> [] ->
  Server.getEvents w s = ((Server.eventsCache s, None), s).
Proof.
  intros H. unfold Server.getEvents, bind.
  rewrite (tryLoad_loaded s H). apply scrapeIfEmpty_loaded, H.
Qed.

Lemma getEvents_empty (w : World) (s : Server.State) :
  Server.eventsCache s = [] ->
  Server.getEvents w s
  = Server.scrapeIfEmpty w
      (Server.mkState (on_disk (Server.events_json s)) (Server.events_json s)
         (load_trace (Server.events_json s) ++ Server.log s)).
Proof.
  intros H. unfold Server.getEvents, bind. rewrite (tryLoad_empty s H). reflexivity.
Qed.

Lemma count_cons (p : io_event -> bool) (e : io_event) (t : trace) :
  count p (e :: t) = (if p e then 1 else 0) + count p t.
Proof. unfold count. cbn. destruct (p e); reflexivity. Qed.

Lemma count_load_trace (p : io_event -> bool) (file : option bytes) (t : trace) :
  count p (load_trace file ++ t)
  = (match file with Some _ => if p ReadFile then 1 else 0 | None => 0 end)
    + (if p StatFile then 1 else 0) + count p t.
Proof.
  destruct file; cbn [load_trace app]; rewrite ?count_cons; lia.
Qed.

Lemma saved_log (p : io_event -> bool) (w : World) (events : list Event)
  (s : Server.State) :
  p WriteFile = false ->
  count p (Server.log (saved w events s)) = count p (Server.log s).
Proof.
  intros H. unfold saved. destruct (MarshalIndent events); [|reflexivity].
  cbn [Server.log]. rewrite count_cons, H. reflexivity.
Qed.

(** From an empty in-memory cache, the second [if] of [getEvents] always
    fetches the listing, exactly once. *)
Lemma scrapeIfEmpty_scrapes (w : World) (s : Server.State) :
  Server.eventsCache s = [] ->
  count is_scrape (Server.log (snd (Server.scrapeIfEmpty w s)))
  = S (count is_scrape (Server.log s))
  /\ count is_load (Server.log (snd (Server.scrapeIfEmpty w s)))
     = count is_load (Server.log s)
  /\ count is_stat (Server.log (snd (Server.scrapeIfEmpty w s)))
     = count is_stat (Server.log s).
Proof.
  intros H. destruct (scrapeIfEmpty_empty w s H) as (added & F & E).
  cbn zeta in E. rewrite E.
  destruct (eval (Server.scrapeEvents w)) as [events [err|]]; cbn [snd];
    rewrite ?saved_log by reflexivity; cbn [Server.log];
    rewrite (keyed_count is_scrape _ _ keyed_not_scrape F),
      (keyed_count is_load _ _ keyed_not_load F),
      (keyed_count is_stat _ _ keyed_not_stat F), !count_cons; cbn; auto.
Qed.

(** ** The event provider, call by call *)

(** With no file, [loadEventsFromFile] fails and [getEvents] scrapes
    once. *)
Example missing_file_scrapes_once :
  fst (Server.loadEventsFromFile (Server.start None)) = ([], Some FileNotFound)
  /\ count is_scrape
       (Server.log (snd (Server.getEvents (Sample.world "pk.test" [Sample.jazz])
                           (Server.start None)))) = 1.
Proof. split; reflexivity. Qed.




Lemma on_disk_nil (file : option bytes) :
  (forall data evs, file = Some data -> Unmarshal data = Some evs -> evs = []) ->
  on_disk file = [].
Proof.
  intros H. unfold on_disk. destruct file as [data|]; [|reflexivity].
  destruct (Unmarshal data) as [evs|] eqn:U; [|reflexivity].
  exact (H data evs eq_refl U).
Qed.


(** A call that finds nothing in memory and nothing to adopt in the file
    looks for the file and fetches the listing. *)
Lemma getEvents_empty_counts (w : World) (s : Server.State) :
  Server.eventsCache s = [] -> on_disk (Server.events_json s) = [] ->
  count is_scrape (Server.log (snd (Server.getEvents w s)))
  = S (count is_scrape (Server.log s))
  /\ count is_stat (Server.log (snd (Server.getEvents w s)))
     = S (count is_stat (Server.log s)).
Proof.
  intros C D. rewrite (getEvents_empty w s C), D.
  set (s0 := Server.mkState _ _ _).
  destruct (scrapeIfEmpty_scrapes w s0 eq_refl) as (Ks & _ & Kt).
  rewrite Ks, Kt. unfold s0. cbn [Server.log]. rewrite !count_load_trace. cbn.
  destruct (Server.events_json s); split; reflexivity.
Qed.

(** What a call returns from an empty in-memory cache depends on the file
    and on the scrape only. *)
Lemma getEvents_empty_result (w : World) (s : Server.State) :
  Server.eventsCache s = [] ->
  fst (Server.getEvents w s)
  = match on_disk (Server.events_json s) with
    | [] =>
        match eval (Server.scrapeEvents w) with
        | (_, Some err) => ([], Some err)
        | (events, None) => (events, None)
        end
    | e :: l => (e :: l, None)
    end.
Proof.
  intros C. rewrite (getEvents_empty w s C).
  destruct (on_disk (Server.events_json s)) as [|e l] eqn:D.
  - set (s0 := Server.mkState _ _ _).
    destruct (scrapeIfEmpty_empty w s0 eq_refl) as (added & _ & E).
    cbn zeta in E. rewrite E.
    destruct (eval (Server.scrapeEvents w)) as [events [err|]]; reflexivity.
  - rewrite scrapeIfEmpty_loaded; [reflexivity | discriminate].
Qed.

(** An error of [getEvents] can only be the error of a scrape that started
    from an empty in-memory collection. *)
Lemma getEvents_error_inv (w : World) (s s1 : Server.State)
  (evs : list Event) (err : error) :
  Server.getEvents w s = ((evs, Some err), s1) ->
  snd (eval (Server.scrapeEvents w)) = Some err /\
  evs = [] /\ Server.eventsCache s = [] /\ on_disk (Server.events_json s) = [].
Proof.
  intros H.
  destruct (Server.eventsCache s) as [|e0 l0] eqn:C.
  2:{ rewrite getEvents_loaded in H by (rewrite C; discriminate). discriminate H. }
  rewrite (getEvents_empty w s C) in H.
  destruct (on_disk (Server.events_json s)) as [|e1 l1] eqn:D.
  2:{ rewrite scrapeIfEmpty_loaded in H by discriminate. discriminate H. }
  set (s0 := Server.mkState _ _ _) in H.
  destruct (scrapeIfEmpty_empty w s0 eq_refl) as (added & _ & E).
  cbn zeta in E. rewrite H in E.
  destruct (eval (Server.scrapeEvents w)) as [events [err'|]]; [|discriminate E].
  injection E as -> -> _. repeat split; reflexivity.
Qed.

(** C5. If the scrape that [getEvents] runs fails, whether on the fetch, on
    the status or on the parse, [getEvents] returns that error; the
    in-memory collection is still empty and the file is untouched, so that
    the next call goes through the whole sequence again: it looks for the
    file, fetches the listing, and returns what a process that has just
    started with this file would return. *)
Theorem scrape_error_is_propagated (w : World) (s : Server.State) (err : error) :
  Server.eventsCache s = [] ->
  (forall data evs,
     Server.events_json s = Some data -> Unmarshal data = Some evs -> evs = []) ->
  snd (eval (Server.scrapeEvents w)) = Some err ->
  exists s1,
    Server.getEvents w s = (([], Some err), s1) /\
    Server.eventsCache s1 = [] /\
    Server.events_json s1 = Server.events_json s /\
    forall w2,
      count is_scrape (Server.log (snd (Server.getEvents w2 s1)))
      = S (count is_scrape (Server.log s1)) /\
      count is_stat (Server.log (snd (Server.getEvents w2 s1)))
      = S (count is_stat (Server.log s1)) /\
      fst (Server.getEvents w2 s1)
      = fst (Server.getEvents w2 (Server.start (Server.events_json s1))).
Proof.
  intros C Hfile Herr. pose proof (on_disk_nil _ Hfile) as D.
  pose proof (getEvents_empty w s C) as G. rewrite D in G.
  set (s0 := Server.mkState _ _ _) in G.
  destruct (scrapeIfEmpty_empty w s0 eq_refl) as (added & _ & E).
  cbn zeta in E. rewrite E in G. clear E.
  destruct (eval (Server.scrapeEvents w)) as [events [err'|]];
    cbn [snd] in Herr; [|discriminate Herr].
  injection Herr as ->.
  eexists. split; [exact G|]. cbn [Server.eventsCache Server.events_json s0].
  split; [reflexivity|]. split; [reflexivity|].
  intros w2.
  set (s1 := Server.mkState _ _ _).
  destruct (getEvents_empty_counts w2 s1 eq_refl D) as (Ks & Kt).
  split; [exact Ks | split; [exact Kt|]].
  rewrite !getEvents_empty_result by reflexivity. reflexivity.
Qed.

Lemma scrape_error_is_propagated_witness :
  exists s1,
    Server.getEvents Sample.offline (Server.start None) = (([], Some FetchError), s1)
    /\ Server.eventsCache s1 = [].
Proof.
  destruct (scrape_error_is_propagated Sample.offline (Server.start None) FetchError)
    as (s1 & H1 & H2 & _).
  - reflexivity.
  - intros data evs H. discriminate H.
  - reflexivity.
  - exists s1. split; [exact H1 | exact H2].
Defined.

(** The three ways in which a scrape fails. *)
Example scrape_failures :
  eval (Server.scrapeEvents Sample.offline) = ([], Some FetchError) /\
  eval (Server.scrapeEvents
          (mkWorld "pk.test" Sample.day (HttpResponse 503 (Some [Sample.jazz]))
                   Sample.geocoder true))
  = ([], Some (FetchStatusError 503)) /\
  eval (Server.scrapeEvents
          (mkWorld "pk.test" Sample.day (HttpResponse 200 None) Sample.geocoder true))
  = ([], Some ParseError).
Proof. repeat split. Qed.

(** After the failure the provider is as it was: a later call, when the
    site is back, scrapes and returns the collection. *)
Example retry_after_failure :
  fst (Server.getEvents (Sample.world "pk.test" [Sample.jazz; Sample.open_mic])
         (snd (Server.getEvents Sample.offline (Server.start None))))
  = (Sample.collection, None).
Proof. vm_compute. reflexivity. Qed.



(** ** The credential *)

Lemma server_geocodeAddress_no_credential (w : World) (address : string) (t : trace) :
  MAPBOX_ACCESS_TOKEN w = "" ->
  Server.geocodeAddress w address t = ((0%float, 0%float, Some ConfigurationError), t).
Proof. intros K. unfold Server.geocodeAddress. rewrite K. reflexivity. Qed.

Lemma server_scrapeRow_silent (w : World) (today : string) acc row (t : trace) :
  MAPBOX_ACCESS_TOKEN w = "" ->
  snd (Server.scrapeRow w today acc row t) = t.
Proof.
  intros K. unfold Server.scrapeRow.
  destruct (time_datetime_attr row) as [d|]; [|reflexivity].
  destruct (negb (HasPrefix d today)); [reflexivity|].
  unfold bind. rewrite (server_geocodeAddress_no_credential w _ t K). reflexivity.
Qed.

Lemma Each_silent {A S} (f : S -> A -> io S) :
  (forall s x t, snd (f s x t) = t) ->
  forall l s t, snd (Each f l s t) = t.
Proof.
  intros Hf l. induction l as [|x l IH]; intros s t; [reflexivity|].
  cbn [Each]. unfold bind. specialize (Hf s x t).
  destruct (f s x t) as [s' t']. cbn [snd] in Hf. subst t'. apply IH.
Qed.

Lemma server_scrapeEvents_no_credential (w : World) (doc : Document) (t : trace) :
  MAPBOX_ACCESS_TOKEN w = "" ->
  flagpole w = HttpResponse StatusOK (Some doc) ->
  exists evs,
    Server.scrapeEvents w t = ((evs, None), GetListing :: t) /\
    List.length evs = List.length (filter (same_day (today w)) doc) /\
    Forall (fun e => Latitude e = 0%float /\ Longitude e = 0%float) evs.
Proof.
  intros K H.
  destruct (server_scrapeEvents_rows w doc t H) as (evs & t' & HS & HF).
  assert (t' = GetListing :: t) as ->.
  { pose proof (f_equal snd HS) as E. cbn [snd] in E. rewrite <- E.
    unfold Server.scrapeEvents, bind at 1, emit. rewrite H. cbn.
    unfold bind.
    pose proof (Each_silent (Server.scrapeRow w (today w))
                  (fun acc row t0 => server_scrapeRow_silent w (today w) acc row t0 K)
                  doc [] (GetListing :: t)) as Q.
    destruct (Each (Server.scrapeRow w (today w)) doc [] (GetListing :: t))
      as [l t1].
    exact Q. }
  exists evs. split; [exact HS|]. split; [symmetry; exact (Forall2_length HF)|].
  apply Forall_forall. intros e He.
  destruct (Forall2_In_r _ _ _ HF e He) as (row & _ & R).
  destruct R as (_ & _ & _ & _ & _ & _ & _ & _ & _ & Hlat & Hlon).
  unfold eval in Hlat, Hlon.
  rewrite (server_geocodeAddress_no_credential w _ [] K) in Hlat, Hlon.
  split; assumption.
Qed.

(** Without the credential a call of [getEvents] that finds nothing in
    memory and nothing to adopt in the file scrapes, and returns and holds
    the events of the day with the coordinates (0,0); every geocoding
    request in the trace was there before the call. *)
Lemma getEvents_no_credential (w : World) (doc : Document) (s : Server.State) :
  MAPBOX_ACCESS_TOKEN w = "" ->
  flagpole w = HttpResponse StatusOK (Some doc) ->
  Server.eventsCache s = [] ->
  on_disk (Server.events_json s) = [] ->
  exists evs s1,
    Server.getEvents w s = ((evs, None), s1) /\
    Server.eventsCache s1 = evs /\
    List.length evs = List.length (filter (same_day (today w)) doc) /\
    Forall (fun e => Latitude e = 0%float /\ Longitude e = 0%float) evs /\
    (forall address access_token,
       In (GetGeocode address access_token) (Server.log s1) ->
       In (GetGeocode address access_token) (Server.log s)).
Proof.
  intros K H C D. rewrite (getEvents_empty w s C), D.
  destruct (server_scrapeEvents_no_credential w doc
              (load_trace (Server.events_json s) ++ Server.log s) K H)
    as (evs & E & L & F).
  exists evs.
  unfold Server.scrapeIfEmpty, bind, Server.get_eventsCache, Server.liftIO.
  cbn [Server.eventsCache Server.events_json Server.log List.length Nat.eqb].
  rewrite E.
  unfold Server.set_eventsCache, Server.saveEventsToFile, Server.WriteFile_dataFile, ret.
  cbn [Server.eventsCache Server.events_json Server.log].
  assert (forall address access_token,
            In (GetGeocode address access_token)
               (GetListing :: load_trace (Server.events_json s) ++ Server.log s) ->
            In (GetGeocode address access_token) (Server.log s)) as Q.
  { intros a k [X|X]; [discriminate X|].
    apply in_app_or in X. destruct X as [X|X]; [|exact X].
    destruct (Server.events_json s); cbn in X;
      repeat (destruct X as [X|X]; [discriminate X|]); destruct X. }
  destruct (MarshalIndent evs) as [data|]; [destruct (disk_writable w)|];
    eexists; (split; [reflexivity|]); cbn [Server.eventsCache Server.log];
    (split; [reflexivity|]); (split; [exact L|]); (split; [exact F|]);
    intros a k X;
    first [ exact (Q a k X)
          | destruct X as [X|X]; [discriminate X | exact (Q a k X)] ].
Qed.

(** C6, as the code has it. In the server, for every address,
    [geocodeAddress] fails with the configuration error when the
    credential is absent, and makes no request.  The failure stays with
    the call: on a listing that was fetched and parsed the extractor makes
    no geocoding request at all and returns, without error, every event of
    the day with the coordinates (0,0).  The event provider still returns
    the collection: on such a listing [getEvents] returns without error in
    every state, and when it holds nothing in memory and finds nothing to
    adopt in the file it returns, and holds, every event of the day with
    the coordinates (0,0), having made no geocoding request.  It is the
    launcher that refuses to start the server without the credential. *)
Theorem missing_credential_fails_the_call (w : World) (address : string) (t : trace) :
  MAPBOX_ACCESS_TOKEN w = "" ->
  Server.geocodeAddress w address t = ((0%float, 0%float, Some ConfigurationError), t) /\
  (forall doc, flagpole w = HttpResponse StatusOK (Some doc) ->
     exists evs,
       Server.scrapeEvents w t = ((evs, None), GetListing :: t) /\
       List.length evs = List.length (filter (same_day (today w)) doc) /\
       Forall (fun e => Latitude e = 0%float /\ Longitude e = 0%float) evs) /\
  (forall doc s, flagpole w = HttpResponse StatusOK (Some doc) ->
     snd (fst (Server.getEvents w s)) = None /\
     (Server.eventsCache s = [] ->
      (forall data l,
         Server.events_json s = Some data -> Unmarshal data = Some l -> l = []) ->
      exists evs s1,
        Server.getEvents w s = ((evs, None), s1) /\
        Server.eventsCache s1 = evs /\
        List.length evs = List.length (filter (same_day (today w)) doc) /\
        Forall (fun e => Latitude e = 0%float /\ Longitude e = 0%float) evs /\
        (forall address' access_token,
           In (GetGeocode address' access_token) (Server.log s1) ->
           In (GetGeocode address' access_token) (Server.log s)))) /\
  run_sh w = Exit 1.
Proof.
  intros K. split; [apply server_geocodeAddress_no_credential, K|]. split; [|split].
  - intros doc H. exact (server_scrapeEvents_no_credential w doc t K H).
  - intros doc s H. split.
    + destruct (Server.getEvents w s) as [[evs [err|]] s1] eqn:G; [|reflexivity].
      destruct (getEvents_error_inv w s s1 evs err G) as (E & _).
      destruct (server_scrapeEvents_no_credential w doc [] K H) as (evs' & E' & _).
      unfold eval in E. rewrite E' in E. discriminate E.
    + intros C Hfile.
      exact (getEvents_no_credential w doc s K H C (on_disk_nil _ Hfile)).
  - unfold run_sh. rewrite K. reflexivity.
Qed.

Lemma missing_credential_fails_the_call_witness :
  Server.geocodeAddress (Sample.world "" [Sample.jazz]) "123 Main St" []
  = ((0%float, 0%float, Some ConfigurationError), []).
Proof.
  exact (proj1 (missing_credential_fails_the_call
                  (Sample.world "" [Sample.jazz]) "123 Main St" [] eq_refl)).
Defined.

(** C6 as stated fails.  Without the credential the server still serves
    the events of the day, with the coordinates (0,0); and the batch
    scraper, which has no check, sends the request with the empty
    credential and reports what the service answers. *)
Lemma missing_credential_still_serves :
  (exists s,
     Server.getEvents (Sample.world "" [Sample.jazz]) (Server.start None)
     = (([ mkEvent "2024-05-01" "May 1 @ 8:00 pm" "Music" "Jazz Night"
                   "https://flagpole.com/events/jazz-night/" "The Foundry"
                   "123 Main St" "Live jazz." 0%float 0%float ], None), s)) /\
  Scraper.geocodeAddress (Sample.world "" [Sample.jazz]) "123 Main St" []
  = ((0%float, 0%float, Some (UpstreamError 401)), [GetGeocode "123 Main St" ""]).
Proof.
  split; [eexists; vm_compute; reflexivity | reflexivity].
Qed.

(** ** Concurrent first calls *)

Lemma filter_update_length {A} (f : A -> bool) (q : A) :
  forall (l : list A) (i : nat) (p : A),
    nth_error l i = Some p ->
    List.length (filter f (Callers.update i q l)) + (if f p then 1 else 0)
    = List.length (filter f l) + (if f q then 1 else 0).
Proof.
  induction l as [|y l IH]; intros [|i] p H; cbn in H; try discriminate.
  - injection H as ->. cbn. destruct (f p), (f q); cbn; lia.
  - cbn. specialize (IH i p H). destruct (f y); cbn; lia.
Qed.

Lemma Forall_update {A} (P : A -> Prop) (q : A) :
  forall (l : list A) (i : nat),
    Forall P l -> P q -> Forall P (Callers.update i q l).
Proof.
  induction l as [|y l IH]; intros [|i] H Hq; cbn; try assumption.
  - inversion H; subst. constructor; assumption.
  - inversion H; subst. constructor; [assumption | apply IH; assumption].
Qed.

Lemma update_middle {A} (x y : A) (done rest : list A) :
  Callers.update (List.length done) x (done ++ y :: rest) = done ++ x :: rest.
Proof. induction done as [|d done IH]; cbn; [reflexivity | now rewrite IH]. Qed.

Lemma nth_error_middle {A} (y : A) (done rest : list A) :
  nth_error (done ++ y :: rest) (List.length done) = Some y.
Proof. induction done as [|d done IH]; cbn; [reflexivity | exact IH]. Qed.

Section FirstCalls.

Variable w : World.
Variable evs : list Event.
Hypothesis scrape_gives : eval (Server.scrapeEvents w) = (evs, None).
Hypothesis not_empty : evs <> [].

Lemma callers_inv_init (n : nat) : callers_inv evs (Callers.init n None).
Proof.
  unfold callers_inv, Callers.init. cbn. split.
  - induction n as [|n IH]; [reflexivity | exact IH].
  - left. repeat split. induction n as [|n IH]; constructor; [reflexivity | exact IH].
Qed.

Lemma callers_inv_step (i : nat) (c c' : Callers.Config) :
  callers_inv evs c -> Callers.step w i c = Some c' -> callers_inv evs c'.
Proof.
  intros [Hin Hphase] H. unfold Callers.step in H.
  destruct (nth_error (Callers.callers c) i) as [p|] eqn:N; [|discriminate H].
  destruct p as [| | |r].
  - (* mutex.Lock() *)
    destruct (Callers.locked c) eqn:L; [discriminate H|].
    injection H as <-. unfold callers_inv. cbn. split.
    + pose proof (filter_update_length Callers.inside Callers.AtLoad _ _ _ N) as E.
      cbn in E. lia.
    + destruct Hphase as [(C & J & K & F) | (C & K & F)]; [left | right];
        repeat split; try assumption; apply Forall_update; try assumption.
      * reflexivity.
      * intros r Hr. discriminate Hr.
  - (* the first if *)
    destruct (Server.tryLoad (Callers.shared c)) as [u s'] eqn:T.
    injection H as <-. unfold callers_inv. cbn. split.
    + pose proof (filter_update_length Callers.inside Callers.AtScrape _ _ _ N) as E.
      cbn in E. lia.
    + destruct Hphase as [(C & J & K & F) | (C & K & F)]; [left | right].
      * rewrite (tryLoad_empty _ C), J in T.
        apply (f_equal snd) in T. cbn [snd] in T. subst s'. cbn.
        repeat split; try assumption.
        apply Forall_update; [assumption | reflexivity].
      * rewrite tryLoad_loaded in T by (rewrite C; exact not_empty).
        apply (f_equal snd) in T. cbn [snd] in T. subst s'.
        repeat split; try assumption.
        apply Forall_update; [assumption|]. intros r Hr. discriminate Hr.
  - (* the second if, the return and the deferred Unlock *)
    destruct (Server.scrapeIfEmpty w (Callers.shared c)) as [r s'] eqn:S.
    injection H as <-. unfold callers_inv. cbn. split.
    + pose proof (filter_update_length Callers.inside (Callers.Returned r) _ _ _ N) as E.
      cbn in E. destruct (Callers.locked c); lia.
    + right. destruct Hphase as [(C & J & K & F) | (C & K & F)].
      * destruct (scrapeIfEmpty_empty w _ C) as (added & Fk & E).
        cbn zeta in E. rewrite scrape_gives, S in E. injection E as -> ->.
        rewrite saved_eventsCache, saved_log by reflexivity.
        cbn [Server.eventsCache Server.log]. repeat split.
        -- rewrite (keyed_count is_scrape _ _ keyed_not_scrape Fk), count_cons.
           cbn. rewrite K. reflexivity.
        -- apply Forall_update; [|intros r Hr; now injection Hr as <-].
           revert F. apply Forall_impl. intros p Hp r Hr. subst p. discriminate Hp.
      * rewrite scrapeIfEmpty_loaded in S by (rewrite C; exact not_empty).
        injection S as <- <-. rewrite C. repeat split; try assumption.
        apply Forall_update; [assumption|]. intros r Hr. now injection Hr as <-.
  - discriminate H.
Qed.

Lemma callers_inv_run (schedule : list nat) :
  forall c c', callers_inv evs c -> Callers.run w schedule c = Some c' ->
               callers_inv evs c'.
Proof.
  induction schedule as [|i schedule IH]; intros c c' Hc H; cbn in H.
  - injection H as <-. exact Hc.
  - destruct (Callers.step w i c) as [c1|] eqn:S; [|discriminate H].
    apply (IH c1 c' (callers_inv_step i c c1 Hc S) H).
Qed.

(** A caller that has not returned can step, or the caller that holds the
    mutex can. *)
Lemma callers_progress (c : Callers.Config) :
  callers_inv evs c ->
  (exists p, In p (Callers.callers c) /\ Callers.returned p = false) ->
  exists i c', Callers.step w i c = Some c'.
Proof.
  intros [Hin _] (p & Hp & Hr).
  assert (exists q, In q (Callers.callers c)
                    /\ (Callers.inside q = true
                        \/ (q = Callers.AtLock /\ Callers.locked c = false)))
    as (q & Hq & Hcase).
  { destruct (Callers.locked c) eqn:L.
    - destruct (filter Callers.inside (Callers.callers c)) as [|q l] eqn:E;
        [discriminate Hin|].
      assert (In q (filter Callers.inside (Callers.callers c))) as Hq
          by (rewrite E; now left).
      apply filter_In in Hq. exists q. split; [apply Hq | left; apply Hq].
    - exists p. split; [exact Hp|]. destruct p; try discriminate Hr.
      + right. split; reflexivity.
      + exfalso. assert (In Callers.AtLoad (filter Callers.inside (Callers.callers c)))
          as Hq by (apply filter_In; split; [exact Hp | reflexivity]).
        destruct (filter Callers.inside (Callers.callers c)); [destruct Hq | discriminate Hin].
      + exfalso. assert (In Callers.AtScrape (filter Callers.inside (Callers.callers c)))
          as Hq by (apply filter_In; split; [exact Hp | reflexivity]).
        destruct (filter Callers.inside (Callers.callers c)); [destruct Hq | discriminate Hin]. }
  destruct (In_nth_error _ _ Hq) as (i & Hi). exists i.
  unfold Callers.step. rewrite Hi.
  destruct Hcase as [Hins | (-> & L)].
  - destruct q; try discriminate Hins.
    + destruct (Server.tryLoad (Callers.shared c)). eexists. reflexivity.
    + destruct (Server.scrapeIfEmpty w (Callers.shared c)). eexists. reflexivity.
  - rewrite L. eexists. reflexivity.
Qed.

End FirstCalls.

(** The callers can always run one after the other, to the end. *)
Lemma in_turn_completes (w : World) :
  forall (k : nat) (done : list Callers.pc) (s : Server.State),
    Forall (fun p => Callers.returned p = true) done ->
    exists c,
      Callers.run w (flat_map (fun i => [i; i; i]) (seq (List.length done) k))
        (Callers.mkConfig s false (done ++ repeat Callers.AtLock k)) = Some c /\
      Forall (fun p => Callers.returned p = true) (Callers.callers c) /\
      List.length (Callers.callers c) = List.length done + k.
Proof.
  induction k as [|k IH]; intros done s Hdone.
  - cbn. eexists. split; [reflexivity|]. cbn. rewrite app_nil_r, Nat.add_0_r.
    split; [exact Hdone | reflexivity].
  - cbn [seq flat_map app repeat Callers.run].
    unfold Callers.step at 1. cbn [Callers.callers Callers.locked Callers.shared].
    rewrite nth_error_middle, update_middle.
    unfold Callers.step at 1. cbn [Callers.callers Callers.locked Callers.shared].
    rewrite nth_error_middle. destruct (Server.tryLoad s) as [u s1].
    rewrite update_middle.
    unfold Callers.step at 1. cbn [Callers.callers Callers.locked Callers.shared].
    rewrite nth_error_middle. destruct (Server.scrapeIfEmpty w s1) as [r s2].
    rewrite update_middle.
    assert (Forall (fun p => Callers.returned p = true) (done ++ [Callers.Returned r]))
      as Hdone' by (apply Forall_app; split; [exact Hdone | now constructor]).
    destruct (IH (done ++ [Callers.Returned r]) s2 Hdone') as (c & Hrun & Hall & Hlen).
    rewrite length_app, <- app_assoc in *. cbn [List.length app] in *.
    rewrite Nat.add_1_r in Hrun.
    exists c. split; [exact Hrun | split; [exact Hall | lia]].
Qed.

(** C9, as the code has it. Let [n] callers call [getEvents] at once in a
    process that has just started, with no cache file, when the scrape
    succeeds with a non-empty collection.  However their steps interleave,
    at most one caller is between [Lock] and [Unlock], and the mutex is
    held exactly then; the listing is fetched at most once, and exactly
    once as soon as a caller has returned; every caller that has returned
    has returned that collection without error; and as long as a caller
    has not returned some caller can step.  The schedule in which the
    callers run in turn brings all [n] of them to return. *)
Theorem concurrent_first_calls_scrape_once (w : World) (n : nat) (evs : list Event) :
  eval (Server.scrapeEvents w) = (evs, None) ->
  evs <> [] ->
  (forall schedule c,
     Callers.run w schedule (Callers.init n None) = Some c ->
     List.length (filter Callers.inside (Callers.callers c))
     = (if Callers.locked c then 1 else 0) /\
     count is_scrape (Server.log (Callers.shared c)) <= 1 /\
     (forall i r,
        nth_error (Callers.callers c) i = Some (Callers.Returned r) ->
        r = (evs, None) /\ count is_scrape (Server.log (Callers.shared c)) = 1) /\
     ((exists p, In p (Callers.callers c) /\ Callers.returned p = false) ->
      exists i c', Callers.step w i c = Some c')) /\
  (exists c,
     Callers.run w (Callers.in_turn n) (Callers.init n None) = Some c /\
     Forall (fun p => Callers.returned p = true) (Callers.callers c) /\
     List.length (Callers.callers c) = n).
Proof.
  intros Hs Hne. split.
  - intros schedule c Hrun.
    pose proof (callers_inv_run w evs Hs Hne schedule _ _ (callers_inv_init evs n) Hrun)
      as Hinv.
    pose proof Hinv as [Hin Hphase].
    split; [exact Hin|]. split; [|split].
    + destruct Hphase as [(_ & _ & K & _) | (_ & K & _)]; lia.
    + intros i r Hi. apply nth_error_In in Hi.
      destruct Hphase as [(_ & _ & _ & F) | (_ & K & F)].
      * rewrite Forall_forall in F. specialize (F _ Hi). discriminate F.
      * rewrite Forall_forall in F. split; [exact (F _ Hi r eq_refl) | exact K].
    + apply (callers_progress w evs c Hinv).
  - apply (in_turn_completes w n [] (Server.start None)). constructor.
Qed.

Lemma concurrent_first_calls_scrape_once_witness :
  exists c,
    Callers.run (Sample.world "pk.test" [Sample.jazz; Sample.open_mic])
      (Callers.in_turn 3) (Callers.init 3 None) = Some c /\
    Forall (fun p => Callers.returned p = true) (Callers.callers c) /\
    List.length (Callers.callers c) = 3.
Proof.
  refine (proj2 (concurrent_first_calls_scrape_once
                   (Sample.world "pk.test" [Sample.jazz; Sample.open_mic])
                   3 Sample.collection _ _)).
  - reflexivity.
  - discriminate.
Defined.

(** Three callers that get the mutex in another order: the one that gets
    it first scrapes, the others get the collection it has adopted. *)
Example three_callers_other_order :
  exists s,
    Callers.run (Sample.world "pk.test" [Sample.jazz; Sample.open_mic])
      [1; 1; 1; 2; 2; 2; 0; 0; 0] (Callers.init 3 None)
    = Some (Callers.mkConfig s false
              [Callers.Returned (Sample.collection, None);
               Callers.Returned (Sample.collection, None);
               Callers.Returned (Sample.collection, None)])
    /\ count is_scrape (Server.log s) = 1.
Proof. eexists. split; [vm_compute; reflexivity | reflexivity]. Qed.

(** A caller cannot enter while another holds the mutex. *)
Example blocked_on_the_mutex :
  Callers.run (Sample.world "pk.test" [Sample.jazz]) [0; 1] (Callers.init 2 None)
  = None.
Proof. reflexivity. Qed.

(** C9 as stated fails: when no row is of the day, two simultaneous first
    calls against an empty cache both return the empty collection and the
    listing is fetched twice. *)
Lemma concurrent_empty_scrapes_twice :
  exists s,
    Callers.run (Sample.world "pk.test" [Sample.yesterday])
      (Callers.in_turn 2) (Callers.init 2 None)
    = Some (Callers.mkConfig s false
              [Callers.Returned ([], None); Callers.Returned ([], None)])
    /\ count is_scrape (Server.log s) = 2.
Proof. eexists. split; [vm_compute; reflexivity | reflexivity]. Qed.

(** * Further properties of the code *)

(** ** The geocoder *)

(** X1. The server's [geocodeAddress] succeeds exactly when the credential
    is set and the service answers 200 with a body that decodes to at least
    one feature; it then returns the coordinates of the first feature,
    longitude first, whatever the others are.  On every error it returns
    the coordinates (0,0). *)
Theorem geocodeAddress_first_feature (w : World) (address : string) :
  (forall longitude latitude,
     eval (Server.geocodeAddress w address) = (longitude, latitude, None) <->
     MAPBOX_ACCESS_TOKEN w <> "" /\
     exists others,
       mapbox w address (MAPBOX_ACCESS_TOKEN w)
       = HttpResponse StatusOK
           (Some (mkMapboxResponse (mkFeature longitude latitude :: others)))) /\
  (forall err,
     snd (eval (Server.geocodeAddress w address)) = Some err ->
     fst (eval (Server.geocodeAddress w address)) = (0%float, 0%float)).
Proof.
  unfold eval, Server.geocodeAddress, bind, emit, ret. split.
  - intros lon lat.
    destruct (MAPBOX_ACCESS_TOKEN w =? "")%string eqn:K.
    { apply String.eqb_eq in K. cbn. split; [discriminate|].
      intros [H _]. contradiction. }
    apply String.eqb_neq in K.
    destruct (mapbox w address (MAPBOX_ACCESS_TOKEN w)) as [|status [[features]|]];
      cbn.
    + split; [discriminate | intros (_ & o & H); discriminate H].
    + destruct (status =? StatusOK)%Z eqn:S; cbn.
      * apply Z.eqb_eq in S. subst status.
        destruct features as [|[lon0 lat0] others]; cbn.
        -- split; [discriminate | intros (_ & o & H); discriminate H].
        -- split.
           ++ intros H. injection H as -> ->. split; [exact K|]. now exists others.
           ++ intros (_ & o & H). injection H as -> -> _. reflexivity.
      * apply Z.eqb_neq in S.
        split; [discriminate | intros (_ & o & H)]. injection H as H _.
        contradiction.
    + destruct (status =? StatusOK)%Z; cbn;
        (split; [discriminate | intros (_ & o & H); discriminate H]).
  - intros err.
    destruct (MAPBOX_ACCESS_TOKEN w =? "")%string; [reflexivity|].
    destruct (mapbox w address (MAPBOX_ACCESS_TOKEN w)) as [|status [[features]|]];
      cbn; [reflexivity| |].
    + destruct (negb (status =? StatusOK)%Z); cbn; [reflexivity|].
      destruct features; cbn; [reflexivity | discriminate].
    + destruct (negb (status =? StatusOK)%Z); reflexivity.
Qed.

(** ** What a scrape does, in order *)

Lemma Each_effects {A S} (f : S -> A -> io S) (h : A -> list io_event) :
  (forall s x t, snd (f s x t) = rev (h x) ++ t) ->
  forall l s t, snd (Each f l s t) = rev (flat_map h l) ++ t.
Proof.
  intros Hf l. induction l as [|x l IH]; intros s t; [reflexivity|].
  cbn [Each flat_map]. unfold bind. specialize (Hf s x t).
  destruct (f s x t) as [s' t']. cbn [snd] in Hf. subst t'.
  rewrite IH, rev_app_distr, <- app_assoc. reflexivity.
Qed.

Lemma flat_map_filter {A B} (p : A -> bool) (g : A -> list B) (l : list A) :
  flat_map (fun x => if p x then g x else []) l = flat_map g (filter p l).
Proof.
  induction l as [|x l IH]; [reflexivity|]. cbn.
  destruct (p x); cbn; rewrite IH; reflexivity.
Qed.

Lemma server_scrapeRow_effects (w : World) (today : string) acc row (t : trace) :
  snd (Server.scrapeRow w today acc row t)
  = rev (if same_day today row then server_row_effects w row else []) ++ t.
Proof.
  destruct (same_day today row) eqn:D.
  - destruct (same_day_true_inv _ _ D) as (d & Hd & Hp).
    unfold Server.scrapeRow. rewrite Hd, Hp. cbn [negb].
    unfold server_row_effects, eval, Server.geocodeAddress, bind, emit, ret.
    destruct (MAPBOX_ACCESS_TOKEN w =? "")%string; [reflexivity|].
    destruct (mapbox w (TrimSpace (venue_address_text row)) (MAPBOX_ACCESS_TOKEN w))
      as [|status [[features]|]]; cbn; [reflexivity| |].
    + destruct (negb (status =? StatusOK)%Z); cbn; [reflexivity|].
      destruct features; reflexivity.
    + destruct (negb (status =? StatusOK)%Z); reflexivity.
  - rewrite (server_scrapeRow_skip w today acc row t D). reflexivity.
Qed.

Lemma scraper_scrapeRow_effects (w : World) (today : string) acc row (t : trace) :
  snd (Scraper.scrapeRow w today acc row t)
  = rev (if same_day today row then scraper_row_effects w row else []) ++ t.
Proof.
  destruct (same_day today row) eqn:D.
  - destruct (same_day_true_inv _ _ D) as (d & Hd & Hp).
    unfold Scraper.scrapeRow. rewrite Hd, Hp. cbn [negb].
    unfold scraper_row_effects, Scraper.geocodeAddress, bind, emit, ret.
    destruct (mapbox w (TrimSpace (venue_address_text row)) (MAPBOX_ACCESS_TOKEN w))
      as [|status [[features]|]]; cbn; [reflexivity| |].
    + destruct (negb (status =? StatusOK)%Z); cbn; [reflexivity|].
      destruct features; reflexivity.
    + destruct (negb (status =? StatusOK)%Z); reflexivity.
  - rewrite (scraper_scrapeRow_skip w today acc row t D). reflexivity.
Qed.

(** X2. On a listing that was fetched and parsed, the server's
    [scrapeEvents] fetches the listing and then goes through the rows of
    the day in document order: for each of them one geocoding request with
    the trimmed venue address and the credential, followed by the pause of
    100 ms when the request succeeded; without a credential no request at
    all.  Nothing else happens, and no request starts before the one before
    it has been answered. *)
Theorem server_scrape_chronicle (w : World) (doc : Document) (t : trace) :
  flagpole w = HttpResponse StatusOK (Some doc) ->
  chronicle (snd (Server.scrapeEvents w t))
  = chronicle t ++
    GetListing :: flat_map (server_row_effects w) (filter (same_day (today w)) doc).
Proof.
  intros H. unfold chronicle, Server.scrapeEvents, bind at 1, emit. rewrite H. cbn.
  unfold bind.
  pose proof (Each_effects (Server.scrapeRow w (today w))
                (fun row => if same_day (today w) row
                            then server_row_effects w row else [])
                (fun acc row t0 => server_scrapeRow_effects w (today w) acc row t0)
                doc [] (GetListing :: t)) as E.
  destruct (Each (Server.scrapeRow w (today w)) doc [] (GetListing :: t)) as [l t'].
  cbn [snd] in *. subst t'. unfold ret. cbn [snd].
  rewrite rev_app_distr, rev_involutive, flat_map_filter. cbn [rev].
  rewrite <- app_assoc. reflexivity.
Qed.

Lemma server_scrape_chronicle_witness :
  chronicle (snd (Server.scrapeEvents
                    (Sample.world "pk.test" [Sample.jazz; Sample.yesterday; Sample.open_mic])
                    []))
  = [GetListing; GetGeocode "123 Main St" "pk.test"; Sleep100ms;
     GetGeocode "" "pk.test"].
Proof.
  exact (server_scrape_chronicle
           (Sample.world "pk.test" [Sample.jazz; Sample.yesterday; Sample.open_mic])
           [Sample.jazz; Sample.yesterday; Sample.open_mic] [] eq_refl).
Defined.

(** X3. The batch scraper's [scrapeEvents] does the same without the
    pause: the listing, then exactly one geocoding request per row of the
    day, in document order, each with the trimmed venue address and the
    credential as the environment has it, even when it is empty. *)
Theorem scraper_scrape_chronicle (w : World) (doc : Document) (t : trace) :
  flagpole w = HttpResponse StatusOK (Some doc) ->
  chronicle (snd (Scraper.scrapeEvents w t))
  = chronicle t ++
    GetListing
    :: map (fun row => GetGeocode (TrimSpace (venue_address_text row))
                                  (MAPBOX_ACCESS_TOKEN w))
           (filter (same_day (today w)) doc).
Proof.
  intros H. unfold chronicle, Scraper.scrapeEvents, bind at 1, emit. rewrite H. cbn.
  unfold bind.
  pose proof (Each_effects (Scraper.scrapeRow w (today w))
                (fun row => if same_day (today w) row
                            then scraper_row_effects w row else [])
                (fun acc row t0 => scraper_scrapeRow_effects w (today w) acc row t0)
                doc [] (GetListing :: t)) as E.
  destruct (Each (Scraper.scrapeRow w (today w)) doc [] (GetListing :: t)) as [l t'].
  cbn [snd] in *. subst t'. unfold ret. cbn [snd].
  rewrite rev_app_distr, rev_involutive, flat_map_filter. cbn [rev].
  rewrite <- app_assoc. unfold scraper_row_effects.
  f_equal.
Qed.

Lemma scraper_scrape_chronicle_witness :
  chronicle (snd (Scraper.scrapeEvents
                    (Sample.world "" [Sample.jazz; Sample.yesterday; Sample.open_mic])
                    []))
  = [GetListing; GetGeocode "123 Main St" ""; GetGeocode "" ""].
Proof.
  exact (scraper_scrape_chronicle
           (Sample.world "" [Sample.jazz; Sample.yesterday; Sample.open_mic])
           [Sample.jazz; Sample.yesterday; Sample.open_mic] [] eq_refl).
Defined.

(** X4. A scrape either has a listing that was fetched with status 200
    and parsed, or fails at once: both [scrapeEvents] then return no event
    and the same error, having fetched the listing and made no geocoding
    request. *)
Theorem scrape_fails_before_geocoding (w : World) (t : trace) :
  (exists doc, flagpole w = HttpResponse StatusOK (Some doc)) \/
  (exists err,
     Server.scrapeEvents w t = (([], Some err), GetListing :: t) /\
     Scraper.scrapeEvents w t = (([], Some err), GetListing :: t)).
Proof.
  unfold Server.scrapeEvents, Scraper.scrapeEvents, bind, emit, ret.
  destruct (flagpole w) as [|status [doc|]].
  - right. exists FetchError. split; reflexivity.
  - destruct (status =? StatusOK)%Z eqn:S.
    + apply Z.eqb_eq in S. subst status. left. now exists doc.
    + right. exists (FetchStatusError status). cbn. split; reflexivity.
  - right. destruct (status =? StatusOK)%Z.
    + exists ParseError. split; reflexivity.
    + exists (FetchStatusError status). split; reflexivity.
Qed.

(** ** The two extractors, side by side *)





(** ** Extraction row by row *)

Lemma recorded_functional sentinel outcome today row (e1 e2 : Event) :
  recorded sentinel outcome today row e1 ->
  recorded sentinel outcome today row e2 -> e1 = e2.
Proof.
  destruct e1, e2. unfold recorded. cbn.
  intros (A1 & _ & A3 & A4 & A5 & A6 & A7 & A8 & A9 & A10 & A11)
         (B1 & _ & B3 & B4 & B5 & B6 & B7 & B8 & B9 & B10 & B11).
  f_equal; congruence.
Qed.

Lemma Forall2_functional {A B} (R : A -> B -> Prop) :
  (forall x y1 y2, R x y1 -> R x y2 -> y1 = y2) ->
  forall l a, Forall2 R l a -> forall b, Forall2 R l b -> a = b.
Proof.
  intros HR l a H. induction H as [|x y l a Hxy _ IH]; intros b Hb;
    inversion Hb; subst; [reflexivity|].
  f_equal; [eapply HR; eassumption | now apply IH].
Qed.

Lemma server_events_of (w : World) (doc : Document) :
  Forall2 (fun row e =>
             recorded 0%float
               (eval (Server.geocodeAddress w (TrimSpace (venue_address_text row))))
               (today w) row e)
          (filter (same_day (today w)) doc)
          (fst (eval (Server.scrapeEvents (with_listing w doc)))).
Proof.
  destruct (server_scrapeEvents_rows (with_listing w doc) doc [] eq_refl)
    as (evs & t' & HS & HF).
  unfold eval. rewrite HS. exact HF.
Qed.

Lemma scraper_events_of (w : World) (doc : Document) :
  Forall2 (fun row e =>
             recorded (-1)%float
               (eval (Scraper.geocodeAddress w (TrimSpace (venue_address_text row))))
               (today w) row e)
          (filter (same_day (today w)) doc)
          (fst (eval (Scraper.scrapeEvents (with_listing w doc)))).
Proof.
  destruct (scraper_scrapeEvents_rows (with_listing w doc) doc [] eq_refl)
    as (evs & t' & HS & HF).
  unfold eval. rewrite HS. exact HF.
Qed.

(** X6. Extraction goes row by row: the events of two listings put one
    after the other are the events of the first followed by the events of
    the second, so that order and repetitions are kept; and the rows that
    are not of the day can be taken out of a listing without changing what
    is extracted.  Both extractors. *)
Theorem extraction_row_by_row (w : World) (doc1 doc2 : Document) :
  (fst (eval (Server.scrapeEvents (with_listing w (doc1 ++ doc2))))
   = fst (eval (Server.scrapeEvents (with_listing w doc1)))
     ++ fst (eval (Server.scrapeEvents (with_listing w doc2)))
   /\
   fst (eval (Server.scrapeEvents (with_listing w doc1)))
   = fst (eval (Server.scrapeEvents
                  (with_listing w (filter (same_day (today w)) doc1)))))
  /\
  (fst (eval (Scraper.scrapeEvents (with_listing w (doc1 ++ doc2))))
   = fst (eval (Scraper.scrapeEvents (with_listing w doc1)))
     ++ fst (eval (Scraper.scrapeEvents (with_listing w doc2)))
   /\
   fst (eval (Scraper.scrapeEvents (with_listing w doc1)))
   = fst (eval (Scraper.scrapeEvents
                  (with_listing w (filter (same_day (today w)) doc1))))).
Proof.
  assert (forall l, filter (same_day (today w)) (filter (same_day (today w)) l)
                    = filter (same_day (today w)) l) as Hff.
  { intros l. apply forallb_filter_id, forallb_filter. }
  repeat split.
  - pose proof (server_events_of w (doc1 ++ doc2)) as H12. rewrite filter_app in H12.
    eapply Forall2_functional; [|exact H12|].
    + intros x y1 y2. apply recorded_functional.
    + apply Forall2_app; apply server_events_of.
  - pose proof (server_events_of w (filter (same_day (today w)) doc1)) as Hf.
    rewrite Hff in Hf.
    eapply Forall2_functional; [|apply server_events_of | exact Hf].
    intros x y1 y2. apply recorded_functional.
  - pose proof (scraper_events_of w (doc1 ++ doc2)) as H12. rewrite filter_app in H12.
    eapply Forall2_functional; [|exact H12|].
    + intros x y1 y2. apply recorded_functional.
    + apply Forall2_app; apply scraper_events_of.
  - pose proof (scraper_events_of w (filter (same_day (today w)) doc1)) as Hf.
    rewrite Hff in Hf.
    eapply Forall2_functional; [|apply scraper_events_of | exact Hf].
    intros x y1 y2. apply recorded_functional.
Qed.

(** ** Trimmed fields *)

Lemma trimFront_no_space (back : bool) :
  forall n s, String.length s <= n -> starts_with_space (trimFront back s) = false.
Proof.
  induction n as [|n IH]; intros s Hn.
  - destruct s; [reflexivity | cbn in Hn; lia].
  - destruct s as [|a r]; [reflexivity|]. cbn [String.length] in Hn.
    cbn [trimFront]. destruct (asciiSpace a) eqn:Ha; [apply IH; lia|].
    destruct r as [|b r2]; [cbn; exact Ha|]. cbn [String.length] in Hn.
    destruct (if back then space2 b a else space2 a b); [apply IH; lia|].
    destruct r2 as [|c r3]; [cbn; exact Ha|]. cbn [String.length] in Hn.
    destruct (if back then space3 c b a else space3 a b c); [apply IH; lia|].
    cbn. exact Ha.
Qed.

Lemma trimFront_suffix (back : bool) :
  forall n s, String.length s <= n ->
              exists front, s = (front ++ trimFront back s)%string.
Proof.
  induction n as [|n IH]; intros s Hn.
  - destruct s; [now exists "" | cbn in Hn; lia].
  - destruct s as [|a r]; [now exists ""|]. cbn [String.length] in Hn.
    cbn [trimFront]. destruct (asciiSpace a).
    { destruct (IH r) as (f & Hf); [lia|]. exists (String a f). cbn. now rewrite <- Hf. }
    destruct r as [|b r2]; [now exists ""|]. cbn [String.length] in Hn.
    destruct (if back then space2 b a else space2 a b).
    { destruct (IH r2) as (f & Hf); [lia|]. exists (String a (String b f)).
      cbn. now rewrite <- Hf. }
    destruct r2 as [|c r3]; [now exists ""|]. cbn [String.length] in Hn.
    destruct (if back then space3 c b a else space3 a b c); [|now exists ""].
    destruct (IH r3) as (f & Hf); [lia|]. exists (String a (String b (String c f))).
    cbn. now rewrite <- Hf.
Qed.

Lemma list_ascii_of_string_app (s1 s2 : string) :
  list_ascii_of_string (s1 ++ s2)%string
  = list_ascii_of_string s1 ++ list_ascii_of_string s2.
Proof. induction s1 as [|a s1 IH]; cbn; [reflexivity | now rewrite IH]. Qed.

Lemma string_of_list_ascii_app (l1 l2 : list ascii) :
  string_of_list_ascii (l1 ++ l2)
  = (string_of_list_ascii l1 ++ string_of_list_ascii l2)%string.
Proof. induction l1 as [|a l1 IH]; cbn; [reflexivity | now rewrite IH]. Qed.

Lemma reverse_involutive (s : string) : reverse (reverse s) = s.
Proof.
  unfold reverse. rewrite list_ascii_of_string_of_list_ascii, rev_involutive.
  apply string_of_list_ascii_of_string.
Qed.

Lemma reverse_app (s1 s2 : string) :
  reverse (s1 ++ s2)%string = (reverse s2 ++ reverse s1)%string.
Proof.
  unfold reverse.
  rewrite list_ascii_of_string_app, rev_app_distr, string_of_list_ascii_app.
  reflexivity.
Qed.

Lemma TrimSpace_trimmed (s : string) : trimmed (TrimSpace s).
Proof.
  unfold trimmed, ends_with_space, TrimSpace.
  set (Z := trimFront false s). set (Y := trimFront true (reverse Z)).
  split.
  - destruct (trimFront_suffix true _ (reverse Z) (Nat.le_refl _)) as (front & Hf).
    fold Y in Hf.
    assert (Z = (reverse Y ++ reverse front)%string) as HZ.
    { rewrite <- reverse_app, <- Hf. symmetry. apply reverse_involutive. }
    pose proof (trimFront_no_space false _ s (Nat.le_refl _)) as HA. fold Z in HA.
    destruct (reverse Y) as [|a r]; [reflexivity|].
    rewrite HZ in HA. exact HA.
  - rewrite reverse_involutive. apply (trimFront_no_space true _ _ (Nat.le_refl _)).
Qed.

(** X7. Every display text of an extracted event (datetime, category,
    title, venue, address, description) is trimmed: it neither begins nor
    ends with a tab, a line feed, a vertical tab, a form feed, a carriage
    return or a space, in both extractors. *)
Theorem extracted_texts_are_trimmed (w : World) (doc : Document) (t : trace) :
  flagpole w = HttpResponse StatusOK (Some doc) ->
  (exists evs t',
     Server.scrapeEvents w t = ((evs, None), t') /\
     Forall (fun e => trimmed (Datetime e) /\ trimmed (Category e) /\
                      trimmed (Title e) /\ trimmed (Venue e) /\
                      trimmed (Address e) /\ trimmed (Description e)) evs) /\
  (exists evs t',
     Scraper.scrapeEvents w t = ((evs, None), t') /\
     Forall (fun e => trimmed (Datetime e) /\ trimmed (Category e) /\
                      trimmed (Title e) /\ trimmed (Venue e) /\
                      trimmed (Address e) /\ trimmed (Description e)) evs).
Proof.
  intros H. split.
  - destruct (server_scrapeEvents_rows w doc t H) as (evs & t' & HS & HF).
    exists evs, t'. split; [exact HS|]. apply Forall_forall. intros e He.
    destruct (Forall2_In_r _ _ _ HF e He) as (row & _ & R).
    destruct R as (_ & _ & -> & -> & -> & _ & -> & -> & -> & _).
    repeat split; apply TrimSpace_trimmed.
  - destruct (scraper_scrapeEvents_rows w doc t H) as (evs & t' & HS & HF).
    exists evs, t'. split; [exact HS|]. apply Forall_forall. intros e He.
    destruct (Forall2_In_r _ _ _ HF e He) as (row & _ & R).
    destruct R as (_ & _ & -> & -> & -> & _ & -> & -> & -> & _).
    repeat split; apply TrimSpace_trimmed.
Qed.

Lemma extracted_texts_are_trimmed_witness :
  exists evs t',
    Server.scrapeEvents (Sample.world "pk.test" [Sample.jazz]) [] = ((evs, None), t') /\
    Forall (fun e => trimmed (Datetime e) /\ trimmed (Category e) /\
                     trimmed (Title e) /\ trimmed (Venue e) /\
                     trimmed (Address e) /\ trimmed (Description e)) evs.
Proof.
  exact (proj1 (extracted_texts_are_trimmed (Sample.world "pk.test" [Sample.jazz])
                  [Sample.jazz] [] eq_refl)).
Defined.

(** ** The cache file, in general *)

Lemma coerce_replacement (s : string) : coerce (replacement s) = replacement (coerce s).
Proof. reflexivity. Qed.

Lemma coerce_idempotent_upto :
  forall n s, String.length s <= n -> coerce (coerce s) = coerce s.
Proof.
  induction n as [|n IH]; intros s Hn.
  - destruct s; [reflexivity | cbn in Hn; lia].
  - destruct s as [|a r]; [reflexivity|]. cbn [String.length] in Hn.
    assert (coerce (coerce r) = coerce r) as IHr by (apply IH; lia).
    cbn [coerce]. destruct (code a <? 128)%N eqn:Ha.
    { cbn [coerce]. rewrite Ha, IHr. reflexivity. }
    destruct r as [|b r2]; [reflexivity|]. cbn [String.length] in Hn.
    destruct (utf8_2 a b) eqn:H2.
    { cbn [coerce]. rewrite Ha, H2, (IH r2) by lia. reflexivity. }
    destruct r2 as [|c r3]; [rewrite coerce_replacement, IHr; reflexivity|].
    cbn [String.length] in Hn.
    destruct (utf8_3 a b c) eqn:H3.
    { cbn [coerce]. rewrite Ha, H2, H3, (IH r3) by lia. reflexivity. }
    destruct r3 as [|d r4]; [rewrite coerce_replacement, IHr; reflexivity|].
    cbn [String.length] in Hn.
    destruct (utf8_4 a b c d) eqn:H4.
    { cbn [coerce]. rewrite Ha, H2, H3, H4, (IH r4) by lia. reflexivity. }
    rewrite coerce_replacement, IHr. reflexivity.
Qed.

Lemma coerce_idempotent (s : string) : coerce (coerce s) = coerce s.
Proof. apply (coerce_idempotent_upto (String.length s)). apply Nat.le_refl. Qed.

Lemma coerce_event_idempotent (e : Event) :
  coerce_event (coerce_event e) = coerce_event e.
Proof.
  destruct e. unfold coerce_event. cbn. rewrite !coerce_idempotent. reflexivity.
Qed.

Lemma UnmarshalEvent_MarshalEvent_coerce (e : Event) :
  encodable e = true -> UnmarshalEvent (MarshalEvent e) = Some (coerce_event e).
Proof.
  destruct e as [d dt c ti l v a ds lat lon].
  unfold encodable, coerce_event.
  cbn [Date Datetime Category Title EventLink Venue Address Description
       Latitude Longitude].
  intros Hf. apply andb_prop in Hf. destruct Hf as [Hlat Hlon].
  cbn. rewrite Hlat. cbn. rewrite Hlon. rewrite !coerce_idempotent. reflexivity.
Qed.

Lemma Unmarshal_MarshalIndent_coerce (events : list Event) :
  forallb encodable events = true ->
  exists data, MarshalIndent events = Some data
               /\ Unmarshal data = Some (map coerce_event events).
Proof.
  intros He. unfold MarshalIndent. rewrite He. eexists. split; [reflexivity|].
  destruct events as [|e0 events0]; [reflexivity|].
  cbn [Unmarshal]. revert He. generalize (e0 :: events0). clear.
  induction l as [|e l IH]; [reflexivity|]. cbn [forallb]. intros He.
  apply andb_prop in He. destruct He as [He He'].
  cbn [map UnmarshalEvents].
  rewrite (UnmarshalEvent_MarshalEvent_coerce e He), (IH He'). reflexivity.
Qed.

Lemma encodable_coerce_events (events : list Event) :
  forallb encodable (map coerce_event events) = forallb encodable events.
Proof.
  induction events as [|e l IH]; [reflexivity|]. cbn. rewrite IH.
  destruct e. reflexivity.
Qed.

Lemma save_then_load_coerce (w : World) (events : list Event) (s : Server.State) :
  disk_writable w = true ->
  forallb encodable events = true ->
  exists s1 s2,
    Server.saveEventsToFile w events s = (None, s1) /\
    Server.loadEventsFromFile s1 = ((map coerce_event events, None), s2).
Proof.
  intros Hw He.
  destruct (Unmarshal_MarshalIndent_coerce events He) as (data & HM & HU).
  unfold Server.saveEventsToFile, Server.WriteFile_dataFile. rewrite HM, Hw.
  eexists. eexists. split; [reflexivity|].
  unfold Server.loadEventsFromFile, Server.ReadFile_dataFile, bind. cbn.
  rewrite HU. reflexivity.
Qed.

(** X8. For every collection with finite coordinates, whatever its
    strings, when the file can be written, [saveEventsToFile] succeeds and
    [loadEventsFromFile] returns the collection with each string coerced to
    valid UTF-8, in the same order and with the same coordinates; saving
    and loading what was loaded gives it back unchanged. *)
Theorem save_then_load_settles (w : World) (events : list Event) (s : Server.State) :
  disk_writable w = true ->
  forallb encodable events = true ->
  exists s1 s2,
    Server.saveEventsToFile w events s = (None, s1) /\
    Server.loadEventsFromFile s1 = ((map coerce_event events, None), s2) /\
    exists s3 s4,
      Server.saveEventsToFile w (map coerce_event events) s2 = (None, s3) /\
      Server.loadEventsFromFile s3 = ((map coerce_event events, None), s4).
Proof.
  intros Hw He.
  destruct (save_then_load_coerce w events s Hw He) as (s1 & s2 & H1 & H2).
  exists s1, s2. split; [exact H1|]. split; [exact H2|].
  assert (forallb encodable (map coerce_event events) = true) as He'
      by (rewrite encodable_coerce_events; exact He).
  destruct (save_then_load_coerce w (map coerce_event events) s2 Hw He')
    as (s3 & s4 & H3 & H4).
  exists s3, s4. split; [exact H3|].
  rewrite map_map in H4.
  rewrite (map_ext _ _ coerce_event_idempotent) in H4. exact H4.
Qed.

Lemma save_then_load_settles_witness :
  exists s1 s2,
    Server.saveEventsToFile (Sample.world "pk.test" []) [Sample.mangled_event]
      (Server.start None) = (None, s1) /\
    Server.loadEventsFromFile s1
    = ((map coerce_event [Sample.mangled_event], None), s2).
Proof.
  destruct (save_then_load_settles (Sample.world "pk.test" []) [Sample.mangled_event]
              (Server.start None) eq_refl eq_refl) as (s1 & s2 & H1 & H2 & _).
  exists s1, s2. split; [exact H1 | exact H2].
Defined.

(** ** The event provider and its file *)

(** X9. A cache file that does not decode (it is not JSON, or is not an
    array of events) never makes [getEvents] fail by itself: the call
    returns what it would return with no file at all, and a successful
    scrape that can be saved replaces the file. *)
Theorem undecodable_file_is_ignored (w : World) (s : Server.State) (data : bytes) :
  Server.eventsCache s = [] ->
  Server.events_json s = Some data ->
  Unmarshal data = None ->
  fst (Server.getEvents w s) = fst (Server.getEvents w (Server.start None)) /\
  (forall evs fresh,
     eval (Server.scrapeEvents w) = (evs, None) ->
     MarshalIndent evs = Some fresh ->
     disk_writable w = true ->
     Server.events_json (snd (Server.getEvents w s)) = Some fresh).
Proof.
  intros C J U.
  assert (on_disk (Server.events_json s) = []) as D
      by (unfold on_disk; rewrite J, U; reflexivity).
  split.
  - rewrite !getEvents_empty_result by (exact C || reflexivity). rewrite D. reflexivity.
  - intros evs fresh Hs Hm Hw. rewrite (getEvents_empty w s C), D.
    set (s0 := Server.mkState _ _ _).
    destruct (scrapeIfEmpty_empty w s0 eq_refl) as (added & _ & E).
    cbn zeta in E. rewrite Hs in E. rewrite E. cbn [snd].
    unfold saved. rewrite Hm, Hw. reflexivity.
Qed.

Lemma undecodable_file_is_ignored_witness :
  fst (Server.getEvents (Sample.world "pk.test" [Sample.jazz; Sample.open_mic])
         (Server.start (Some NotJSON)))
  = fst (Server.getEvents (Sample.world "pk.test" [Sample.jazz; Sample.open_mic])
           (Server.start None)).
Proof.
  exact (proj1 (undecodable_file_is_ignored
                  (Sample.world "pk.test" [Sample.jazz; Sample.open_mic])
                  (Server.start (Some NotJSON)) NotJSON eq_refl eq_refl eq_refl)).
Defined.

Lemma getEvents_adopts_file (w : World) (s : Server.State)
  (data : bytes) (evs : list Event) :
  Server.eventsCache s = [] ->
  Server.events_json s = Some data ->
  Unmarshal data = Some evs ->
  evs <> [] ->
  Server.getEvents w s
  = ((evs, None),
     Server.mkState evs (Some data) (ReadFile :: StatFile :: Server.log s)).
Proof.
  intros C J U Hne. rewrite (getEvents_empty w s C).
  assert (on_disk (Server.events_json s) = evs) as D
      by (unfold on_disk; rewrite J, U; reflexivity).
  rewrite D, J. rewrite scrapeIfEmpty_loaded by exact Hne. reflexivity.
Qed.

(** X10. With nothing in memory and a cache file that decodes to a
    non-empty collection, [getEvents] returns that collection in any world,
    the listing site and the geocoder being up or not: it looks for the
    file and reads it, and does nothing else. *)
Theorem cached_file_is_served_offline (w : World) (s : Server.State)
  (data : bytes) (evs : list Event) :
  Server.eventsCache s = [] ->
  Server.events_json s = Some data ->
  Unmarshal data = Some evs ->
  evs <> [] ->
  Server.getEvents w s
  = ((evs, None),
     Server.mkState evs (Some data) (ReadFile :: StatFile :: Server.log s)).
Proof. exact (getEvents_adopts_file w s data evs). Qed.

Lemma cached_file_is_served_offline_witness :
  exists data,
    MarshalIndent Sample.collection = Some data /\
    Server.getEvents Sample.offline (Server.start (Some data))
    = ((Sample.collection, None),
       Server.mkState Sample.collection (Some data) [ReadFile; StatFile]).
Proof.
  eexists. split; [reflexivity|].
  apply (cached_file_is_served_offline Sample.offline (Server.start (Some _)) _
           Sample.collection eq_refl eq_refl); [reflexivity | discriminate].
Defined.

Lemma getEvents_scrapes_and_holds (w : World) (s : Server.State) (evs : list Event) :
  Server.eventsCache s = [] ->
  (forall data l,
     Server.events_json s = Some data -> Unmarshal data = Some l -> l = []) ->
  eval (Server.scrapeEvents w) = (evs, None) ->
  exists s1,
    Server.getEvents w s = ((evs, None), s1) /\
    Server.eventsCache s1 = evs /\
    (forall data, MarshalIndent evs = Some data ->
       count is_write (Server.log s1) = S (count is_write (Server.log s)) /\
       (disk_writable w = true -> Server.events_json s1 = Some data)) /\
    (MarshalIndent evs = None ->
       count is_write (Server.log s1) = count is_write (Server.log s) /\
       Server.events_json s1 = Server.events_json s).
Proof.
  intros C Hfile Hs. pose proof (on_disk_nil _ Hfile) as D.
  rewrite (getEvents_empty w s C), D.
  set (s0 := Server.mkState _ _ _).
  destruct (scrapeIfEmpty_empty w s0 eq_refl) as (added & F & E).
  cbn zeta in E. rewrite Hs in E. rewrite E.
  eexists. split; [reflexivity|]. rewrite saved_eventsCache. split; [reflexivity|].
  assert (count is_write (added ++ GetListing :: Server.log s0)
          = count is_write (Server.log s)) as W.
  { rewrite (keyed_count is_write _ _ keyed_not_write F), count_cons.
    unfold s0. cbn [Server.log is_write]. rewrite count_load_trace. cbn.
    destruct (Server.events_json s); reflexivity. }
  unfold saved. split.
  - intros data HM. rewrite HM. cbn [Server.log Server.events_json].
    rewrite count_cons, W. split; [reflexivity|]. intros Hw. rewrite Hw. reflexivity.
  - intros HM. rewrite HM. cbn [Server.log Server.events_json].
    split; [exact W | reflexivity].
Qed.

(** X11. Saving is best effort.  When [getEvents] scrapes, the scraped
    collection is returned and held in memory whether or not it could be
    saved.  When the collection can be encoded, one write of the file is
    attempted, and if the file can be written it then holds the whole
    encoding of the collection; when the collection cannot be encoded, no
    write is attempted and the file is as it was. *)
Theorem save_failure_is_not_fatal (w : World) (s : Server.State) (evs : list Event) :
  Server.eventsCache s = [] ->
  (forall data l,
     Server.events_json s = Some data -> Unmarshal data = Some l -> l = []) ->
  eval (Server.scrapeEvents w) = (evs, None) ->
  exists s1,
    Server.getEvents w s = ((evs, None), s1) /\
    Server.eventsCache s1 = evs /\
    (forall data, MarshalIndent evs = Some data ->
       count is_write (Server.log s1) = S (count is_write (Server.log s)) /\
       (disk_writable w = true -> Server.events_json s1 = Some data)) /\
    (MarshalIndent evs = None ->
       count is_write (Server.log s1) = count is_write (Server.log s) /\
       Server.events_json s1 = Server.events_json s).
Proof. exact (getEvents_scrapes_and_holds w s evs). Qed.

Lemma save_failure_is_not_fatal_witness :
  exists s1,
    Server.getEvents
      (mkWorld "pk.test" Sample.day
               (HttpResponse 200 (Some [Sample.jazz; Sample.open_mic]))
               Sample.geocoder false)
      (Server.start None)
    = ((Sample.collection, None), s1) /\
    Server.eventsCache s1 = Sample.collection /\
    count is_write (Server.log s1) = 1.
Proof.
  destruct (save_failure_is_not_fatal
              (mkWorld "pk.test" Sample.day
                       (HttpResponse 200 (Some [Sample.jazz; Sample.open_mic]))
                       Sample.geocoder false)
              (Server.start None) Sample.collection) as (s1 & H1 & H2 & H3 & _).
  - reflexivity.
  - intros data l H. discriminate H.
  - reflexivity.
  - exists s1. split; [exact H1|]. split; [exact H2|].
    exact (proj1 (H3 _ eq_refl)).
Defined.

(** X12. The file carries the collection over a restart.  After a call
    that scraped a non-empty collection with finite coordinates and could
    write the file, a process that starts with that file returns, on its
    first call and in any world, the same events in the same order (their
    strings coerced to valid UTF-8) without fetching the listing. *)
Theorem cache_survives_restart (w w2 : World) (s : Server.State) (evs : list Event) :
  Server.eventsCache s = [] ->
  (forall data l,
     Server.events_json s = Some data -> Unmarshal data = Some l -> l = []) ->
  eval (Server.scrapeEvents w) = (evs, None) ->
  evs <> [] ->
  forallb encodable evs = true ->
  disk_writable w = true ->
  exists s1,
    Server.getEvents w s = ((evs, None), s1) /\
    Server.getEvents w2 (Server.start (Server.events_json s1))
    = ((map coerce_event evs, None),
       Server.mkState (map coerce_event evs) (Server.events_json s1)
         [ReadFile; StatFile]).
Proof.
  intros C Hfile Hs Hne He Hw.
  destruct (getEvents_scrapes_and_holds w s evs C Hfile Hs) as (s1 & H1 & _ & H3 & _).
  exists s1. split; [exact H1|].
  destruct (Unmarshal_MarshalIndent_coerce evs He) as (data & HM & HU).
  rewrite (proj2 (H3 data HM) Hw).
  apply (getEvents_adopts_file w2 (Server.start (Some data)) data
           (map coerce_event evs) eq_refl eq_refl HU).
  destruct evs; [contradiction | discriminate].
Qed.

Lemma cache_survives_restart_witness :
  exists s1,
    Server.getEvents (Sample.world "pk.test" [Sample.mangled]) (Server.start None)
    = (([Sample.mangled_event], None), s1) /\
    fst (Server.getEvents Sample.offline (Server.start (Server.events_json s1)))
    = ([coerce_event Sample.mangled_event], None).
Proof.
  destruct (cache_survives_restart (Sample.world "pk.test" [Sample.mangled])
              Sample.offline (Server.start None) [Sample.mangled_event])
    as (s1 & H1 & H2).
  - reflexivity.
  - intros data l H. discriminate H.
  - reflexivity.
  - discriminate.
  - reflexivity.
  - reflexivity.
  - exists s1. split; [exact H1|]. rewrite H2. reflexivity.
Defined.

Lemma getEvents_holds_result (w : World) (s : Server.State) :
  match Server.getEvents w s with
  | ((evs, None), s1) => Server.eventsCache s1 = evs
  | ((evs, Some _), s1) => evs = [] /\ Server.eventsCache s1 = []
  end.
Proof.
  destruct (Server.eventsCache s) as [|e0 l0] eqn:C.
  - rewrite (getEvents_empty w s C).
    destruct (on_disk (Server.events_json s)) as [|e1 l1] eqn:D.
    + set (s0 := Server.mkState _ _ _).
      destruct (scrapeIfEmpty_empty w s0 eq_refl) as (added & _ & E).
      cbn zeta in E. rewrite E.
      destruct (eval (Server.scrapeEvents w)) as [events [err|]].
      * split; reflexivity.
      * apply saved_eventsCache.
    + rewrite scrapeIfEmpty_loaded by discriminate. reflexivity.
  - rewrite getEvents_loaded by (rewrite C; discriminate). reflexivity.
Qed.

(** X13. What a call of [getEvents] returns is what the process holds
    afterwards: on success the in-memory collection is the returned one;
    on failure nothing is returned and nothing is held. *)
Theorem returned_is_held (w : World) (s : Server.State) :
  match Server.getEvents w s with
  | ((evs, None), s1) => Server.eventsCache s1 = evs
  | ((evs, Some _), s1) => evs = [] /\ Server.eventsCache s1 = []
  end.
Proof. exact (getEvents_holds_result w s). Qed.

(** X14. In one call [getEvents] only adds to what the process has done,
    and adds little: it fetches the listing at most once, reads the file at
    most once and only after having found it, and writes the file at most
    once and only after having fetched the listing in this same call.  In
    the order of time, what one call adds is: nothing, or the stat of the
    file, followed by the read of the file if the file was found; then
    nothing more, or the fetch of the listing, the geocoding requests and
    the pauses between them, and last the write of the file, if any. *)
Theorem one_call_does_little (w : World) (s : Server.State) :
  exists added,
    Server.log (snd (Server.getEvents w s)) = added ++ Server.log s /\
    count is_scrape added <= 1 /\
    count is_load added <= count is_stat added /\
    count is_stat added <= 1 /\
    count is_write added <= count is_scrape added /\
    exists stat fetch geo write,
      chronicle added = stat ++ fetch ++ geo ++ write /\
      (stat = [] \/ stat = [StatFile] \/ stat = [StatFile; ReadFile]) /\
      (fetch = [] \/ fetch = [GetListing]) /\
      Forall keyed geo /\
      (write = [] \/ write = [WriteFile]) /\
      (stat = [] -> fetch = []) /\
      (fetch = [] -> geo = [] /\ write = []).
Proof.
  destruct (Server.eventsCache s) as [|e0 l0] eqn:C.
  - rewrite (getEvents_empty w s C).
    destruct (on_disk (Server.events_json s)) as [|e1 l1] eqn:D.
    + set (s0 := Server.mkState _ _ _).
      destruct (scrapeIfEmpty_empty w s0 eq_refl) as (added & F & E).
      cbn zeta in E. rewrite E.
      assert (forall p, (forall e, keyed e -> p e = false) ->
                        count p (added ++ GetListing :: load_trace (Server.events_json s))
                        = (if p GetListing then 1 else 0)
                          + count p (load_trace (Server.events_json s))) as K.
      { intros p Hp. rewrite (keyed_count p _ _ Hp F), count_cons. reflexivity. }
      assert (forall p, count p (load_trace (Server.events_json s))
                        = (match Server.events_json s with
                           | Some _ => if p ReadFile then 1 else 0
                           | None => 0
                           end) + (if p StatFile then 1 else 0)) as L.
      { intros p. pose proof (count_load_trace p (Server.events_json s) []) as Q.
        rewrite app_nil_r in Q. cbn in Q. lia. }
      assert (forall write, write = [] \/ write = [WriteFile] ->
                exists stat fetch geo write',
                  chronicle (write ++ added
                             ++ GetListing :: load_trace (Server.events_json s))
                  = stat ++ fetch ++ geo ++ write' /\
                  (stat = [] \/ stat = [StatFile] \/ stat = [StatFile; ReadFile]) /\
                  (fetch = [] \/ fetch = [GetListing]) /\
                  Forall keyed geo /\
                  (write' = [] \/ write' = [WriteFile]) /\
                  (stat = [] -> fetch = []) /\
                  (fetch = [] -> geo = [] /\ write' = [])) as O.
      { intros write Hw.
        exists (rev (load_trace (Server.events_json s))), [GetListing], (rev added), write.
        split.
        { unfold chronicle. rewrite !rev_app_distr. cbn [rev app].
          rewrite <- !app_assoc. cbn [app].
          destruct Hw as [-> | ->]; reflexivity. }
        split; [destruct (Server.events_json s); cbn; auto|].
        split; [auto|]. split; [apply Forall_rev, F|]. split; [exact Hw|].
        split; [|intros X; discriminate X].
        destruct (Server.events_json s); cbn; intros X; discriminate X. }
      destruct (eval (Server.scrapeEvents w)) as [events [err|]]; cbn [snd].
      * exists (added ++ GetListing :: load_trace (Server.events_json s)).
        cbn [Server.log s0]. split; [now rewrite <- app_assoc|].
        rewrite (K is_scrape keyed_not_scrape), (K is_load keyed_not_load),
          (K is_stat keyed_not_stat), (K is_write keyed_not_write), !L.
        repeat (split; [cbn; destruct (Server.events_json s); cbn; lia|]).
        exact (O [] (or_introl eq_refl)).
      * unfold saved. destruct (MarshalIndent events).
        -- exists (WriteFile :: added ++ GetListing :: load_trace (Server.events_json s)).
           cbn [Server.log s0]. split; [cbn; now rewrite <- app_assoc|].
           rewrite !count_cons.
           rewrite (K is_scrape keyed_not_scrape), (K is_load keyed_not_load),
             (K is_stat keyed_not_stat), (K is_write keyed_not_write), !L.
           repeat (split; [cbn; destruct (Server.events_json s); cbn; lia|]).
           exact (O [WriteFile] (or_intror eq_refl)).
        -- exists (added ++ GetListing :: load_trace (Server.events_json s)).
           cbn [Server.log s0]. split; [now rewrite <- app_assoc|].
           rewrite (K is_scrape keyed_not_scrape), (K is_load keyed_not_load),
             (K is_stat keyed_not_stat), (K is_write keyed_not_write), !L.
           repeat (split; [cbn; destruct (Server.events_json s); cbn; lia|]).
           exact (O [] (or_introl eq_refl)).
    + rewrite scrapeIfEmpty_loaded by discriminate. cbn [snd Server.log].
      exists (load_trace (Server.events_json s)). split; [reflexivity|].
      pose proof (fun p => count_load_trace p (Server.events_json s) []) as Q.
      rewrite app_nil_r in Q. rewrite !Q.
      repeat (split; [cbn; destruct (Server.events_json s); cbn; lia|]).
      exists (chronicle (load_trace (Server.events_json s))), [], [], [].
      rewrite !app_nil_r.
      split; [reflexivity|].
      split; [destruct (Server.events_json s); cbn; auto|].
      repeat split; auto.
  - rewrite getEvents_loaded by (rewrite C; discriminate).
    exists []. cbn [snd app]. split; [reflexivity|].
    repeat (split; [cbn; lia|]).
    exists [], [], [], []. repeat split; auto.
Qed.

(** The order of the effects of a first call that scrapes two events, the
    second of which has no address and is not found by the geocoder, and
    of a first call that adopts the file. *)
Example first_call_in_order :
  chronicle (Server.log (snd (Server.getEvents
                                (Sample.world "pk.test" [Sample.jazz; Sample.open_mic])
                                (Server.start None))))
  = [StatFile; GetListing;
     GetGeocode "123 Main St" "pk.test"; Sleep100ms;
     GetGeocode "" "pk.test";
     WriteFile]
  /\ chronicle (Server.log (snd (Server.getEvents Sample.offline
                                   (Server.start (MarshalIndent Sample.collection)))))
     = [StatFile; ReadFile].
Proof. split; vm_compute; reflexivity. Qed.

(** ** The HTTP endpoint *)

Lemma apiHandler_other_method (w : World) (r : Api.Request) (s : Server.State) :
  (Api.Method r =? "GET")%string = false ->
  Api.apiHandler w r s
  = (Api.http_Error (Api.Line "Method not allowed") Api.StatusMethodNotAllowed, s).
Proof. intros H. unfold Api.apiHandler. rewrite H. reflexivity. Qed.

Lemma apiHandler_get (w : World) (r : Api.Request) (s : Server.State) :
  (Api.Method r =? "GET")%string = true ->
  snd (Api.apiHandler w r s) = snd (Server.getEvents w s) /\
  not_405 (fst (Api.apiHandler w r s)) = true.
Proof.
  intros H. unfold Api.apiHandler, bind. rewrite H. cbn [negb].
  destruct (Server.getEvents w s) as [[events [err|]] s1]; split; reflexivity.
Qed.

(** X15. Requests whose method is not GET are answered 405 and change
    nothing: in any sequence of requests handled one after the other, the
    answers to the GET requests and the state of the process at the end are
    what they would be had the other requests never been made. *)
Theorem other_methods_are_inert (requests : list (World * Api.Request))
  (s : Server.State) :
  filter not_405 (fst (serve requests s)) = fst (serve (filter is_get requests) s) /\
  snd (serve requests s) = snd (serve (filter is_get requests) s).
Proof.
  revert s. induction requests as [|[w r] rest IH]; intros s; [split; reflexivity|].
  cbn [serve filter].
  assert (is_get (w, r) = (Api.Method r =? "GET")%string) as -> by reflexivity.
  destruct (Api.Method r =? "GET")%string eqn:G.
  - cbn [serve]. unfold bind.
    destruct (apiHandler_get w r s G) as [_ H405].
    destruct (Api.apiHandler w r s) as [response s1]. cbn [fst] in H405.
    destruct (IH s1) as [IH1 IH2].
    destruct (serve rest s1) as [responses s2].
    destruct (serve (filter is_get rest) s1) as [responses' s2'].
    cbn in *. rewrite H405. subst. split; reflexivity.
  - unfold bind. rewrite (apiHandler_other_method w r s G).
    destruct (IH s) as [IH1 IH2].
    destruct (serve rest s) as [responses s2]. cbn in *.
    split; assumption.
Qed.

(** X16. Once a GET request has been answered 200 from a non-empty
    in-memory collection, every later GET request gets the identical
    response (status, headers and payload) as long as the credential in
    the environment is the same, and the state of the process does not
    change: no scrape, no file access. *)
Theorem get_is_repeatable (w1 w2 : World) (r1 r2 : Api.Request)
  (s s1 : Server.State) (response : Api.Response) :
  Api.Method r1 = "GET" ->
  Api.Method r2 = "GET" ->
  Api.apiHandler w1 r1 s = (response, s1) ->
  Api.StatusCode response = StatusOK ->
  Server.eventsCache s1 <> [] ->
  MAPBOX_ACCESS_TOKEN w2 = MAPBOX_ACCESS_TOKEN w1 ->
  Api.apiHandler w2 r2 s1 = (response, s1).
Proof.
  intros G1 G2 H1 Hok Hne Htok.
  unfold Api.apiHandler, bind in *. rewrite G1 in H1. rewrite G2.
  cbn in H1 |- *.
  pose proof (getEvents_holds_result w1 s) as Held.
  destruct (Server.getEvents w1 s) as [[events [err|]] s1'].
  - injection H1 as <- <-. discriminate Hok.
  - injection H1 as <- <-. rewrite (getEvents_loaded w2 s1' Hne), Held, Htok.
    reflexivity.
Qed.

Lemma get_is_repeatable_witness :
  Api.apiHandler Sample.offline (Api.mkRequest "GET")
    (snd (Api.apiHandler (Sample.world "pk.test" [Sample.jazz; Sample.open_mic])
            (Api.mkRequest "GET") (Server.start None)))
  = Api.apiHandler (Sample.world "pk.test" [Sample.jazz; Sample.open_mic])
      (Api.mkRequest "GET") (Server.start None).
Proof.
  rewrite (surjective_pairing
             (Api.apiHandler (Sample.world "pk.test" [Sample.jazz; Sample.open_mic])
                (Api.mkRequest "GET") (Server.start None))) at 2.
  apply (get_is_repeatable (Sample.world "pk.test" [Sample.jazz; Sample.open_mic])
           Sample.offline (Api.mkRequest "GET") (Api.mkRequest "GET")
           (Server.start None)).
  - reflexivity.
  - reflexivity.
  - apply surjective_pairing.
  - reflexivity.
  - vm_compute. discriminate.
  - reflexivity.
Defined.

(** ** The batch pipeline: scrape, upload, serve *)

Lemma scraper_geocodeAddress_adds (w : World) (address : string) :
  adds (fun _ => True) (Scraper.geocodeAddress w address).
Proof.
  unfold Scraper.geocodeAddress.
  apply adds_bind; [apply adds_emit; exact I|]. intros _.
  destruct (mapbox w address (MAPBOX_ACCESS_TOKEN w)) as [|status [result|]];
    [apply adds_ret| |].
  - destruct (negb (status =? StatusOK)%Z); [apply adds_ret|].
    destruct (Features result); apply adds_ret.
  - destruct (negb (status =? StatusOK)%Z); apply adds_ret.
Qed.

Lemma scraper_scrapeRow_adds (w : World) (today : string) acc row :
  adds (fun _ => True) (Scraper.scrapeRow w today acc row).
Proof.
  unfold Scraper.scrapeRow.
  destruct (time_datetime_attr row) as [d|]; [|apply adds_ret].
  destruct (negb (HasPrefix d today)); [apply adds_ret|].
  apply adds_bind; [apply scraper_geocodeAddress_adds|].
  intros [[lon lat] [err|]]; apply adds_ret.
Qed.

Lemma scraper_scrapeEvents_eval (w : World) (t : trace) :
  fst (Scraper.scrapeEvents w t) = eval (Scraper.scrapeEvents w).
Proof.
  assert (adds (fun _ => True) (Scraper.scrapeEvents w)) as H.
  { unfold Scraper.scrapeEvents.
    apply adds_bind; [apply adds_emit; exact I|]. intros _.
    destruct (flagpole w) as [|status [doc|]]; [apply adds_ret| |].
    - destruct (negb (status =? StatusOK)%Z); [apply adds_ret|].
      apply adds_bind; [|intros; apply adds_ret].
      apply adds_Each. intros acc row. apply scraper_scrapeRow_adds.
    - destruct (negb (status =? StatusOK)%Z); apply adds_ret. }
  destruct (H t) as (added & E & _). rewrite E. reflexivity.
Qed.

Lemma upload_key_not_empty (c : Lambda.Cloud) : (upload_key c =? "")%string = false.
Proof. unfold upload_key. destruct (Lambda.upload_day c); reflexivity. Qed.

Lemma put_same (bucket key : string) (data : bytes) (o : Lambda.objects) :
  Lambda.put bucket key data o bucket key = Some data.
Proof. unfold Lambda.put. rewrite !String.eqb_refl. reflexivity. Qed.

Lemma uploadToS3_cases (c : Lambda.Cloud) (data : bytes) (s : Lambda.State) :
  Lambda.uploadToS3 c data s
  = if (Lambda.S3_BUCKET c =? "")%string then (Some Lambda.MissingVariables, s)
    else if negb (Lambda.aws_config c) then (Some Lambda.ConfigFailed, s)
    else if Lambda.put_object c (Lambda.S3_BUCKET c) (upload_key c)
    then (None,
          Lambda.mkState
            (Lambda.put (Lambda.S3_BUCKET c) (upload_key c) data (Lambda.s3 s))
            (Lambda.PutObject (Lambda.S3_BUCKET c) (upload_key c) :: Lambda.calls s)
            (Lambda.net s))
    else (Some Lambda.UploadFailed,
          Lambda.mkState (Lambda.s3 s)
            (Lambda.PutObject (Lambda.S3_BUCKET c) (upload_key c) :: Lambda.calls s)
            (Lambda.net s)).
Proof.
  unfold Lambda.uploadToS3. fold (upload_key c). rewrite upload_key_not_empty.
  rewrite orb_false_r.
  destruct (Lambda.S3_BUCKET c =? "")%string; [reflexivity|].
  destruct (negb (Lambda.aws_config c)); reflexivity.
Qed.

(** X17. [uploadToS3] reports missing variables exactly when [S3_BUCKET]
    is empty, and then calls nothing.  An empty [S3_OBJECT_KEY] is never
    reported: the key is the day, an underscore and that variable, and is
    not empty, so that with a bucket, a configuration and a willing S3 the
    object is stored under the key that ends with the underscore. *)
Theorem uploadToS3_checks_the_bucket_only (c : Lambda.Cloud) (data : bytes)
  (s : Lambda.State) :
  (fst (Lambda.uploadToS3 c data s) = Some Lambda.MissingVariables
   <-> Lambda.S3_BUCKET c = "") /\
  (Lambda.S3_BUCKET c = "" -> snd (Lambda.uploadToS3 c data s) = s) /\
  (Lambda.S3_BUCKET c <> "" ->
   Lambda.S3_OBJECT_KEY c = "" ->
   Lambda.aws_config c = true ->
   Lambda.put_object c (Lambda.S3_BUCKET c) (Lambda.upload_day c ++ "_")%string = true ->
   fst (Lambda.uploadToS3 c data s) = None /\
   Lambda.s3 (snd (Lambda.uploadToS3 c data s)) (Lambda.S3_BUCKET c)
     (Lambda.upload_day c ++ "_")%string = Some data).
Proof.
  rewrite uploadToS3_cases. split; [|split].
  - destruct (Lambda.S3_BUCKET c =? "")%string eqn:B.
    + apply String.eqb_eq in B. split; [intros _; exact B | reflexivity].
    + apply String.eqb_neq in B. split; [|intros H; contradiction].
      destruct (negb (Lambda.aws_config c)); [discriminate|].
      destruct (Lambda.put_object c _ _); discriminate.
  - intros B. rewrite B. reflexivity.
  - intros B K A P. apply String.eqb_neq in B. rewrite B, A. cbn [negb].
    assert (upload_key c = (Lambda.upload_day c ++ "_")%string) as Hk.
    { unfold upload_key. rewrite K. reflexivity. }
    rewrite Hk, P. cbn. split; [reflexivity | apply put_same].
Qed.

Lemma uploadToS3_checks_the_bucket_only_witness :
  fst (Lambda.uploadToS3
         (Lambda.mkCloud "mapthens-events" "" "2024-05-01" true (fun _ _ => true))
         (Text JNull) Lambda.start) = None /\
  Lambda.s3 (snd (Lambda.uploadToS3
                    (Lambda.mkCloud "mapthens-events" "" "2024-05-01" true
                                    (fun _ _ => true))
                    (Text JNull) Lambda.start))
    "mapthens-events" "2024-05-01_" = Some (Text JNull).
Proof.
  apply (proj2 (proj2 (uploadToS3_checks_the_bucket_only
                         (Lambda.mkCloud "mapthens-events" "" "2024-05-01" true
                                         (fun _ _ => true))
                         (Text JNull) Lambda.start))).
  - discriminate.
  - reflexivity.
  - reflexivity.
  - reflexivity.
Defined.

Lemma scraper_handler_cases (w : World) (c : Lambda.Cloud) (s : Lambda.State) :
  exists t,
    Lambda.scraper_handler w c s
    = match eval (Scraper.scrapeEvents w) with
      | (_, Some err) =>
          (Some (Lambda.ScrapeFailed err),
           Lambda.mkState (Lambda.s3 s) (Lambda.calls s) t)
      | (events, None) =>
          match MarshalIndent events with
          | None => (Some Lambda.MarshalFailed,
                     Lambda.mkState (Lambda.s3 s) (Lambda.calls s) t)
          | Some data =>
              Lambda.uploadToS3 c data
                (Lambda.mkState (Lambda.s3 s) (Lambda.calls s) t)
          end
      end.
Proof.
  unfold Lambda.scraper_handler, bind, Lambda.liftIO.
  pose proof (scraper_scrapeEvents_eval w (Lambda.net s)) as E.
  destruct (Scraper.scrapeEvents w (Lambda.net s)) as [r t]. cbn [fst] in E.
  subst r. exists t.
  destruct (eval (Scraper.scrapeEvents w)) as [events [err|]]; [reflexivity|].
  destruct (MarshalIndent events) as [data|]; [|reflexivity].
  destruct (Lambda.uploadToS3 c data _) as [[e|] s']; reflexivity.
Qed.


Lemma endpoint_handler_cases (e : Lambda.Env) (s : Lambda.State) :
  Lambda.endpoint_handler e s
  = if (Lambda.TOKEN e =? "")%string then ((None, Some Lambda.TokenNotFound), s)
    else match Lambda.new_york_day e with
         | None => ((None, Some Lambda.TimeZoneFailed), s)
         | Some day =>
             if negb (Lambda.session e) then ((None, Some Lambda.SessionFailed), s)
             else
               let s' := Lambda.mkState (Lambda.s3 s)
                           (Lambda.GetObject (Lambda.BUCKET_NAME e) (endpoint_key day e)
                            :: Lambda.calls s) (Lambda.net s) in
               match (if Lambda.reachable e
                      then Lambda.s3 s (Lambda.BUCKET_NAME e) (endpoint_key day e)
                      else None) with
               | None => ((None, Some Lambda.GetObjectFailed), s')
               | Some data =>
                   match Decode data with
                   | None => ((None, Some Lambda.DecodeFailed), s')
                   | Some events =>
                       ((Some (Lambda.mkResponse events (Lambda.TOKEN e)), None), s')
                   end
               end
         end.
Proof.
  unfold Lambda.endpoint_handler, endpoint_key, ret.
  destruct (Lambda.TOKEN e =? "")%string; [reflexivity|].
  destruct (Lambda.new_york_day e); [|reflexivity].
  destruct (negb (Lambda.session e)); reflexivity.
Qed.

(** X19. The endpoint function answers with events exactly when the
    credential is set, the time zone and the session are there, S3 answers
    and holds, in the named bucket under the key of the New York day, an
    object whose first JSON value decodes to those events, whatever follows
    that value; the answer carries the credential as the environment has
    it.  Without the credential it returns its
    error before calling S3; and it never changes an object. *)
Theorem endpoint_serves_the_object_of_the_day (e : Lambda.Env) (s : Lambda.State) :
  (forall events,
     fst (Lambda.endpoint_handler e s)
     = (Some (Lambda.mkResponse events (Lambda.TOKEN e)), None) <->
     Lambda.TOKEN e <> "" /\ Lambda.session e = true /\ Lambda.reachable e = true /\
     exists day data,
       Lambda.new_york_day e = Some day /\
       Lambda.s3 s (Lambda.BUCKET_NAME e) (endpoint_key day e) = Some data /\
       Decode data = Some events) /\
  (Lambda.TOKEN e = "" ->
   Lambda.endpoint_handler e s = ((None, Some Lambda.TokenNotFound), s)) /\
  Lambda.s3 (snd (Lambda.endpoint_handler e s)) = Lambda.s3 s.
Proof.
  rewrite endpoint_handler_cases. split; [|split].
  - intros events.
    destruct (Lambda.TOKEN e =? "")%string eqn:K.
    { apply String.eqb_eq in K. split; [discriminate | intros (H & _); contradiction]. }
    apply String.eqb_neq in K.
    destruct (Lambda.new_york_day e) as [day|].
    2:{ split; [discriminate | intros (_ & _ & _ & d & x & H & _); discriminate H]. }
    destruct (Lambda.session e); cbn [negb].
    2:{ split; [discriminate | intros (_ & H & _); discriminate H]. }
    cbn zeta. destruct (Lambda.reachable e).
    2:{ split; [discriminate | intros (_ & _ & H & _); discriminate H]. }
    destruct (Lambda.s3 s (Lambda.BUCKET_NAME e) (endpoint_key day e)) as [data|] eqn:O.
    2:{ split; [discriminate | intros (_ & _ & _ & d & x & H & H' & _)].
        injection H as <-. rewrite O in H'. discriminate H'. }
    destruct (Decode data) as [evs|] eqn:U.
    + split.
      * intros H. injection H as ->. repeat split; try assumption.
        exists day, data. repeat split; assumption.
      * intros (_ & _ & _ & d & x & H & H' & H'').
        injection H as <-. rewrite O in H'. injection H' as <-.
        rewrite U in H''. injection H'' as ->. reflexivity.
    + split; [discriminate | intros (_ & _ & _ & d & x & H & H' & H'')].
      injection H as <-. rewrite O in H'. injection H' as <-.
      rewrite U in H''. discriminate H''.
  - intros K. rewrite K. reflexivity.
  - destruct (Lambda.TOKEN e =? "")%string; [reflexivity|].
    destruct (Lambda.new_york_day e) as [day|]; [|reflexivity].
    destruct (negb (Lambda.session e)); [reflexivity|]. cbn zeta.
    destruct (if Lambda.reachable e then _ else None) as [data|]; [|reflexivity].
    destruct (Decode data); reflexivity.
Qed.

(** An object that holds an array of events followed by other bytes is
    served: the decoder stops after the array, where [json.Unmarshal]
    would fail. *)
Example object_with_trailing_bytes_is_served :
  fst (Lambda.endpoint_handler SampleCloud.env
         (Lambda.mkState
            (Lambda.put "mapthens-events" "2024-05-01_events.json"
               (TextThenMore (JArray (map MarshalEvent Sample.collection)))
               Lambda.no_objects)
            [] []))
  = (Some (Lambda.mkResponse Sample.collection "pk.test"), None)
  /\ Unmarshal (TextThenMore (JArray (map MarshalEvent Sample.collection))) = None.
Proof. split; reflexivity. Qed.

Lemma Decode_Unmarshal (data : bytes) (events : list Event) :
  Unmarshal data = Some events -> Decode data = Some events.
Proof. destruct data; cbn; intros H; [discriminate H | exact H | discriminate H]. Qed.

Lemma scraper_handler_uploads (w : World) (c : Lambda.Cloud) (s : Lambda.State)
  (events : list Event) (data : bytes) :
  eval (Scraper.scrapeEvents w) = (events, None) ->
  MarshalIndent events = Some data ->
  Lambda.S3_BUCKET c <> "" ->
  Lambda.aws_config c = true ->
  Lambda.put_object c (Lambda.S3_BUCKET c) (upload_key c) = true ->
  exists s1,
    Lambda.scraper_handler w c s = (None, s1) /\
    Lambda.s3 s1 = Lambda.put (Lambda.S3_BUCKET c) (upload_key c) data (Lambda.s3 s).
Proof.
  intros Hs Hm B A P. apply String.eqb_neq in B.
  destruct (scraper_handler_cases w c s) as (t & E). rewrite E, Hs, Hm.
  rewrite uploadToS3_cases, B, A, P. cbn [negb]. eexists. split; reflexivity.
Qed.

Lemma scraper_handler_stored (w : World) (c : Lambda.Cloud) (s : Lambda.State) :
  fst (Lambda.scraper_handler w c s) = None ->
  exists data,
    Lambda.s3 (snd (Lambda.scraper_handler w c s))
    = Lambda.put (Lambda.S3_BUCKET c) (upload_key c) data (Lambda.s3 s).
Proof.
  destruct (scraper_handler_cases w c s) as (t & E). rewrite E. clear E.
  destruct (eval (Scraper.scrapeEvents w)) as [events [err|]]; [discriminate|].
  destruct (MarshalIndent events) as [data|]; [|discriminate].
  rewrite uploadToS3_cases.
  destruct (Lambda.S3_BUCKET c =? "")%string; [discriminate|].
  destruct (negb (Lambda.aws_config c)); [discriminate|].
  destruct (Lambda.put_object c _ _); [|discriminate].
  intros _. now exists data.
Qed.

(** X20. From the listing to the visitor, through the bucket.  When the
    batch scraper has scraped events with finite coordinates and uploaded
    them, the endpoint function, run on the same day (its New York day is
    the day of the upload) with the same bucket and the same object key in
    its own variables, returns those events in the same order, their
    strings coerced to valid UTF-8, with its credential. *)
Theorem uploaded_events_are_served (w : World) (c : Lambda.Cloud) (e : Lambda.Env)
  (s : Lambda.State) (events : list Event) :
  eval (Scraper.scrapeEvents w) = (events, None) ->
  forallb encodable events = true ->
  Lambda.S3_BUCKET c <> "" ->
  Lambda.aws_config c = true ->
  Lambda.put_object c (Lambda.S3_BUCKET c) (upload_key c) = true ->
  Lambda.TOKEN e <> "" ->
  Lambda.new_york_day e = Some (Lambda.upload_day c) ->
  Lambda.OBJECT_KEY e = Lambda.S3_OBJECT_KEY c ->
  Lambda.BUCKET_NAME e = Lambda.S3_BUCKET c ->
  Lambda.session e = true ->
  Lambda.reachable e = true ->
  exists s1,
    Lambda.scraper_handler w c s = (None, s1) /\
    fst (Lambda.endpoint_handler e s1)
    = (Some (Lambda.mkResponse (map coerce_event events) (Lambda.TOKEN e)), None).
Proof.
  intros Hs He B A P K D O N S R.
  destruct (Unmarshal_MarshalIndent_coerce events He) as (data & Hm & Hu).
  destruct (scraper_handler_uploads w c s events data Hs Hm B A P) as (s1 & H1 & H2).
  exists s1. split; [exact H1|].
  apply String.eqb_neq in K.
  rewrite endpoint_handler_cases, K, D, S, R. cbn [negb]. cbn zeta.
  assert (endpoint_key (Lambda.upload_day c) e = upload_key c) as ->
      by (unfold endpoint_key, upload_key; rewrite O; reflexivity).
  rewrite N, H2, put_same, (Decode_Unmarshal _ _ Hu). reflexivity.
Qed.

Lemma uploaded_events_are_served_witness :
  exists s1,
    Lambda.scraper_handler (Sample.world "pk.test" [Sample.jazz; Sample.mangled])
      SampleCloud.cloud Lambda.start = (None, s1) /\
    fst (Lambda.endpoint_handler SampleCloud.env s1)
    = (Some (Lambda.mkResponse
               (map coerce_event
                  [ mkEvent "2024-05-01" "May 1 @ 8:00 pm" "Music" "Jazz Night"
                            "https://flagpole.com/events/jazz-night/" "The Foundry"
                            "123 Main St" "Live jazz." 33.75%float (-83.375)%float;
                    Sample.mangled_event ])
               "pk.test"), None).
Proof.
  apply (uploaded_events_are_served
           (Sample.world "pk.test" [Sample.jazz; Sample.mangled])
           SampleCloud.cloud SampleCloud.env Lambda.start);
    try reflexivity; discriminate.
Defined.

Lemma append_cancel_r (a b s : string) : (a ++ s = b ++ s)%string -> a = b.
Proof.
  intros H. apply (f_equal list_ascii_of_string) in H.
  rewrite !list_ascii_of_string_app in H. apply app_inv_tail in H.
  apply (f_equal string_of_list_ascii) in H.
  rewrite !string_of_list_ascii_of_string in H. exact H.
Qed.

(** X21. The two functions take the day from different clocks: the batch
    scraper from the local time of its process, the endpoint from New
    York.  When the two days differ, what the scraper has just uploaded
    into an empty bucket is not served: the endpoint function looks under
    the key of its own day and fails on [GetObject]. *)
Theorem upload_of_another_day_is_not_served (w : World) (c : Lambda.Cloud)
  (e : Lambda.Env) (s1 : Lambda.State) (day : string) :
  Lambda.scraper_handler w c Lambda.start = (None, s1) ->
  Lambda.new_york_day e = Some day ->
  day <> Lambda.upload_day c ->
  Lambda.OBJECT_KEY e = Lambda.S3_OBJECT_KEY c ->
  Lambda.TOKEN e <> "" ->
  Lambda.session e = true ->
  fst (Lambda.endpoint_handler e s1) = (None, Some Lambda.GetObjectFailed).
Proof.
  intros H D Hd O K S.
  destruct (scraper_handler_stored w c Lambda.start) as (data & Hst);
    [rewrite H; reflexivity|].
  rewrite H in Hst. cbn [snd] in Hst.
  apply String.eqb_neq in K.
  rewrite endpoint_handler_cases, K, D, S. cbn [negb]. cbn zeta.
  assert (Lambda.s3 s1 (Lambda.BUCKET_NAME e) (endpoint_key day e) = None) as ->.
  { rewrite Hst. unfold Lambda.put.
    assert ((endpoint_key day e =? upload_key c)%string = false) as ->.
    { apply String.eqb_neq. unfold endpoint_key, upload_key. rewrite O. intros E.
      apply append_cancel_r in E. contradiction. }
    rewrite andb_false_r. reflexivity. }
  destruct (Lambda.reachable e); reflexivity.
Qed.

Lemma upload_of_another_day_is_not_served_witness :
  fst (Lambda.endpoint_handler
         (Lambda.mkEnv "pk.test" "events.json" "mapthens-events"
                       (Some "2024-04-30") true true)
         (snd (Lambda.scraper_handler (Sample.world "pk.test" [Sample.jazz])
                 SampleCloud.cloud Lambda.start)))
  = (None, Some Lambda.GetObjectFailed).
Proof.
  apply (upload_of_another_day_is_not_served (Sample.world "pk.test" [Sample.jazz])
           SampleCloud.cloud _ _ "2024-04-30").
  - vm_compute. reflexivity.
  - reflexivity.
  - discriminate.
  - reflexivity.
  - discriminate.
  - reflexivity.
Defined.

(** ** Concurrent callers, in general *)

Lemma update_length {A} (x : A) :
  forall (l : list A) (i : nat), List.length (Callers.update i x l) = List.length l.
Proof. induction l as [|y l IH]; intros [|i]; cbn; auto. Qed.

Lemma sequential_snoc (w : World) :
  forall k s,
    sequential w (S k) s
    = let (rs, sk) := sequential w k s in
      let (r, s') := Server.getEvents w sk in
      (rs ++ [r], s').
Proof.
  induction k as [|k IH]; intros s.
  - cbn. unfold bind, ret. destruct (Server.getEvents w s). reflexivity.
  - change (sequential w (S (S k)) s)
      with (bind (Server.getEvents w)
              (fun r => bind (sequential w (S k)) (fun rs => ret (r :: rs))) s).
    unfold bind at 1 2. destruct (Server.getEvents w s) as [r0 s1] eqn:G.
    rewrite IH. cbn [sequential]. unfold bind at 1 2. rewrite G.
    destruct (sequential w k s1) as [rs sk]. unfold ret. cbv beta iota.
    destruct (Server.getEvents w sk) as [r s']. reflexivity.
Qed.

Lemma getEvents_in_two_steps (w : World) (s : Server.State) :
  Server.getEvents w s = Server.scrapeIfEmpty w (snd (Server.tryLoad s)).
Proof.
  unfold Server.getEvents, bind. destruct (Server.tryLoad s). reflexivity.
Qed.

Lemma results_update_returned (r : list Event * option error) :
  forall (l : list Callers.pc) (i : nat) (p : Callers.pc),
    nth_error l i = Some p -> Callers.returned p = false ->
    Permutation (r :: results l) (results (Callers.update i (Callers.Returned r) l)).
Proof.
  induction l as [|y l IH]; intros [|i] p H Hp; cbn in H; try discriminate.
  - injection H as ->. destruct p; try discriminate Hp; apply Permutation_refl.
  - specialize (IH i p H Hp).
    destruct y; cbn; try exact IH.
    eapply perm_trans; [apply perm_swap | apply perm_skip, IH].
Qed.

Lemma results_update_other (q : Callers.pc) :
  Callers.returned q = false ->
  forall (l : list Callers.pc) (i : nat) (p : Callers.pc),
    nth_error l i = Some p -> Callers.returned p = false ->
    results (Callers.update i q l) = results l.
Proof.
  intros Hq. induction l as [|y l IH]; intros [|i] p H Hp; cbn in H; try discriminate.
  - injection H as ->. destruct p, q; try discriminate; reflexivity.
  - specialize (IH i p H Hp). destruct y; cbn; rewrite IH; reflexivity.
Qed.

Lemma serial_inv_init (w : World) (file : option bytes) (n : nat) :
  serial_inv w file n (Callers.init n file).
Proof.
  unfold serial_inv, Callers.init. cbn [Callers.callers Callers.locked Callers.shared].
  assert (forall f, f Callers.AtLock = false ->
                    filter f (repeat Callers.AtLock n) = []) as F.
  { intros f Hf. induction n as [|n IH]; [reflexivity|]. cbn. now rewrite Hf. }
  rewrite !F by reflexivity. split; [apply repeat_length|]. split; [reflexivity|].
  exists [], (Server.start file). split; [reflexivity|]. split; [|reflexivity].
  clear F. induction n as [|n IH]; [apply perm_nil | exact IH].
Qed.

Lemma serial_inv_step (w : World) (file : option bytes) (n i : nat)
  (c c' : Callers.Config) :
  serial_inv w file n c -> Callers.step w i c = Some c' -> serial_inv w file n c'.
Proof.
  intros (Hlen & Hin & rs & sk & Hseq & Hperm & Hsh) H. unfold Callers.step in H.
  destruct (nth_error (Callers.callers c) i) as [p|] eqn:N; [|discriminate H].
  destruct p as [| | |r0].
  - (* mutex.Lock() *)
    destruct (Callers.locked c) eqn:L; [discriminate H|].
    injection H as <-. unfold serial_inv.
    cbn [Callers.callers Callers.locked Callers.shared].
    pose proof (filter_update_length at_load Callers.AtLoad _ _ _ N) as EL.
    pose proof (filter_update_length at_scrape Callers.AtLoad _ _ _ N) as ES.
    pose proof (filter_update_length Callers.returned Callers.AtLoad _ _ _ N) as ER.
    cbn in EL, ES, ER.
    repeat rewrite Nat.add_0_r in EL. repeat rewrite Nat.add_0_r in ES.
    repeat rewrite Nat.add_0_r in ER.
    rewrite update_length, ES, ER.
    split; [exact Hlen|]. split; [lia|].
    exists rs, sk. split; [exact Hseq|]. split; [|exact Hsh].
    rewrite (results_update_other Callers.AtLoad eq_refl _ _ _ N eq_refl). exact Hperm.
  - (* the first if *)
    destruct (Server.tryLoad (Callers.shared c)) as [u s'] eqn:T.
    injection H as <-. unfold serial_inv.
    cbn [Callers.callers Callers.locked Callers.shared].
    pose proof (filter_update_length at_load Callers.AtScrape _ _ _ N) as EL.
    pose proof (filter_update_length at_scrape Callers.AtScrape _ _ _ N) as ES.
    pose proof (filter_update_length Callers.returned Callers.AtScrape _ _ _ N) as ER.
    cbn in EL, ES, ER.
    repeat rewrite Nat.add_0_r in EL. repeat rewrite Nat.add_0_r in ES.
    repeat rewrite Nat.add_0_r in ER.
    assert (List.length (filter at_scrape (Callers.callers c)) = 0) as S0
        by (destruct (Callers.locked c); lia).
    rewrite S0 in Hsh, ES. cbn [Nat.eqb] in Hsh.
    rewrite update_length, ER, ES.
    split; [exact Hlen|]. split; [lia|].
    exists rs, sk. split; [exact Hseq|]. split.
    + rewrite (results_update_other Callers.AtScrape eq_refl _ _ _ N eq_refl).
      exact Hperm.
    + cbn [Nat.add Nat.eqb]. rewrite <- Hsh, T. reflexivity.
  - (* the second if, the return and the deferred Unlock *)
    destruct (Server.scrapeIfEmpty w (Callers.shared c)) as [r s'] eqn:S.
    injection H as <-. unfold serial_inv.
    cbn [Callers.callers Callers.locked Callers.shared].
    pose proof (filter_update_length at_load (Callers.Returned r) _ _ _ N) as EL.
    pose proof (filter_update_length at_scrape (Callers.Returned r) _ _ _ N) as ES.
    pose proof (filter_update_length Callers.returned (Callers.Returned r) _ _ _ N)
      as ER.
    cbn in EL, ES, ER.
    repeat rewrite Nat.add_0_r in EL. repeat rewrite Nat.add_0_r in ES.
    repeat rewrite Nat.add_0_r in ER.
    assert (List.length (filter at_scrape (Callers.callers c)) = 1) as S1
        by (destruct (Callers.locked c); lia).
    rewrite S1 in Hsh. cbn [Nat.eqb] in Hsh.
    assert (List.length (filter at_scrape
                           (Callers.update i (Callers.Returned r) (Callers.callers c)))
            = 0) as S0 by lia.
    rewrite update_length, S0, ER, Nat.add_1_r, EL.
    split; [exact Hlen|]. split; [destruct (Callers.locked c); lia|].
    rewrite sequential_snoc, Hseq, getEvents_in_two_steps, <- Hsh, S.
    exists (rs ++ [r]), s'. split; [reflexivity|]. split; [|reflexivity].
    eapply perm_trans; [apply Permutation_sym, Permutation_cons_append|].
    eapply perm_trans; [apply perm_skip, Hperm|].
    apply (results_update_returned r _ _ _ N eq_refl).
  - discriminate H.
Qed.

Lemma serial_inv_run (w : World) (file : option bytes) (n : nat)
  (schedule : list nat) :
  forall c c', serial_inv w file n c -> Callers.run w schedule c = Some c' ->
               serial_inv w file n c'.
Proof.
  induction schedule as [|i schedule IH]; intros c c' Hc H; cbn in H.
  - injection H as <-. exact Hc.
  - destruct (Callers.step w i c) as [c1|] eqn:S; [|discriminate H].
    apply (IH c1 c' (serial_inv_step w file n i c c1 Hc S) H).
Qed.

Lemma inside_counts (l : list Callers.pc) :
  List.length (filter Callers.inside l)
  = List.length (filter at_load l) + List.length (filter at_scrape l).
Proof.
  induction l as [|p l IH]; [reflexivity|]. destruct p; cbn; lia.
Qed.

Lemma all_returned_counts (l : list Callers.pc) :
  Forall (fun p => Callers.returned p = true) l ->
  List.length (filter Callers.returned l) = List.length l
  /\ List.length (filter at_scrape l) = 0.
Proof.
  induction 1 as [|p l Hp _ [IH1 IH2]]; [split; reflexivity|].
  destruct p; try discriminate Hp. cbn. split; [now rewrite IH1 | exact IH2].
Qed.

Lemma callers_serialised (w : World) (n : nat) (file : option bytes)
  (schedule : list nat) (c : Callers.Config) :
  Callers.run w schedule (Callers.init n file) = Some c ->
  List.length (filter Callers.inside (Callers.callers c))
  = (if Callers.locked c then 1 else 0) /\
  (Forall (fun p => Callers.returned p = true) (Callers.callers c) ->
   exists rs,
     sequential w n (Server.start file) = (rs, Callers.shared c) /\
     Permutation rs (results (Callers.callers c))).
Proof.
  intros Hrun.
  destruct (serial_inv_run w file n schedule _ _ (serial_inv_init w file n) Hrun)
    as (Hlen & Hin & rs & sk & Hseq & Hperm & Hsh).
  split; [rewrite inside_counts; exact Hin|].
  intros Hall. destruct (all_returned_counts _ Hall) as [HR HS].
  rewrite HR, Hlen in Hseq. rewrite HS in Hsh. cbn in Hsh. subst sk.
  exists rs. split; [exact Hseq | exact Hperm].
Qed.

(** X22. Under its mutex [getEvents] is atomic, in any world and with any
    cache file.  However the steps of [n] simultaneous callers are
    scheduled, at most one caller is between [Lock] and [Unlock], the mutex
    being held exactly then; and once all have returned, the state of the
    process is the state after [n] calls made one after the other, and the
    callers have got the results of those calls, each result once. *)
Theorem concurrent_calls_are_serialised (w : World) (n : nat) (file : option bytes)
  (schedule : list nat) (c : Callers.Config) :
  Callers.run w schedule (Callers.init n file) = Some c ->
  List.length (filter Callers.inside (Callers.callers c))
  = (if Callers.locked c then 1 else 0) /\
  (Forall (fun p => Callers.returned p = true) (Callers.callers c) ->
   exists rs,
     sequential w n (Server.start file) = (rs, Callers.shared c) /\
     Permutation rs (results (Callers.callers c))).
Proof. exact (callers_serialised w n file schedule c). Qed.

Lemma concurrent_calls_are_serialised_witness :
  exists c,
    Callers.run (Sample.world "pk.test" [Sample.yesterday]) [1; 1; 1; 0; 0; 0]
      (Callers.init 2 (Some NotJSON)) = Some c /\
    exists rs,
      sequential (Sample.world "pk.test" [Sample.yesterday]) 2
        (Server.start (Some NotJSON)) = (rs, Callers.shared c) /\
      Permutation rs (results (Callers.callers c)).
Proof.
  eexists. split; [vm_compute; reflexivity|].
  refine (proj2 (concurrent_calls_are_serialised
                   (Sample.world "pk.test" [Sample.yesterday]) 2 (Some NotJSON)
                   [1; 1; 1; 0; 0; 0] _ _) _).
  - vm_compute. reflexivity.
  - repeat constructor.
Defined.

Lemma sequential_loaded (w : World) :
  forall k s, Server.eventsCache s <> [] ->
              sequential w k s = (repeat (Server.eventsCache s, None) k, s).
Proof.
  induction k as [|k IH]; intros s Hne; [reflexivity|].
  cbn [sequential repeat]. unfold bind. rewrite (getEvents_loaded w s Hne).
  rewrite (IH s Hne). reflexivity.
Qed.

(** X23. With a cache file that decodes to a non-empty collection, [n]
    simultaneous first calls read the file exactly once and never fetch the
    listing, however their steps are scheduled and in any world; once all
    have returned, every caller has got the collection of the file, without
    error. *)
Theorem concurrent_first_calls_load_once (w : World) (n : nat) (data : bytes)
  (evs : list Event) (schedule : list nat) (c : Callers.Config) :
  Unmarshal data = Some evs ->
  evs <> [] ->
  n <> 0 ->
  Callers.run w schedule (Callers.init n (Some data)) = Some c ->
  Forall (fun p => Callers.returned p = true) (Callers.callers c) ->
  count is_load (Server.log (Callers.shared c)) = 1 /\
  count is_scrape (Server.log (Callers.shared c)) = 0 /\
  Forall (fun p => p = Callers.Returned (evs, None)) (Callers.callers c).
Proof.
  intros U Hne Hn Hrun Hall.
  destruct (callers_serialised w n (Some data) schedule c Hrun) as [_ Hser].
  destruct (Hser Hall) as (rs & Hseq & Hperm).
  destruct n as [|k]; [contradiction|].
  cbn [sequential] in Hseq. unfold bind in Hseq.
  rewrite (getEvents_adopts_file w (Server.start (Some data)) data evs
             eq_refl eq_refl U Hne) in Hseq.
  rewrite sequential_loaded in Hseq by exact Hne.
  cbn [Server.eventsCache ret] in Hseq. injection Hseq as <- <-.
  split; [reflexivity|]. split; [reflexivity|].
  apply Forall_forall. intros p Hp.
  rewrite Forall_forall in Hall. specialize (Hall p Hp).
  destruct p as [| | |r]; try discriminate Hall.
  assert (In r (results (Callers.callers c))) as Hr.
  { clear -Hp. induction (Callers.callers c) as [|q l IH]; [destruct Hp|].
    destruct Hp as [-> | Hp]; [now left|].
    destruct q; cbn; auto. }
  apply (Permutation_in _ (Permutation_sym Hperm)) in Hr.
  change ((evs, None) :: repeat (evs, None) k) with (repeat (evs, @None error) (S k)) in Hr.
  apply repeat_spec in Hr. now subst r.
Qed.

Lemma concurrent_first_calls_load_once_witness :
  match Callers.run Sample.offline (Callers.in_turn 3)
          (Callers.init 3 (Some (Text (JArray (map MarshalEvent Sample.collection)))))
  with
  | Some c =>
      count is_load (Server.log (Callers.shared c)) = 1 /\
      count is_scrape (Server.log (Callers.shared c)) = 0
  | None => False
  end.
Proof.
  destruct (Callers.run Sample.offline (Callers.in_turn 3)
              (Callers.init 3 (Some (Text (JArray (map MarshalEvent Sample.collection))))))
    as [c|] eqn:R.
  - destruct (concurrent_first_calls_load_once Sample.offline 3
                (Text (JArray (map MarshalEvent Sample.collection)))
                Sample.collection (Callers.in_turn 3) c) as (H1 & H2 & _).
    + reflexivity.
    + discriminate.
    + discriminate.
    + exact R.
    + vm_compute in R. injection R as <-. repeat constructor.
    + split; [exact H1 | exact H2].
  - vm_compute in R. discriminate R.
Defined.
